(** * hcmetanode: a shallow embedding of the field / validator / MetaNode layer

    The development follows the Python sources of [scripts/hcmetanode]:
    - [validators.py]: the stateless codecs ([from_attribute], [to_attribute],
      [process_kwargs], [serialize], [get_default_value]);
    - [fields.py]: [get_field_class], [Field], [PublicField] and
      [MultiField] with their [create_attribute], [get], [set], [read],
      [write], [serialize] and [clear];
    - [metanode.py]: [MetaNode.__new__], [MetaNode.__init__], [from_uuid],
      [add_default_fields], [add_field], [read_fields], [write_fields],
      [serialize], [uuid], [path], [__getattr__], [__eq__], and the
      lookup of an attribute of an instance;
    - [utils.py]: [get_uuid], [get_mobject], [all_subclasses].

    Python objects live in an explicit heap, the Maya scene is an explicit
    store, and every method is a function in a state-and-exception monad. *)

From Stdlib Require Import ZArith List String Ascii Bool Lia.
From Stdlib Require Import Floats.SpecFloat.
From Stdlib Require Import DecimalString DecimalZ.
Import ListNotations.
Open Scope string_scope.
Open Scope Z_scope.

(* ================================================================= *)
(** ** Python values *)

(** A double is an IEEE-754 binary64 value. *)
Definition pyfloat := spec_float.

(** References to [MetaNode] instances in the heap. *)
Definition ref := nat.

Set Warnings "-register-all".

(** The Python (and Maya) values the library manipulates.  A [dict] keeps
    its items as an association list in insertion order; keys are strings,
    as in every dict the library builds. *)
Inductive pyval : Type :=
| VNone
| VBool (b : bool)
| VInt (z : Z)
| VFloat (f : pyfloat)
| VStr (s : string)
| VList (l : list pyval)
| VDict (d : list (string * pyval))
| VMatrix (m : list pyfloat)   (* om2.MMatrix: sixteen doubles, row major *)
| VNode (r : ref).              (* a MetaNode instance *)

(** The exception classes the code raises or lets through. *)
Inductive exn : Type :=
| TypeError (msg : string)
| ValueError (msg : string)
| KeyError (key : string)
| AttributeError (msg : string)
| OverflowError
| RuntimeError (msg : string)
| PyException (msg : string).

(** Outcome of running a piece of the program.  [Beyond] marks a behaviour
    of the interpreter or of Maya that the embedding does not determine
    (printing a double, exhausting the recursion allowance); it is not a
    Python exception and no [except] clause catches it. *)
Inductive result (A : Type) : Type :=
| Ok (a : A)
| Raise (e : exn)
| Beyond (why : string).
Arguments Ok {A} a.
Arguments Raise {A} e.
Arguments Beyond {A} why.

(* ----------------------------------------------------------------- *)
(** *** Association lists used as Python dicts *)

Section Dict.
Context {V : Type}.

Fixpoint dict_get (k : string) (d : list (string * V)) : option V :=
  match d with
  | [] => None
  | (k', v) :: d' => if String.eqb k k' then Some v else dict_get k d'
  end.

(** [d[k] = v]: overwrite in place or append. *)
Fixpoint dict_set (k : string) (v : V) (d : list (string * V))
  : list (string * V) :=
  match d with
  | [] => [(k, v)]
  | (k', v') :: d' =>
      if String.eqb k k' then (k', v) :: d' else (k', v') :: dict_set k v d'
  end.

Fixpoint dict_del (k : string) (d : list (string * V)) : list (string * V) :=
  match d with
  | [] => []
  | (k', v') :: d' =>
      if String.eqb k k' then d' else (k', v') :: dict_del k d'
  end.

Definition dict_has (k : string) (d : list (string * V)) : bool :=
  match dict_get k d with Some _ => true | None => false end.

Definition dict_keys (d : list (string * V)) : list string := map fst d.
End Dict.

(** [d1.update(d2)] *)
Definition dict_update {V} (d1 d2 : list (string * V)) : list (string * V) :=
  fold_left (fun acc kv => dict_set (fst kv) (snd kv) acc) d2 d1.

(* ----------------------------------------------------------------- *)
(** *** Builtins: [bool], [int], [float], [str] *)

Definition float_of_Z (z : Z) : pyfloat := binary_normalize 53 1024 z 0 false.

Definition float_is_zero (f : pyfloat) : bool :=
  match f with S754_zero _ => true | _ => false end.

(** Truthiness.  Instances of new-style classes without [__nonzero__] or
    [__len__] on the type are true; a matrix has sixteen entries. *)
Definition py_truth (v : pyval) : bool :=
  match v with
  | VNone => false
  | VBool b => b
  | VInt z => negb (z =? 0)
  | VFloat f => negb (float_is_zero f)
  | VStr s => negb (String.eqb s EmptyString)
  | VList l => match l with [] => false | _ => true end
  | VDict d => match d with [] => false | _ => true end
  | VMatrix _ => true
  | VNode _ => true
  end.

Definition is_space (c : ascii) : bool :=
  let n := nat_of_ascii c in
  (Nat.eqb n 32 || (Nat.leb 9 n && Nat.leb n 13))%bool.

Fixpoint lstrip (s : string) : string :=
  match s with
  | String c s' => if is_space c then lstrip s' else s
  | EmptyString => EmptyString
  end.

Fixpoint string_rev_onto (s acc : string) : string :=
  match s with
  | EmptyString => acc
  | String c s' => string_rev_onto s' (String c acc)
  end.

Definition string_rev (s : string) : string := string_rev_onto s EmptyString.

Definition strip (s : string) : string :=
  string_rev (lstrip (string_rev (lstrip s))).

Definition is_digit (c : ascii) : bool :=
  let n := nat_of_ascii c in (Nat.leb 48 n && Nat.leb n 57)%bool.

Fixpoint all_digits (s : string) : bool :=
  match s with
  | EmptyString => true
  | String c s' => (is_digit c && all_digits s')%bool
  end.

(** Decimal literal accepted by [int(str)]: optional sign, then digits. *)
Definition parse_int (s : string) : option Z :=
  let body := match s with
              | String "+" s' => s'
              | String "-" s' => s'
              | _ => s
              end in
  let neg := match s with String "-" _ => true | _ => false end in
  match body with
  | EmptyString => None
  | _ =>
      if all_digits body then
        match NilZero.int_of_string body with
        | Some d => Some (if neg then - Z.of_int d else Z.of_int d)
        | None => None
        end
      else None
  end.

Definition string_of_Z (z : Z) : string := NilZero.string_of_int (Z.to_int z).

(** Truncation toward zero of a finite double. *)
Definition Z_of_float (f : pyfloat) : result Z :=
  match f with
  | S754_zero _ => Ok 0
  | S754_infinity _ => Raise OverflowError
  | S754_nan => Raise (ValueError "cannot convert float NaN to integer")
  | S754_finite s m e =>
      let a := if 0 <=? e then Z.pos m * 2 ^ e else Z.pos m / 2 ^ (- e) in
      Ok (if s then - a else a)
  end.

(** [int(value)] *)
Definition py_int (v : pyval) : result pyval :=
  match v with
  | VBool b => Ok (VInt (if b then 1 else 0))
  | VInt z => Ok (VInt z)
  | VFloat f => match Z_of_float f with
                | Ok z => Ok (VInt z)
                | Raise e => Raise e
                | Beyond w => Beyond w
                end
  | VStr s => match parse_int (strip s) with
              | Some z => Ok (VInt z)
              | None => Raise (ValueError "invalid literal for int()")
              end
  | _ => Raise (TypeError "int() argument must be a string or a number")
  end.

(** [float(value)].  Parsing a double out of text is left undetermined. *)
Definition py_float (v : pyval) : result pyval :=
  match v with
  | VBool b => Ok (VFloat (float_of_Z (if b then 1 else 0)))
  | VInt z =>
      match float_of_Z z with
      | S754_infinity _ => Raise OverflowError
      | f => Ok (VFloat f)
      end
  | VFloat f => Ok (VFloat f)
  | VStr _ => Beyond "float(str)"
  | _ => Raise (TypeError "float() argument must be a string or a number")
  end.

(** [bool(value)] *)
Definition py_bool (v : pyval) : result pyval := Ok (VBool (py_truth v)).

(* ----------------------------------------------------------------- *)
(** *** Results as a monad *)

Definition rbind {A B} (r : result A) (k : A -> result B) : result B :=
  match r with
  | Ok a => k a
  | Raise e => Raise e
  | Beyond w => Beyond w
  end.

(* ----------------------------------------------------------------- *)
(** *** The [json] module: [json.dumps] and [json.loads]

    Text is produced with the default separators of Python 2.7
    ([", "] and [": "]).  Doubles, control characters and characters
    outside ASCII are left undetermined. *)

(** The double quote. *)
Definition dquote : ascii := "034"%char.

Definition plain_char (c : ascii) : bool :=
  let n := nat_of_ascii c in (Nat.leb 32 n && Nat.leb n 126)%bool.

Fixpoint json_escape (s : string) : result string :=
  match s with
  | EmptyString => Ok EmptyString
  | String c s' =>
      rbind (json_escape s') (fun r =>
        if Ascii.eqb c dquote then Ok (String "\" (String dquote r))
        else if Ascii.eqb c "\" then Ok (String "\" (String "\" r))
        else if plain_char c then Ok (String c r)
        else Beyond "json string escape")
  end.

Definition json_quote (s : string) : result string :=
  rbind (json_escape s) (fun r => Ok (String dquote (r ++ String dquote EmptyString))).

Fixpoint join (sep : string) (l : list string) : string :=
  match l with
  | [] => EmptyString
  | [x] => x
  | x :: l' => x ++ sep ++ join sep l'
  end.

(** Apply [f] to every element, stopping at the first failure. *)
Definition rmap {A B} (f : A -> result B) : list A -> result (list B) :=
  fix go (l : list A) : result (list B) :=
    match l with
    | [] => Ok []
    | x :: l' => rbind (f x) (fun y => rbind (go l') (fun ys => Ok (y :: ys)))
    end.

Fixpoint json_dumps_body (v : pyval) : result string :=
  match v with
  | VNone => Ok "null"
  | VBool true => Ok "true"
  | VBool false => Ok "false"
  | VInt z => Ok (string_of_Z z)
  | VFloat _ => Beyond "json float repr"
  | VStr s => json_quote s
  | VList l =>
      rbind (rmap json_dumps_body l) (fun ss => Ok ("[" ++ join ", " ss ++ "]"))
  | VDict d =>
      rbind (rmap (fun kv =>
                     let '(k, x) := kv in
                     rbind (json_quote k) (fun ks =>
                     rbind (json_dumps_body x) (fun t => Ok (ks ++ ": " ++ t))))
                  d)
            (fun ss => Ok ("{" ++ join ", " ss ++ "}"))
  | VMatrix _ => Raise (TypeError "MMatrix is not JSON serializable")
  | VNode _ => Raise (TypeError "MetaNode is not JSON serializable")
  end.

Definition json_dumps (v : pyval) : result string := json_dumps_body v.

Definition bad_json {A} : result A :=
  Raise (ValueError "No JSON object could be decoded").

(** Characters of a string literal up to the closing quote. *)
Fixpoint scan_string (s : string) : result (string * string) :=
  match s with
  | EmptyString => bad_json
  | String c s' =>
      if Ascii.eqb c dquote then Ok (EmptyString, s')
      else if Ascii.eqb c "\" then
        match s' with
        | String e s'' =>
            if (Ascii.eqb e dquote || Ascii.eqb e "\" || Ascii.eqb e "/")%bool
            then rbind (scan_string s'') (fun '(r, rest) => Ok (String e r, rest))
            else if Ascii.eqb e "u" then Beyond "json unicode escape"
            else if (Ascii.eqb e "n" || Ascii.eqb e "t" || Ascii.eqb e "r"
                     || Ascii.eqb e "b" || Ascii.eqb e "f")%bool
            then Beyond "json control escape"
            else bad_json
        | EmptyString => bad_json
        end
      else if plain_char c then
        rbind (scan_string s') (fun '(r, rest) => Ok (String c r, rest))
      else if Nat.ltb (nat_of_ascii c) 32 then bad_json
      else Beyond "json non-ascii text"
  end.

(** Longest prefix of digits. *)
Fixpoint scan_digits (s : string) : string * string :=
  match s with
  | String c s' =>
      if is_digit c then let '(d, r) := scan_digits s' in (String c d, r)
      else (EmptyString, s)
  | EmptyString => (EmptyString, EmptyString)
  end.

Definition head_is (c : ascii) (s : string) : bool :=
  match s with
  | String c' _ => Ascii.eqb c' c
  | EmptyString => false
  end.

Definition tail (s : string) : string :=
  match s with
  | String _ r => r
  | EmptyString => EmptyString
  end.

(** An integer literal; a fraction or an exponent makes it a double. *)
Definition scan_number (s : string) : result (pyval * string) :=
  let neg := head_is "-" s in
  let body := if neg then tail s else s in
  let '(d, rest) := scan_digits body in
  match d with
  | EmptyString => bad_json
  | String c d' =>
      if (Ascii.eqb c "0" && negb (String.eqb d' EmptyString))%bool then bad_json
      else if (head_is "." rest || head_is "e" rest || head_is "E" rest)%bool
      then Beyond "json float"
      else
        match NilZero.int_of_string d with
        | Some i => Ok (VInt (if neg then - Z.of_int i else Z.of_int i), rest)
        | None => bad_json
        end
  end.

Definition expect (lit : string) (v : pyval) (s : string)
  : result (pyval * string) :=
  if String.prefix lit s
  then Ok (v, String.substring (String.length lit)
                               (String.length s - String.length lit) s)
  else bad_json.

Fixpoint parse_value (fuel : nat) (s : string) : result (pyval * string) :=
  match fuel with
  | O => Beyond "json nesting"
  | S f =>
      match lstrip s with
      | EmptyString => bad_json
      | String c r =>
          if Ascii.eqb c "{" then
            if head_is "}" (lstrip r) then Ok (VDict [], tail (lstrip r))
            else parse_members f r []
          else if Ascii.eqb c "[" then
            if head_is "]" (lstrip r) then Ok (VList [], tail (lstrip r))
            else parse_elems f r []
          else if Ascii.eqb c dquote then
            rbind (scan_string r) (fun '(t, r') => Ok (VStr t, r'))
          else if Ascii.eqb c "t" then expect "true" (VBool true) (String c r)
          else if Ascii.eqb c "f" then expect "false" (VBool false) (String c r)
          else if Ascii.eqb c "n" then expect "null" VNone (String c r)
          else scan_number (String c r)
      end
  end
with parse_elems (fuel : nat) (s : string) (acc : list pyval)
  : result (pyval * string) :=
  match fuel with
  | O => Beyond "json nesting"
  | S f =>
      rbind (parse_value f s) (fun '(v, r) =>
        if head_is "," (lstrip r) then parse_elems f (tail (lstrip r)) (acc ++ [v])
        else if head_is "]" (lstrip r) then Ok (VList (acc ++ [v]), tail (lstrip r))
        else bad_json)
  end
with parse_members (fuel : nat) (s : string) (acc : list (string * pyval))
  : result (pyval * string) :=
  match fuel with
  | O => Beyond "json nesting"
  | S f =>
      if head_is dquote (lstrip s) then
        rbind (scan_string (tail (lstrip s))) (fun '(k, r1) =>
          if head_is ":" (lstrip r1) then
            rbind (parse_value f (tail (lstrip r1))) (fun '(v, r3) =>
              if head_is "," (lstrip r3)
              then parse_members f (tail (lstrip r3)) (dict_set k v acc)
              else if head_is "}" (lstrip r3)
              then Ok (VDict (dict_set k v acc), tail (lstrip r3))
              else bad_json)
          else bad_json)
      else bad_json
  end.

Definition json_loads (s : string) : result pyval :=
  rbind (parse_value (2 * String.length s + 2) s) (fun '(v, rest) =>
    match lstrip rest with
    | EmptyString => Ok v
    | _ => Raise (ValueError "Extra data")
    end).


Fixpoint plain_string (s : string) : bool :=
  match s with
  | EmptyString => true
  | String c s' => (plain_char c && plain_string s')%bool
  end.

Fixpoint unique_keys {V} (d : list (string * V)) : bool :=
  match d with
  | [] => true
  | (k, _) :: d' => (negb (dict_has k d') && unique_keys d')%bool
  end.

(** The values [json.dumps] writes and [json.loads] gives back as they
    were: [None], booleans, integers, text of printable ASCII, lists, and
    dicts with distinct keys, all of such values. *)
Fixpoint json_ok (v : pyval) : bool :=
  match v with
  | VNone | VBool _ | VInt _ => true
  | VStr s => plain_string s
  | VList l => forallb json_ok l
  | VDict d =>
      (forallb (fun kv => let '(k, x) := kv in (plain_string k && json_ok x)%bool) d
       && unique_keys d)%bool
  | _ => false
  end.

(** Nesting allowance that reading back the text of a value takes. *)
Fixpoint need (v : pyval) : nat :=
  match v with
  | VList l => S (list_sum (map (fun x => S (need x)) l))
  | VDict d => S (list_sum (map (fun kv => let '(_, x) := kv in S (need x)) d))
  | _ => 1
  end.

Definition elems_need (l : list pyval) : nat :=
  list_sum (map (fun x => S (need x)) l).

Definition members_need (d : list (string * pyval)) : nat :=
  list_sum (map (fun kv => let '(_, x) := kv in S (need x)) d).

(** What may follow a value in a JSON text: nothing, or a separator. *)
Definition delimited (rest : string) : Prop :=
  rest = EmptyString \/ head_is "," rest = true \/ head_is "]" rest = true \/
  head_is "}" rest = true.

(** A number starts with a sign or a digit, which no other value does. *)
Definition number_start (c : ascii) : bool := (Ascii.eqb c "-" || is_digit c)%bool.

(** The first character of the text of a value: not a blank, and not a
    closing bracket. *)
Definition opens_value (s : string) : Prop :=
  exists c t, s = String c t /\ is_space c = false /\
              Ascii.eqb c "]" = false /\ Ascii.eqb c "}" = false.

(** The text of one member of a dict. *)
Definition member_text (kv : string * pyval) : result string :=
  let '(k, x) := kv in
  rbind (json_quote k) (fun ks =>
  rbind (json_dumps_body x) (fun t => Ok (ks ++ ": " ++ t))).

Definition member_ok (kv : string * pyval) : bool :=
  let '(k, x) := kv in (plain_string k && json_ok x)%bool.

(** With allowance [n], every value that needs no more is written as a
    text that reads back as the value, whatever delimiter follows. *)
Definition reads_value (n : nat) : Prop :=
  forall v, (need v <= n)%nat -> json_ok v = true ->
    exists s, json_dumps_body v = Ok s /\
              (need v <= String.length s)%nat /\ opens_value s /\
              forall rest, delimited rest ->
                parse_value n (s ++ rest) = Ok (v, rest).

(** The same for the elements of a list, up to the closing bracket. *)
Definition reads_elems (n : nat) : Prop :=
  forall l, l <> [] -> (elems_need l <= n)%nat -> forallb json_ok l = true ->
    exists ss, rmap json_dumps_body l = Ok ss /\
               (elems_need l <= String.length (join ", " ss) + 1)%nat /\
               opens_value (join ", " ss) /\
               forall acc rest,
                 parse_elems n (join ", " ss ++ String "]" rest) acc
                 = Ok (VList (acc ++ l), rest).

(** The same for the members of a dict, up to the closing brace. *)
Definition reads_members (n : nat) : Prop :=
  forall d, d <> [] -> (members_need d <= n)%nat ->
    forallb member_ok d = true -> unique_keys d = true ->
    exists ss, rmap member_text d = Ok ss /\
               (members_need d <= String.length (join ", " ss) + 1)%nat /\
               head_is dquote (join ", " ss) = true /\
               forall acc rest,
                 (forall k, dict_has k d = true -> dict_has k acc = false) ->
                 parse_members n (join ", " ss ++ String "}" rest) acc
                 = Ok (VDict (acc ++ d), rest).

(* ================================================================= *)
(** ** The Maya scene: the attribute store behind [maya.cmds] *)

Inductive attr_type : Type :=
| TLong | TDouble | TBool | TString | TMatrix | TEnum (enumName : string).

(** One attribute of a node.  A single attribute keeps its value in
    [a_value]; a multi attribute keeps its elements, by logical index
    [0 .. n-1], in [a_elems] with one lock per element.  [a_connected] says
    that the plug has an incoming connection. *)
Record attr : Type := mkAttr {
  a_type : attr_type;
  a_multi : bool;
  a_value : pyval;
  a_elems : list (pyval * bool);
  a_locked : bool;
  a_connected : bool;
  a_channelBox : bool
}.

(** A dependency node.  [n_uuid] is the durable id, [n_name] the unique
    name the node currently has. *)
Record node : Type := mkNode {
  n_name : string;
  n_uuid : string;
  n_attrs : list (string * attr)
}.

Definition scene := list node.

Definition float_zero : pyfloat := S754_zero false.
Definition float_one : pyfloat := float_of_Z 1.

Definition identity_matrix : list pyfloat :=
  [float_one; float_zero; float_zero; float_zero;
   float_zero; float_one; float_zero; float_zero;
   float_zero; float_zero; float_one; float_zero;
   float_zero; float_zero; float_zero; float_one].

(** What [getAttr] returns for an attribute nobody has set yet.  A string
    attribute without data reads as [None]. *)
Definition type_default (t : attr_type) : pyval :=
  match t with
  | TLong => VInt 0
  | TDouble => VFloat float_zero
  | TBool => VBool false
  | TString => VNone
  | TMatrix => VList (map VFloat identity_matrix)
  | TEnum _ => VInt 0
  end.

Fixpoint find_node (name : string) (sc : scene) : option node :=
  match sc with
  | [] => None
  | n :: sc' => if String.eqb name (n_name n) then Some n else find_node name sc'
  end.

Fixpoint find_uuid (uuid : string) (sc : scene) : option node :=
  match sc with
  | [] => None
  | n :: sc' => if String.eqb uuid (n_uuid n) then Some n else find_uuid uuid sc'
  end.

(** Replace the attributes of the node called [name]. *)
Fixpoint set_node_attrs (name : string) (attrs : list (string * attr))
  (sc : scene) : scene :=
  match sc with
  | [] => []
  | n :: sc' =>
      if String.eqb name (n_name n)
      then mkNode (n_name n) (n_uuid n) attrs :: sc'
      else n :: set_node_attrs name attrs sc'
  end.

(** [cmds.objExists(node)] *)
Definition objExists (name : string) (sc : scene) : bool :=
  match find_node name sc with Some _ => true | None => false end.

(** [cmds.attributeQuery(attr, node=node, exists=True)] *)
Definition attributeQuery_exists (a node_name : string) (sc : scene) : bool :=
  match find_node node_name sc with
  | Some n => dict_has a (n_attrs n)
  | None => false
  end.

(** [cmds.ls(arg)]: names of the nodes whose name or UUID is [arg]. *)
Definition ls (arg : string) (sc : scene) : list string :=
  map n_name
      (filter (fun n => (String.eqb arg (n_name n) || String.eqb arg (n_uuid n))%bool) sc).

Definition no_object {A} (what : string) : result A :=
  Raise (ValueError ("No object matches name: " ++ what)).

Definition lookup_attr (node_name a : string) (sc : scene) : result attr :=
  match find_node node_name sc with
  | None => no_object node_name
  | Some n =>
      match dict_get a (n_attrs n) with
      | None => no_object (node_name ++ "." ++ a)
      | Some x => Ok x
      end
  end.

Definition store_attr (node_name a : string) (x : attr) (sc : scene) : scene :=
  match find_node node_name sc with
  | None => sc
  | Some n => set_node_attrs node_name (dict_set a x (n_attrs n)) sc
  end.

(** [cmds.addAttr(node, longName=a, keyable=False, multi=..., **kwargs)];
    the type comes from the validator's creation options. *)
Definition addAttr (node_name a : string) (t : attr_type) (multi : bool)
  (sc : scene) : result scene :=
  match find_node node_name sc with
  | None => no_object node_name
  | Some n =>
      if dict_has a (n_attrs n)
      then Raise (RuntimeError "Found an attribute of the same name")
      else Ok (store_attr node_name a
                 (mkAttr t multi (type_default t) [] false false false) sc)
  end.

(** [cmds.getAttr(path)] of a single attribute. *)
Definition getAttr (node_name a : string) (sc : scene) : result pyval :=
  rbind (lookup_attr node_name a sc) (fun x =>
    if a_multi x then Beyond "getAttr of a whole multi attribute"
    else Ok (a_value x)).

(** [cmds.getAttr("path[i]")] of one element of a multi attribute. *)
Definition getAttr_elem (node_name a : string) (i : nat) (sc : scene)
  : result pyval :=
  rbind (lookup_attr node_name a sc) (fun x =>
    match nth_error (a_elems x) i with
    | Some (v, _) => Ok v
    | None => Beyond "getAttr of an absent element"
    end).

(** [cmds.setAttr(path, lock=b)] *)
Definition setAttr_lock (node_name a : string) (b : bool) (sc : scene)
  : result scene :=
  rbind (lookup_attr node_name a sc) (fun x =>
    Ok (store_attr node_name a
          (mkAttr (a_type x) (a_multi x) (a_value x) (a_elems x) b
                  (a_connected x) (a_channelBox x)) sc)).

Fixpoint set_nth {A} (i : nat) (v : A) (l : list A) : list A :=
  match i, l with
  | O, _ :: l' => v :: l'
  | S i', x :: l' => x :: set_nth i' v l'
  | _, [] => []
  end.

(** [cmds.setAttr("path[i]", lock=b)] *)
Definition setAttr_elem_lock (node_name a : string) (i : nat) (b : bool)
  (sc : scene) : result scene :=
  rbind (lookup_attr node_name a sc) (fun x =>
    match nth_error (a_elems x) i with
    | Some (v, _) =>
        Ok (store_attr node_name a
              (mkAttr (a_type x) (a_multi x) (a_value x)
                      (set_nth i (v, b) (a_elems x)) (a_locked x)
                      (a_connected x) (a_channelBox x)) sc)
    | None => Beyond "lock of an absent element"
    end).

(** [cmds.setAttr(path, edit=True, channelBox=True)] *)
Definition setAttr_channelBox (node_name a : string) (sc : scene)
  : result scene :=
  rbind (lookup_attr node_name a sc) (fun x =>
    Ok (store_attr node_name a
          (mkAttr (a_type x) (a_multi x) (a_value x) (a_elems x) (a_locked x)
                  (a_connected x) true) sc)).

Definition cannot_set {A} : result A :=
  Raise (RuntimeError "setAttr: the value does not fit the attribute").

Fixpoint floats_of (l : list pyval) : option (list pyfloat) :=
  match l with
  | [] => Some []
  | v :: l' =>
      match floats_of l' with
      | None => None
      | Some fs =>
          match v with
          | VFloat f => Some (f :: fs)
          | VInt z => Some (float_of_Z z :: fs)
          | _ => None
          end
      end
  end.

(** The value Maya keeps when [setAttr] is given [v], with the optional
    [type=] flag [hint], on an attribute of type [t]. *)
Definition coerce (t : attr_type) (hint : option string) (v : pyval)
  : result pyval :=
  match t, hint with
  | TLong, None =>
      match v with
      | VInt z => Ok (VInt z)
      | VBool b => Ok (VInt (if b then 1 else 0))
      | VFloat _ => Beyond "setAttr rounding of a double"
      | _ => cannot_set
      end
  | TEnum _, None =>
      match v with
      | VInt z => Ok (VInt z)
      | VBool b => Ok (VInt (if b then 1 else 0))
      | VFloat _ => Beyond "setAttr rounding of a double"
      | _ => cannot_set
      end
  | TDouble, None =>
      match v with
      | VFloat f => Ok (VFloat f)
      | VInt z => Ok (VFloat (float_of_Z z))
      | VBool b => Ok (VFloat (float_of_Z (if b then 1 else 0)))
      | _ => cannot_set
      end
  | TBool, None =>
      match v with
      | VBool b => Ok (VBool b)
      | VInt z => Ok (VBool (negb (z =? 0)))
      | VFloat f => Ok (VBool (negb (float_is_zero f)))
      | _ => cannot_set
      end
  | TString, Some "string" =>
      match v with
      | VStr s => Ok (VStr s)
      | _ => cannot_set
      end
  | TMatrix, Some "matrix" =>
      match v with
      | VMatrix m =>
          if Nat.eqb (List.length m) 16 then Ok (VList (map VFloat m))
          else cannot_set
      | VList l =>
          match floats_of l with
          | Some fs =>
              if Nat.eqb (List.length fs) 16 then Ok (VList (map VFloat fs))
              else cannot_set
          | None => cannot_set
          end
      | _ => cannot_set
      end
  | _, _ => cannot_set
  end.

Definition locked_or_connected {A} : result A :=
  Raise (RuntimeError "setAttr: the attribute is locked or connected").

(** [cmds.setAttr(path, value, **set_attribute_kwargs)] *)
Definition setAttr (node_name a : string) (v : pyval) (hint : option string)
  (sc : scene) : result scene :=
  rbind (lookup_attr node_name a sc) (fun x =>
    if (a_locked x || a_connected x || a_multi x)%bool then locked_or_connected
    else
      rbind (coerce (a_type x) hint v) (fun raw =>
        Ok (store_attr node_name a
              (mkAttr (a_type x) (a_multi x) raw (a_elems x) (a_locked x)
                      (a_connected x) (a_channelBox x)) sc))).

(** [cmds.setAttr("path[i]", value, **set_attribute_kwargs)]: writing at
    the first free logical index creates the element. *)
Definition setAttr_elem (node_name a : string) (i : nat) (v : pyval)
  (hint : option string) (sc : scene) : result scene :=
  rbind (lookup_attr node_name a sc) (fun x =>
    if (a_locked x || a_connected x || negb (a_multi x))%bool
    then locked_or_connected
    else
      rbind (coerce (a_type x) hint v) (fun raw =>
        let n := List.length (a_elems x) in
        if Nat.ltb i n then
          match nth_error (a_elems x) i with
          | Some (_, true) => locked_or_connected
          | _ =>
              Ok (store_attr node_name a
                    (mkAttr (a_type x) (a_multi x) (a_value x)
                            (set_nth i (raw, false) (a_elems x)) (a_locked x)
                            (a_connected x) (a_channelBox x)) sc)
          end
        else if Nat.eqb i n then
          Ok (store_attr node_name a
                (mkAttr (a_type x) (a_multi x) (a_value x)
                        (a_elems x ++ [(raw, false)]) (a_locked x)
                        (a_connected x) (a_channelBox x)) sc)
        else Beyond "sparse multi attribute")).

(** [cmds.listConnections(path, source=True, destination=False)], as the
    truth value the code tests. *)
Definition listConnections (node_name a : string) (sc : scene) : result bool :=
  rbind (lookup_attr node_name a sc) (fun x => Ok (a_connected x)).

(** [cmds.removeMultiInstance(path, allChildren=True, b=True)]: every
    element goes, and [b=True] breaks the incoming connections first. *)
Definition removeMultiInstance (node_name a : string) (sc : scene)
  : result scene :=
  rbind (lookup_attr node_name a sc) (fun x =>
    if a_locked x then locked_or_connected
    else
      Ok (store_attr node_name a
            (mkAttr (a_type x) (a_multi x) (a_value x) [] (a_locked x)
                    false (a_channelBox x)) sc)).

(** [mplug.numElements()] *)
Definition numElements (node_name a : string) (sc : scene) : result nat :=
  rbind (lookup_attr node_name a sc) (fun x => Ok (List.length (a_elems x))).

(* ================================================================= *)
(** ** Program objects and the interpreter state *)

(** The subclasses of [FieldValidator] defined in [validators.py]. *)
Inductive validator_class : Type :=
| IntValidator | FloatValidator | BoolValidator | StringValidator
| MatrixValidator | EnumValidator | MetaNodeValidator | JsonValidator.

(** [all_subclasses(FieldValidator)] *)
Definition all_validators : list validator_class :=
  [IntValidator; FloatValidator; BoolValidator; StringValidator;
   MatrixValidator; EnumValidator; MetaNodeValidator; JsonValidator].

(** [validator.__name__] *)
Definition validator_name (v : validator_class) : string :=
  match v with
  | IntValidator => "IntValidator"
  | FloatValidator => "FloatValidator"
  | BoolValidator => "BoolValidator"
  | StringValidator => "StringValidator"
  | MatrixValidator => "MatrixValidator"
  | EnumValidator => "EnumValidator"
  | MetaNodeValidator => "MetaNodeValidator"
  | JsonValidator => "JsonValidator"
  end.

(** [class Accessibility(Enum)]: [private = 1], [public = 2]. *)
Inductive Accessibility : Type := private | public.

Definition accessibility_value (a : Accessibility) : Z :=
  match a with private => 1 | public => 2 end.

Definition accessibility_eqb (a b : Accessibility) : bool :=
  match a, b with
  | private, private | public, public => true
  | _, _ => false
  end.

(** The three concrete field classes of [fields.py]. *)
Inductive field_class : Type := Field | PublicField | MultiField.

Definition fref := nat.

(** A field object: the attributes [FieldBase.__init__] sets. *)
Record field : Type := mkField {
  f_class : field_class;
  validator : validator_class;
  create_attribute_kwargs : attr_type;
  f_metanode : ref;
  f_name : string;
  _value : pyval
}.

(** A [MetaNode] instance: its class name, [self.mobject] (the handle of
    the node, kept as the node's UUID) and [self.fields]. *)
Record metanode : Type := mkMetaNode {
  m_class : string;
  mobject : string;
  fields : list (string * fref)
}.

(** Calls and log records kept for the specification. *)
Inductive event : Type :=
| EvInitialize (r : ref)                       (* [self.initialize()] ran *)
| EvRegister (r : ref)                         (* [_instances[uuid] = self] *)
| EvAddField (r : ref) (name : string) (present : list string)
                                               (* [add_field] entered *)
| EvWarning (e : exn).                         (* [logger.warning(error)] *)

(** The state of one Python process attached to one scene.
    [st_instances] is [MetaNode._instances]; [st_classes] lists the
    subclasses of [MetaNode] that have been imported, each with its direct
    base class. *)
Record state : Type := mkState {
  st_scene : scene;
  st_heap : list metanode;
  st_fields : list field;
  st_instances : list (string * ref);
  st_classes : list (string * string);
  st_trace : list event
}.

Definition M (A : Type) : Type := state -> result A * state.

Definition ret {A} (a : A) : M A := fun st => (Ok a, st).

Definition bind {A B} (m : M A) (k : A -> M B) : M B :=
  fun st =>
    match m st with
    | (Ok a, st') => k a st'
    | (Raise e, st') => (Raise e, st')
    | (Beyond w, st') => (Beyond w, st')
    end.

Definition raise {A} (e : exn) : M A := fun st => (Raise e, st).

Definition beyond {A} (w : string) : M A := fun st => (Beyond w, st).

Declare Scope monad_scope.
Delimit Scope monad_scope with monad.
Notation "x <- m ;; k" := (bind m (fun x => k))
  (at level 61, m at next level, right associativity) : monad_scope.
Notation "' pat <- m ;; k" := (bind m (fun x => match x with pat => k end))
  (at level 61, pat pattern, m at next level, right associativity) : monad_scope.
Notation "m ;;; k" := (bind m (fun _ => k))
  (at level 61, right associativity) : monad_scope.
Open Scope monad_scope.

(** [try: m  except Exception as e: h e].  The effects of [m] up to the
    exception stay. *)
Definition try_except {A} (m : M A) (h : exn -> M A) : M A :=
  fun st =>
    match m st with
    | (Raise e, st') => h e st'
    | other => other
    end.

Definition lift {A} (r : result A) : M A := fun st => (r, st).

(** A [maya.cmds] query. *)
Definition query {A} (q : scene -> result A) : M A :=
  fun st => (q (st_scene st), st).

(** A [maya.cmds] command that edits the scene. *)
Definition command (c : scene -> result scene) : M unit :=
  fun st =>
    match c (st_scene st) with
    | Ok sc => (Ok tt, mkState sc (st_heap st) (st_fields st) (st_instances st)
                               (st_classes st) (st_trace st))
    | Raise e => (Raise e, st)
    | Beyond w => (Beyond w, st)
    end.

Definition emit (e : event) : M unit :=
  fun st => (Ok tt, mkState (st_scene st) (st_heap st) (st_fields st)
                            (st_instances st) (st_classes st)
                            (st_trace st ++ [e])).

Definition get_metanode (r : ref) : M metanode :=
  fun st =>
    match nth_error (st_heap st) r with
    | Some m => (Ok m, st)
    | None => (Beyond "dangling MetaNode reference", st)
    end.

Definition put_metanode (r : ref) (m : metanode) : M unit :=
  fun st => (Ok tt, mkState (st_scene st) (set_nth r m (st_heap st))
                            (st_fields st) (st_instances st) (st_classes st)
                            (st_trace st)).

Definition alloc_metanode (m : metanode) : M ref :=
  fun st => (Ok (List.length (st_heap st)),
             mkState (st_scene st) (st_heap st ++ [m]) (st_fields st)
                     (st_instances st) (st_classes st) (st_trace st)).

Definition get_field (f : fref) : M field :=
  fun st =>
    match nth_error (st_fields st) f with
    | Some x => (Ok x, st)
    | None => (Beyond "dangling Field reference", st)
    end.

Definition put_field (f : fref) (x : field) : M unit :=
  fun st => (Ok tt, mkState (st_scene st) (st_heap st)
                            (set_nth f x (st_fields st)) (st_instances st)
                            (st_classes st) (st_trace st)).

Definition alloc_field (x : field) : M fref :=
  fun st => (Ok (List.length (st_fields st)),
             mkState (st_scene st) (st_heap st) (st_fields st ++ [x])
                     (st_instances st) (st_classes st) (st_trace st)).

(** [self._value = v] *)
Definition set_value (f : fref) (v : pyval) : M unit :=
  x <- get_field f ;;
  put_field f (mkField (f_class x) (validator x) (create_attribute_kwargs x)
                       (f_metanode x) (f_name x) v).

(* ================================================================= *)
(** ** utils.py *)

Definition invalid_mobject {A} : result A :=
  Raise (RuntimeError "(kInvalidParameter): Object does not exist").

(** [get_mobject(node)]: the handle of the node called [node]. *)
Definition get_mobject (node_name : string) : M string :=
  query (fun sc =>
    match find_node node_name sc with
    | Some n => Ok (n_uuid n)
    | None => invalid_mobject
    end).

(** [get_uuid(mobject)] *)
Definition get_uuid (mobj : string) : M string :=
  query (fun sc =>
    match find_uuid mobj sc with
    | Some n => Ok (n_uuid n)
    | None => invalid_mobject
    end).

(** [MetaNode.uuid(self)] *)
Definition MetaNode_uuid (r : ref) : M string :=
  m <- get_metanode r ;; get_uuid (mobject m).

(** [MetaNode.path(self)]: the name under which Maya knows the node now. *)
Definition MetaNode_path (r : ref) : M string :=
  m <- get_metanode r ;;
  query (fun sc =>
    match find_uuid (mobject m) sc with
    | Some n => Ok (n_name n)
    | None => invalid_mobject
    end).

(** Is [c] the class [base] or one of [all_subclasses(base)]?  [fuel]
    bounds the walk up the chain of base classes. *)
Fixpoint subclass_of (fuel : nat) (classes : list (string * string))
  (c base : string) : bool :=
  if String.eqb c base then true
  else
    match fuel with
    | O => false
    | S f =>
        match dict_get c classes with
        | Some parent => subclass_of f classes parent base
        | None => false
        end
    end.

(** [str(value)]; an instance prints as [MetaNode.__str__], its path. *)
Definition py_str (v : pyval) : M pyval :=
  match v with
  | VNone => ret (VStr "None")
  | VBool true => ret (VStr "True")
  | VBool false => ret (VStr "False")
  | VInt z => ret (VStr (string_of_Z z))
  | VStr s => ret (VStr s)
  | VNode r => p <- MetaNode_path r ;; ret (VStr p)
  | _ => beyond "repr of a double or of a container"
  end.

(** [om2.MMatrix(value)] *)
Definition MMatrix (v : pyval) : result pyval :=
  match v with
  | VMatrix m => Ok (VMatrix m)
  | VList l =>
      match floats_of l with
      | Some fs =>
          if Nat.eqb (List.length fs) 16 then Ok (VMatrix fs)
          else Raise (ValueError "MMatrix: expected 16 values")
      | None => Beyond "MMatrix of nested rows"
      end
  | _ => Raise (TypeError "MMatrix: unsupported argument")
  end.

(* ================================================================= *)
(** ** validators.py *)

(** [set_attribute_kwargs]: the [type=] flag handed to [setAttr]. *)
Definition set_attribute_kwargs (v : validator_class) : option string :=
  match v with
  | StringValidator | MetaNodeValidator | JsonValidator => Some "string"
  | MatrixValidator => Some "matrix"
  | _ => None
  end.

(** [get_default_value()] *)
Definition get_default_value (v : validator_class) : pyval :=
  match v with
  | IntValidator => VInt 0
  | FloatValidator => VFloat float_zero
  | BoolValidator => VBool false
  | StringValidator => VStr EmptyString
  | MatrixValidator => VMatrix identity_matrix
  | EnumValidator => VNone
  | MetaNodeValidator => VNone
  | JsonValidator => VDict []
  end.

Fixpoint strings_of (l : list pyval) : option (list string) :=
  match l with
  | [] => Some []
  | VStr s :: l' =>
      match strings_of l' with Some ss => Some (s :: ss) | None => None end
  | _ :: _ => None
  end.

Fixpoint chars_of (s : string) : list string :=
  match s with
  | EmptyString => []
  | String c s' => String c EmptyString :: chars_of s'
  end.

(** [":".join(choices)] *)
Definition join_choices (choices : pyval) : result string :=
  match choices with
  | VList l =>
      match strings_of l with
      | Some ss => Ok (join ":" ss)
      | None => Raise (TypeError "sequence item: expected string")
      end
  | VStr s => Ok (join ":" (chars_of s))
  | VDict d => Ok (join ":" (dict_keys d))
  | _ => Raise (TypeError "can only join an iterable")
  end.

(** [process_kwargs] applied to the keyword arguments: the creation options, here the type of
    the attribute [addAttr] is asked for. *)
Definition process_kwargs (v : validator_class) (kwargs : list (string * pyval))
  : result attr_type :=
  match v with
  | IntValidator => Ok TLong
  | FloatValidator => Ok TDouble
  | BoolValidator => Ok TBool
  | StringValidator | MetaNodeValidator | JsonValidator => Ok TString
  | MatrixValidator => Ok TMatrix
  | EnumValidator =>
      let choices := match dict_get "choices" kwargs with
                     | Some c => c
                     | None => VList []
                     end in
      rbind (join_choices choices) (fun s => Ok (TEnum (s ++ ":")))
  end.

Section Validators.
(** [MetaNode(node)], which [MetaNodeValidator.from_attribute] calls. *)
Variable MetaNode_ : pyval -> M ref.

(** [validator.from_attribute(value)] *)
Definition from_attribute (v : validator_class) (value : pyval) : M pyval :=
  match v with
  | MatrixValidator => lift (MMatrix value)
  | MetaNodeValidator =>
      if negb (py_truth value) then ret VNone
      else
        match value with
        | VStr s =>
            res <- query (fun sc => Ok (ls s sc)) ;;
            match res with
            | n :: _ => r <- MetaNode_ (VStr n) ;; ret (VNode r)
            | [] => ret VNone
            end
        | _ => beyond "cmds.ls of a value that is not text"
        end
  | JsonValidator =>
      match value with
      | VNone => lift (json_loads "{}")
      | VStr s => lift (json_loads s)
      | _ => raise (TypeError "expected string or buffer")
      end
  | _ => ret value
  end.

(** [validator.to_attribute(value)] *)
Definition to_attribute (v : validator_class) (value : pyval) : M pyval :=
  match v with
  | IntValidator => lift (py_int value)
  | FloatValidator => lift (py_float value)
  | BoolValidator => lift (py_bool value)
  | StringValidator => py_str value
  | MatrixValidator | EnumValidator => ret value
  | MetaNodeValidator =>
      if py_truth value then
        match value with
        | VNode r => u <- MetaNode_uuid r ;; ret (VStr u)
        | _ => raise (AttributeError "object has no attribute 'uuid'")
        end
      else ret (VStr EmptyString)
  | JsonValidator =>
      let value := match value with VNone => VDict [] | _ => value end in
      s <- lift (json_dumps value) ;; ret (VStr s)
  end.
End Validators.

(* ================================================================= *)
(** ** fields.py *)

(** [get_field_class(accessibility, multi)] *)
Definition get_field_class (accessibility : Accessibility) (multi : pyval)
  : result field_class :=
  if py_truth multi then
    if accessibility_eqb accessibility private then Ok MultiField
    else Raise (ValueError "A multi field cannot be public.")
  else Ok (if accessibility_eqb accessibility public then PublicField else Field).

(** Run [body] for [i = 0 .. n-1], in order. *)
Fixpoint for_range (n : nat) (body : nat -> M unit) : M unit :=
  match n with
  | O => ret tt
  | S n' => for_range n' body ;;; body n'
  end.

(** The elements of a Python iterable, as [for x in value] visits them. *)
Definition py_iter (v : pyval) : result (list pyval) :=
  match v with
  | VList l => Ok l
  | VStr s => Ok (map VStr (chars_of s))
  | VDict d => Ok (map VStr (dict_keys d))
  | VMatrix m => Ok (map VFloat m)
  | _ => Raise (TypeError "object is not iterable")
  end.

Section Fields.
Variable MetaNode_ : pyval -> M ref.

(** [self.path()], as the pair of the node's path and the attribute. *)
Definition Field_path (f : fref) : M (string * string) :=
  x <- get_field f ;;
  p <- MetaNode_path (f_metanode x) ;;
  ret (p, f_name x).

(** [SingleFieldBase.create_attribute] *)
Definition SingleFieldBase_create_attribute (f : fref) : M bool :=
  x <- get_field f ;;
  p <- MetaNode_path (f_metanode x) ;;
  ex <- query (fun sc => Ok (attributeQuery_exists (f_name x) p sc)) ;;
  if negb ex then
    p' <- MetaNode_path (f_metanode x) ;;
    command (addAttr p' (f_name x) (create_attribute_kwargs x) false) ;;;
    ret true
  else ret false.

(** [PublicField.create_attribute] *)
Definition PublicField_create_attribute (f : fref) : M bool :=
  created <- SingleFieldBase_create_attribute f ;;
  if (created : bool) then
    '(p, a) <- Field_path f ;;
    command (setAttr_channelBox p a) ;;;
    ret true
  else ret false.

(** [MultiField.create_attribute] *)
Definition MultiField_create_attribute (f : fref) : M bool :=
  x <- get_field f ;;
  p <- MetaNode_path (f_metanode x) ;;
  ex <- query (fun sc => Ok (attributeQuery_exists (f_name x) p sc)) ;;
  if negb ex then
    p' <- MetaNode_path (f_metanode x) ;;
    command (addAttr p' (f_name x) (create_attribute_kwargs x) true) ;;;
    ret true
  else ret false.

Definition create_attribute (f : fref) : M bool :=
  x <- get_field f ;;
  match f_class x with
  | Field => SingleFieldBase_create_attribute f
  | PublicField => PublicField_create_attribute f
  | MultiField => MultiField_create_attribute f
  end.

(** [Field.read]: returns nothing, that is [None]. *)
Definition Field_read (f : fref) : M pyval :=
  '(p, a) <- Field_path f ;;
  value <- query (getAttr p a) ;;
  match value with
  | VNone => ret VNone
  | _ =>
      x <- get_field f ;;
      v <- from_attribute MetaNode_ (validator x) value ;;
      set_value f v ;;;
      ret VNone
  end.

(** [MultiField._iter_elements]: the logical indices visited. *)
Definition iter_elements (f : fref) : M nat :=
  '(p, a) <- Field_path f ;;
  query (numElements p a).

Fixpoint read_elements (f : fref) (n : nat) : M (list pyval) :=
  match n with
  | O => ret []
  | S n' =>
      result <- read_elements f n' ;;
      '(p, a) <- Field_path f ;;
      raw <- query (getAttr_elem p a n') ;;
      x <- get_field f ;;
      value <- from_attribute MetaNode_ (validator x) raw ;;
      ret (result ++ [value])%list
  end.

(** [MultiField.read] *)
Definition MultiField_read (f : fref) : M pyval :=
  n <- iter_elements f ;;
  result <- read_elements f n ;;
  set_value f (VList result) ;;;
  ret VNone.

Definition read (f : fref) : M pyval :=
  x <- get_field f ;;
  match f_class x with
  | MultiField => MultiField_read f
  | _ => Field_read f
  end.

(** [Field._protect_attribute], as a bracket around [body].  Nothing
    after the [yield] runs when [body] raises. *)
Definition Field_protect_attribute {A} (f : fref) (body : M A) : M A :=
  '(p, a) <- Field_path f ;;
  command (setAttr_lock p a false) ;;;
  r <- body ;;
  '(p', a') <- Field_path f ;;
  command (setAttr_lock p' a' true) ;;;
  ret r.

(** [PublicField._protect_attribute]: never lock a public field. *)
Definition PublicField_protect_attribute {A} (f : fref) (body : M A) : M A :=
  body.

Definition lock_elements (f : fref) (b : bool) : M unit :=
  n <- iter_elements f ;;
  for_range n (fun i =>
    '(p, a) <- Field_path f ;;
    command (setAttr_elem_lock p a i b)).

(** [MultiField._protect_attribute] *)
Definition MultiField_protect_attribute {A} (f : fref) (body : M A) : M A :=
  lock_elements f false ;;;
  r <- body ;;
  lock_elements f true ;;;
  ret r.

(** [Field.write], which [PublicField] inherits with its own
    [_protect_attribute]. *)
Definition Field_write (f : fref) : M unit :=
  x <- get_field f ;;
  encoded <- try_except
    (value <- to_attribute (validator x) (_value x) ;; ret (Some value))
    (fun error => emit (EvWarning error) ;;; ret None) ;;
  match encoded with
  | None => ret tt
  | Some value =>
      let body :=
        '(p, a) <- Field_path f ;;
        connected <- query (listConnections p a) ;;
        if (connected : bool) then ret tt
        else
          '(p', a') <- Field_path f ;;
          command (setAttr p' a' value (set_attribute_kwargs (validator x)))
      in
      match f_class x with
      | PublicField => PublicField_protect_attribute f body
      | _ => Field_protect_attribute f body
      end
  end.

(** [MultiField._clear_maya_attribute] *)
Definition clear_maya_attribute (f : fref) : M unit :=
  '(p, a) <- Field_path f ;;
  command (setAttr_lock p a false) ;;;
  lock_elements f false ;;;
  '(p', a') <- Field_path f ;;
  command (removeMultiInstance p' a').

Fixpoint write_elements (f : fref) (v : validator_class) (i : nat)
  (values : list pyval) : M unit :=
  match values with
  | [] => ret tt
  | index_value :: rest =>
      raw <- to_attribute v index_value ;;
      '(p, a) <- Field_path f ;;
      command (setAttr_elem p a i raw (set_attribute_kwargs v)) ;;;
      write_elements f v (S i) rest
  end.

(** [MultiField.write] *)
Definition MultiField_write (f : fref) : M unit :=
  x <- get_field f ;;
  let value := _value x in
  MultiField_protect_attribute f
    (clear_maya_attribute f ;;;
     values <- lift (py_iter value) ;;
     write_elements f (validator x) 0 values).

Definition write (f : fref) : M unit :=
  x <- get_field f ;;
  match f_class x with
  | MultiField => MultiField_write f
  | _ => Field_write f
  end.

(** [Field.get] and [MultiField.get] *)
Definition Field_get (f : fref) : M pyval :=
  x <- get_field f ;; ret (_value x).

(** [Field.set] and [MultiField.set] *)
Definition Field_set (f : fref) (value : pyval) : M unit :=
  set_value f value.

(** [PublicField.get]: [return self.read()] *)
Definition PublicField_get (f : fref) : M pyval :=
  read f.

(** [PublicField.set] *)
Definition PublicField_set (f : fref) (value : pyval) : M unit :=
  set_value f value ;;;
  write f.

Definition get (f : fref) : M pyval :=
  x <- get_field f ;;
  match f_class x with
  | PublicField => PublicField_get f
  | _ => Field_get f
  end.

Definition set (f : fref) (value : pyval) : M unit :=
  x <- get_field f ;;
  match f_class x with
  | PublicField => PublicField_set f value
  | _ => Field_set f value
  end.

(** [MultiField.clear] *)
Definition MultiField_clear (f : fref) : M unit :=
  set_value f (VList []) ;;;
  clear_maya_attribute f.

(** [field_cls(validator, metanode, name, **kwargs)]: the constructor
    [FieldBase.__init__], with the [default_value] that
    [MultiField.__init__] substitutes.  A keyword that names a positional
    parameter is a [TypeError]. *)
Definition FieldBase_init (cls : field_class) (validator_class : validator_class)
  (metanode : ref) (name : string) (kwargs : list (string * pyval)) : M fref :=
  if (dict_has "validator_class" kwargs || dict_has "metanode" kwargs)%bool
  then raise (TypeError "__init__() got multiple values for keyword argument")
  else
    let default_value :=
      match dict_get "default_value" kwargs with
      | Some d => d
      | None => VNone
      end in
    let default_value :=
      match cls, default_value with
      | MultiField, VNone => VList []
      | _, d => d
      end in
    options <- lift (process_kwargs validator_class
                                    (dict_del "default_value" kwargs)) ;;
    let value :=
      match default_value with
      | VNone => get_default_value validator_class
      | d => d
      end in
    f <- alloc_field (mkField cls validator_class options metanode name value) ;;
    create_attribute f ;;;
    read f ;;;
    ret f.
End Fields.

(* ================================================================= *)
(** ** metanode.py *)

(** [Accessibility(value)]: the member with that value. *)
Definition Accessibility_of (v : pyval) : result Accessibility :=
  match v with
  | VInt 1 | VBool true => Ok private
  | VInt 2 => Ok public
  | _ => Raise (ValueError "is not a valid Accessibility")
  end.

Definition set_fields (r : ref) (fs : list (string * fref)) : M unit :=
  m <- get_metanode r ;;
  put_metanode r (mkMetaNode (m_class m) (mobject m) fs).

(** An instance as [__new__] allocates it: [__init__] has assigned
    neither [self.mobject] nor [self.fields], so it has no handle and no
    field map.  A handle stands for a node through its UUID, which Maya
    never leaves empty, and [__init__] assigns the handle before the field
    map. *)
Definition bare (m : metanode) : bool :=
  (String.eqb (mobject m) EmptyString
   && match fields m with [] => true | _ :: _ => false end)%bool.

(** [MetaNode.__getattr__(self, name)]: the field of that name, or
    [None].  On an instance that has no attribute [fields], the lookup of
    [self.fields] enters [__getattr__] again, and so on until the
    interpreter gives up. *)
Definition MetaNode_getattr (r : ref) (name : string) : M (option fref) :=
  m <- get_metanode r ;;
  if bare m then raise (RuntimeError "maximum recursion depth exceeded")
  else
    match dict_get name (fields m) with
    | Some field => ret (Some field)
    | None => ret None
    end.

Definition none_has_no {A} (what : string) : M A :=
  raise (AttributeError ("'NoneType' object has no attribute '" ++ what ++ "'")).

Section MetaNode.
Variable MetaNode_ : pyval -> M ref.

(** [MetaNode.add_field(self, validator, name, accessibility, multi,
    **kwargs)] *)
Definition add_field (r : ref) (validator : validator_class) (name : string)
  (accessibility : Accessibility) (multi : pyval)
  (kwargs : list (string * pyval)) : M fref :=
  m0 <- get_metanode r ;;
  emit (EvAddField r name (dict_keys (fields m0))) ;;;
  field_cls <- lift (get_field_class accessibility multi) ;;
  field <- FieldBase_init MetaNode_ field_cls validator r name kwargs ;;
  m <- get_metanode r ;;
  set_fields r (dict_set name field (fields m)) ;;;
  let field_data :=
    dict_update [("validator", VStr (validator_name validator));
                 ("multi", multi);
                 ("accessibility", VInt (accessibility_value accessibility))]
                kwargs in
  schema <- MetaNode_getattr r "metanode_fields" ;;
  match schema with
  | None => none_has_no "get"
  | Some sf =>
      d <- get MetaNode_ sf ;;
      match d with
      | VDict items =>
          set_value sf (VDict (dict_set name (VDict field_data) items)) ;;;
          ret field
      | _ => raise (TypeError "object does not support item assignment")
      end
  end.

(** [field_data.pop(key)] on the descriptor [field_data] that the
    schema dict of the field object [sf] holds under [field_name]: the
    dict object is shared, so the key leaves both. *)
Definition pop_descriptor (sf : fref) (field_name key : string)
  (field_data : pyval) : M (pyval * pyval) :=
  match field_data with
  | VDict dd =>
      match dict_get key dd with
      | None => raise (KeyError key)
      | Some v =>
          let dd' := VDict (dict_del key dd) in
          x <- get_field sf ;;
          match _value x with
          | VDict items =>
              set_value sf (VDict (dict_set field_name dd' items))
          | _ => ret tt
          end ;;;
          ret (v, dd')
      end
  | VList _ => raise (TypeError "an integer is required")
  | _ => raise (AttributeError "object has no attribute 'pop'")
  end.

(** One turn of the loop of [add_default_fields] over the items of the
    schema. *)
Definition redeclare (r : ref) (sf : fref) (item : string * pyval) : M unit :=
  let '(field_name, field_data) := item in
  '(validator_name_, field_data) <-
      pop_descriptor sf field_name "validator" field_data ;;
  '(accessibility_, field_data) <-
      pop_descriptor sf field_name "accessibility" field_data ;;
  accessibility <- lift (Accessibility_of accessibility_) ;;
  '(multi, field_data) <- pop_descriptor sf field_name "multi" field_data ;;
  let kwargs := match field_data with VDict dd => dd | _ => [] end in
  let fix each (vs : list validator_class) : M unit :=
    match vs with
    | [] => ret tt
    | validator_cls :: vs' =>
        match validator_name_ with
        | VStr s =>
            if String.eqb (validator_name validator_cls) s then
              if (dict_has "self" kwargs || dict_has "name" kwargs)%bool
              then raise (TypeError
                     "add_field() got multiple values for keyword argument")
              else add_field r validator_cls field_name accessibility multi
                             kwargs ;;; ret tt
            else ret tt
        | _ => ret tt
        end ;;;
        each vs'
    end in
  each all_validators.

Fixpoint for_each {A} (l : list A) (body : A -> M unit) : M unit :=
  match l with
  | [] => ret tt
  | x :: l' => body x ;;; for_each l' body
  end.

(** [MetaNode.add_default_fields(self)] *)
Definition add_default_fields (r : ref) : M unit :=
  add_field r JsonValidator "metanode_fields" private (VBool false) [] ;;;
  schema <- MetaNode_getattr r "metanode_fields" ;;
  match schema with
  | None => none_has_no "get"
  | Some sf =>
      d <- get MetaNode_ sf ;;
      match d with
      | VDict items =>
          for_each items (redeclare r sf) ;;;
          add_field r StringValidator "metanode_type" private (VBool false) [] ;;;
          m <- get_metanode r ;;
          tf <- MetaNode_getattr r "metanode_type" ;;
          match tf with
          | None => none_has_no "set"
          | Some tf => set tf (VStr (m_class m))
          end ;;;
          add_field r BoolValidator "is_initialized" private (VBool false) [] ;;;
          ret tt
      | _ => raise (AttributeError "object has no attribute 'items'")
      end
  end.

(** [MetaNode.read_fields(self)] *)
Definition read_fields (r : ref) : M unit :=
  m <- get_metanode r ;;
  for_each (fields m) (fun kv => read MetaNode_ (snd kv) ;;; ret tt).

(** [MetaNode.write_fields(self)] *)
Definition write_fields (r : ref) : M unit :=
  m <- get_metanode r ;;
  for_each (fields m) (fun kv => write (snd kv)).

(** [MetaNode.initialize(self)]: a hook for subclasses; the call is
    recorded. *)
Definition initialize (r : ref) : M unit := emit (EvInitialize r).

Definition register (uuid : string) (r : ref) : M unit :=
  fun st =>
    (Ok tt, mkState (st_scene st) (st_heap st) (st_fields st)
                    (dict_set uuid r (st_instances st)) (st_classes st)
                    (st_trace st ++ [EvRegister r])).

(** [MetaNode.__init__(self, node)] *)
Definition MetaNode_init (r : ref) (node : string) : M unit :=
  mobj <- get_mobject node ;;
  m <- get_metanode r ;;
  put_metanode r (mkMetaNode (m_class m) mobj []) ;;;
  add_default_fields r ;;;
  uuid <- MetaNode_uuid r ;;
  known <- (fun st => (Ok (dict_has uuid (st_instances st)), st)) ;;
  (if negb known then
     read_fields r ;;;
     uuid' <- MetaNode_uuid r ;;
     register uuid' r
   else ret tt) ;;;
  flag <- MetaNode_getattr r "is_initialized" ;;
  match flag with
  | None => none_has_no "get"
  | Some ff =>
      v <- get MetaNode_ ff ;;
      if negb (py_truth v) then
        initialize r ;;;
        flag' <- MetaNode_getattr r "is_initialized" ;;
        match flag' with
        | None => none_has_no "set"
        | Some ff' => set ff' (VBool true)
        end
      else ret tt
  end.
End MetaNode.

(** [all_subclasses(cls)], as the names of the imported subclasses. *)
Definition all_subclasses (classes : list (string * string)) (cls : string)
  : list string :=
  filter (fun c => (negb (String.eqb c cls)
                    && subclass_of (List.length classes) classes c cls)%bool)
         (dict_keys classes).

Definition isinstance (classes : list (string * string)) (c cls : string) : bool :=
  subclass_of (List.length classes) classes c cls.

(** [MetaNode.__new__(cls, node)] *)
Definition MetaNode_new (cls : string) (node : pyval) : M ref :=
  match node with
  | VStr name =>
      ex <- query (fun sc => Ok (objExists name sc)) ;;
      if negb ex then
        raise (ValueError "Specified Maya node does not exist")
      else
        mobj <- get_mobject name ;;
        uuid <- get_uuid mobj ;;
        cached <- (fun st => (Ok (dict_get uuid (st_instances st)), st)) ;;
        match cached with
        | Some instance => ret instance
        | None =>
            has_tag <- query (fun sc =>
                         Ok (attributeQuery_exists "metanode_type" name sc)) ;;
            stored_class_name <-
              (if (has_tag : bool) then query (getAttr name "metanode_type")
               else ret (VStr cls)) ;;
            classes <- (fun st => (Ok (st_classes st), st)) ;;
            let class_to_instantiate :=
              match stored_class_name with
              | VStr stored =>
                  if String.eqb stored cls then Some cls
                  else
                    fold_left
                      (fun found subclass =>
                         if String.eqb stored subclass then Some subclass
                         else found)
                      (all_subclasses classes cls) None
              | _ => None
              end in
            match class_to_instantiate with
            | None =>
                raise (PyException
                  "The class name stored on the node wasn't found in the subclasses")
            | Some c => alloc_metanode (mkMetaNode c EmptyString [])
            end
        end
  | _ => raise (TypeError "MetaNode can only be instanciated from a node name.")
  end.

(** [cls(node)]: the call of the class.  [__init__] runs on whatever
    [__new__] returned, provided it is an instance of [cls]; a cached
    instance is therefore initialised again.  [fuel] bounds the depth of
    the calls that [MetaNodeValidator.from_attribute] nests. *)
Fixpoint MetaNode_call (fuel : nat) (cls : string) (node : pyval) : M ref :=
  match fuel with
  | O => beyond "maximum recursion depth"
  | S fuel' =>
      r <- MetaNode_new cls node ;;
      m <- get_metanode r ;;
      classes <- (fun st => (Ok (st_classes st), st)) ;;
      (if isinstance classes (m_class m) cls then
         match node with
         | VStr name => MetaNode_init (MetaNode_call fuel' "MetaNode") r name
         | _ => ret tt
         end
       else ret tt) ;;;
      ret r
  end.

(** The interpreter with its recursion allowance. *)
Definition recursion_limit : nat := 1000.

Definition MetaNode (node : pyval) : M ref :=
  MetaNode_call recursion_limit "MetaNode" node.

(** A fresh process attached to the scene [sc]: nothing allocated, an
    empty identity cache. *)
Definition fresh_process (sc : scene) (classes : list (string * string)) : state :=
  mkState sc [] [] [] classes [].

(** Clearing the identity cache while keeping the scene. *)
Definition restart (st : state) : state :=
  fresh_process (st_scene st) (st_classes st).

(* ================================================================= *)
(** ** Vocabulary of the statements *)

(** The state with another scene. *)
Definition with_scene (st : state) (sc : scene) : state :=
  mkState sc (st_heap st) (st_fields st) (st_instances st) (st_classes st)
          (st_trace st).

(** Field [f] is the object [x], and its owner wraps the node [n] of the
    scene, which is also the node found under [n]'s name. *)
Definition bound (st : state) (f : fref) (x : field) (n : node) : Prop :=
  nth_error (st_fields st) f = Some x /\
  exists m, nth_error (st_heap st) (f_metanode x) = Some m /\
            find_uuid (mobject m) (st_scene st) = Some n /\
            find_node (n_name n) (st_scene st) = Some n.

(** The attribute a field is bound to, as the scene has it. *)
Definition slot_of (n : node) (x : field) : option attr :=
  dict_get (f_name x) (n_attrs n).

Definition relock (s : attr) (b : bool) : attr :=
  mkAttr (a_type s) (a_multi s) (a_value s) (a_elems s) b (a_connected s)
         (a_channelBox s).

(* ================================================================= *)
(** ** Scenes and sessions used as concrete inputs *)

(** The state a session [prog] reaches from a fresh process on [sc]. *)
Definition after {A} (sc : scene) (prog : M A) : state :=
  snd (prog (fresh_process sc [])).

(** A transform nobody has wrapped yet. *)
Definition new_transform : scene := [mkNode "transform1" "UUID-1" []].

(** A transform with an integer attribute driven by another node. *)
Definition driven_transform : scene :=
  [mkNode "transform1" "UUID-1"
     [("driven", mkAttr TLong false (VInt 5) [] false true false)]].

(** A transform with an integer array whose elements are driven. *)
Definition driven_array_transform : scene :=
  [mkNode "transform1" "UUID-1"
     [("weights", mkAttr TLong true (VInt 0) [(VInt 1, false); (VInt 2, false)]
                         false true false)]].

(** Wrap the transform, declare one field and give it a value in memory. *)
Definition declare_and_set (v : validator_class) (name : string)
  (a : Accessibility) (multi : bool) (value : pyval) : M fref :=
  r <- MetaNode (VStr "transform1") ;;
  f <- add_field MetaNode r v name a (VBool multi) [] ;;
  set f value ;;;
  ret f.

(** How many times [initialize()] ran on [r], according to the trace. *)
Definition initialize_runs (r : ref) (trace : list event) : nat :=
  List.length
    (filter (fun e => match e with EvInitialize r' => Nat.eqb r r' | _ => false end)
            trace).

(** The descriptor [add_field] stores for a field without extra
    parameters. *)
Definition descriptor (v : validator_class) (a : Accessibility) (multi : bool)
  : pyval :=
  VDict [("validator", VStr (validator_name v)); ("multi", VBool multi);
         ("accessibility", VInt (accessibility_value a))].

Definition text_of (r : result string) : string :=
  match r with Ok s => s | _ => EmptyString end.

(** A transform that a Python 2 session wrapped, extended with a private
    integer field [count] and flushed.  The schema text lists its keys in an
    order a Python 2 dict may iterate them, [count] first. *)
Definition flushed_transform : scene :=
  [mkNode "transform1" "UUID-1"
     [("metanode_fields",
       mkAttr TString false
         (VStr (text_of (json_dumps
            (VDict [("count", descriptor IntValidator private false);
                    ("is_initialized", descriptor BoolValidator private false);
                    ("metanode_fields", descriptor JsonValidator private false);
                    ("metanode_type", descriptor StringValidator private false)]))))
         [] true false false);
      ("metanode_type", mkAttr TString false (VStr "MetaNode") [] true false false);
      ("is_initialized", mkAttr TBool false (VBool true) [] true false false);
      ("count", mkAttr TLong false (VInt 10) [] true false false)]].

(* ----------------------------------------------------------------- *)
(** *** Specifications of monadic code *)

(** [triple P m Q E]: from a state satisfying [P], when [m] returns [a]
    the final state satisfies [Q a]; when it stops in any other way the
    final state satisfies [E]. *)
Definition triple {A} (P : state -> Prop) (m : M A)
  (Q : A -> state -> Prop) (E : state -> Prop) : Prop :=
  forall st res st',
    P st -> m st = (res, st') ->
    match res with
    | Ok a => Q a st'
    | _ => E st'
    end.

Definition is_add (e : event) : bool :=
  match e with EvAddField _ _ _ => true | _ => false end.

(** The [add_field] calls recorded so far. *)
Definition adds (st : state) : list event := filter is_add (st_trace st).

(** Field objects only ever change their [_value]. *)
Definition fields_ext (st st' : state) : Prop :=
  forall f x,
    nth_error (st_fields st) f = Some x ->
    exists x',
      nth_error (st_fields st') f = Some x' /\
      f_class x' = f_class x /\ validator x' = validator x /\
      f_name x' = f_name x /\ f_metanode x' = f_metanode x.

(** A change of state that leaves the instances, the identity cache, the
    classes and the recorded [add_field] calls alone. *)
Definition quiet (st st' : state) : Prop :=
  st_heap st' = st_heap st /\
  st_instances st' = st_instances st /\
  st_classes st' = st_classes st /\
  adds st' = adds st /\
  fields_ext st st'.

Definition Quiet {A} (m : M A) : Prop :=
  forall st res st', m st = (res, st') -> quiet st st'.

(** A property of states that quiet changes cannot break. *)
Definition respects (I : state -> Prop) : Prop :=
  forall st st', quiet st st' -> I st -> I st'.

(* ----------------------------------------------------------------- *)
(** *** Reserved fields *)

(** The three fields every MetaNode declares for itself. *)
Definition reserved (k : string) : Prop :=
  k = "metanode_fields" \/ k = "metanode_type" \/ k = "is_initialized".

(** The instance [r] has a field called [k] in its field map. *)
Definition has_key (r : ref) (k : string) (st : state) : Prop :=
  exists m, nth_error (st_heap st) r = Some m /\ dict_has k (fields m) = true.

(** Every recorded [add_field] call either declares the schema field or
    found the schema field already in the field map. *)
Definition schema_first (st : state) : Prop :=
  forall r name present,
    In (EvAddField r name present) (st_trace st) ->
    name = "metanode_fields" \/ In "metanode_fields" present.

(** [schema_first], and the keys listed by [K] are present. *)
Definition Inv (K : ref -> string -> Prop) (st : state) : Prop :=
  schema_first st /\ forall r k, K r k -> has_key r k st.

Definition add_key (K : ref -> string -> Prop) (r : ref) (name : string)
  : ref -> string -> Prop :=
  fun r' k => K r' k \/ (r' = r /\ k = name /\ reserved name).

Definition with_reserved (K : ref -> string -> Prop) (r : ref)
  : ref -> string -> Prop :=
  fun r' k => K r' k \/ (r' = r /\ reserved k).

Definition without (K : ref -> string -> Prop) (r : ref)
  : ref -> string -> Prop :=
  fun r' k => K r' k /\ r' <> r.

Definition only_reserved (K : ref -> string -> Prop) : Prop :=
  forall r k, K r k -> reserved k.

(* ----------------------------------------------------------------- *)
(** *** The identity cache *)


(** The identity cache holds [r] for the durable id [u]. *)
Definition registered (u : string) (r : ref) (st : state) : Prop :=
  dict_get u (st_instances st) = Some r.


(* ================================================================= *)
(** ** Serialization, lookup by durable id, equality *)

(** [value[i]] for an integer index [i].  A [MetaNode] has no
    [__getitem__] on its type; the items of a dict are keyed by text. *)
Definition py_getitem (value : pyval) (i : nat) : result pyval :=
  match value with
  | VMatrix m =>
      match nth_error m i with
      | Some f => Ok (VFloat f)
      | None => Beyond "index out of range"
      end
  | VList l =>
      match nth_error l i with
      | Some v => Ok v
      | None => Beyond "index out of range"
      end
  | VStr s =>
      match String.get i s with
      | Some c => Ok (VStr (String c EmptyString))
      | None => Beyond "index out of range"
      end
  | VDict _ => Raise (KeyError (string_of_Z (Z.of_nat i)))
  | _ => Raise (TypeError "object has no attribute '__getitem__'")
  end.

(** [validator.serialize(value)] *)
Definition serialize (v : validator_class) (value : pyval) : M pyval :=
  match v with
  | MatrixValidator =>
      entries <- lift (rmap (py_getitem value) (seq 0 16)) ;;
      ret (VList entries)
  | MetaNodeValidator =>
      if py_truth value then
        match value with
        | VNode r => u <- MetaNode_uuid r ;; ret (VStr u)
        | _ => raise (AttributeError "object has no attribute 'uuid'")
        end
      else ret VNone
  | _ => ret value
  end.

Section Serialize.
Variable MetaNode_ : pyval -> M ref.

(** [FieldBase.serialize] *)
Definition FieldBase_serialize (f : fref) : M pyval :=
  x <- get_field f ;;
  value <- get MetaNode_ f ;;
  serialize (validator x) value.

(** [MultiField.serialize] *)
Definition MultiField_serialize (f : fref) : M pyval :=
  value <- get MetaNode_ f ;;
  if py_truth value then
    x <- get_field f ;;
    serialize (validator x) value
  else ret (VList []).

Definition field_serialize (f : fref) : M pyval :=
  x <- get_field f ;;
  match f_class x with
  | MultiField => MultiField_serialize f
  | _ => FieldBase_serialize f
  end.

(** The loop of [MetaNode.serialize] over [self.fields.items()]. *)
Fixpoint serialize_items (items : list (string * fref))
  (data : list (string * pyval)) : M (list (string * pyval)) :=
  match items with
  | [] => ret data
  | (name, field) :: rest =>
      v <- field_serialize field ;;
      serialize_items rest (dict_set name v data)
  end.

(** [MetaNode.serialize(self)] *)
Definition MetaNode_serialize (r : ref) : M pyval :=
  u <- MetaNode_uuid r ;;
  m <- get_metanode r ;;
  data <- serialize_items (fields m) (dict_set "uuid" (VStr u) []) ;;
  ret (VDict data).
End Serialize.

(** [MetaNode.from_uuid(cls, uuid)]: [__new__] is called directly, so
    [__init__] does not run. *)
Definition from_uuid (cls : string) (uuid : string) : M ref :=
  node <- query (fun sc => Ok (ls uuid sc)) ;;
  match node with
  | [] => raise (ValueError "No node with uuid")
  | first :: _ => MetaNode_new cls (VStr first)
  end.

(** [MetaNode.__eq__(self, other)] *)
Definition MetaNode_eq (r : ref) (other : pyval) : M bool :=
  u <- MetaNode_uuid r ;;
  match other with
  | VNode r' => u' <- MetaNode_uuid r' ;; ret (String.eqb u u')
  | _ => raise (AttributeError "object has no attribute 'uuid'")
  end.

(* ----------------------------------------------------------------- *)
(** *** Attribute access: [instance.name] *)

(** The names the class statement of [MetaNode] binds. *)
Definition MetaNode_names : list string :=
  ["__module__"; "__doc__"; "__dict__"; "__weakref__"; "_instances";
   "__new__"; "__init__"; "new"; "from_uuid"; "initialize";
   "add_default_fields"; "add_field"; "read_fields"; "write_fields";
   "serialize"; "name"; "path"; "uuid"; "__getattr__"; "__repr__";
   "__str__"; "__eq__"].

(** The names of [object], the base of [MetaNode] (Python 2.7). *)
Definition object_names : list string :=
  ["__class__"; "__delattr__"; "__doc__"; "__format__"; "__getattribute__";
   "__hash__"; "__init__"; "__new__"; "__reduce__"; "__reduce_ex__";
   "__repr__"; "__setattr__"; "__sizeof__"; "__str__"; "__subclasshook__"].

Definition bound_by (names : list string) (name : string) : bool :=
  existsb (String.eqb name) names.

(** The entries of the instance dictionary: [__init__] assigns
    [self.mobject] and [self.fields], and nothing else in the library
    assigns an attribute of an instance. *)
Definition instance_names (m : metanode) : list string :=
  if bare m then [] else ["mobject"; "fields"].

(** Where the value of [instance.name] comes from. *)
Inductive attribute : Type :=
| ClassAttribute (name : string)     (* bound by [MetaNode] or by [object] *)
| InstanceAttribute (name : string)  (* an entry of the instance dictionary *)
| Fallback (v : option fref).        (* the answer of [__getattr__] *)

Section AttributeAccess.
(** The class table holds the names of the subclasses, not their bodies:
    [subclass_names c] lists the names that the class [c] and its bases
    below [MetaNode] bind. *)
Variable subclass_names : string -> list string.

(** The subclass of the instance leaves the lookup of [name] to
    [MetaNode]: it binds neither [name], nor the hooks of attribute access,
    nor the attribute [fields] that [__getattr__] reads. *)
Definition inherits_lookup (m : metanode) (name : string) : bool :=
  negb (existsb (bound_by (subclass_names (m_class m)))
                [name; "__getattr__"; "__getattribute__"; "fields"]).

(** [instance.name]: the interpreter looks in the classes and in the
    instance dictionary, and calls [__getattr__] when neither has the
    name. *)
Definition getattribute (r : ref) (name : string) : M attribute :=
  m <- get_metanode r ;;
  if negb (inherits_lookup m name) then
    beyond "an attribute of a subclass"
  else if bound_by (MetaNode_names ++ object_names)%list name then
    ret (ClassAttribute name)
  else if bound_by (instance_names m) name then
    ret (InstanceAttribute name)
  else
    v <- MetaNode_getattr r name ;; ret (Fallback v).
End AttributeAccess.

(* ----------------------------------------------------------------- *)
(** *** Values that survive the store *)

(** The values a validator hands to a slot of type [t] unchanged and gets
    back unchanged: integers of 32 bits, doubles, booleans, printable
    text, matrices, and JSON data other than [None]. *)
Definition native (v : validator_class) (t : attr_type) (value : pyval) : bool :=
  match v, t, value with
  | IntValidator, TLong, VInt z => ((- 2 ^ 31 <=? z) && (z <? 2 ^ 31))%bool
  | FloatValidator, TDouble, VFloat _ => true
  | BoolValidator, TBool, VBool _ => true
  | StringValidator, TString, VStr s => plain_string s
  | MatrixValidator, TMatrix, VMatrix m => Nat.eqb (List.length m) 16
  | JsonValidator, TString, VNone => false
  | JsonValidator, TString, _ => json_ok value
  | _, _, _ => false
  end.



(** The field object [x] with another value in memory. *)
Definition with_value (x : field) (v : pyval) : field :=
  mkField (f_class x) (validator x) (create_attribute_kwargs x) (f_metanode x)
          (f_name x) v.

(** The state with other field objects. *)
Definition with_fields (st : state) (fs : list field) : state :=
  mkState (st_scene st) (st_heap st) fs (st_instances st) (st_classes st)
          (st_trace st).

(** The slot [s] once a private field has written [raw] to it. *)
Definition written (s : attr) (raw : pyval) (locked : bool) : attr :=
  mkAttr (a_type s) (a_multi s) raw (a_elems s) locked (a_connected s)
         (a_channelBox s).

(* ----------------------------------------------------------------- *)
(** *** More concrete inputs *)

(** The transform once a first session has wrapped it, with the further
    attributes [extra]. *)
Definition wrapped_node (extra : list (string * attr)) : node :=
  mkNode "transform1" "UUID-1"
    ([("metanode_fields", mkAttr TString false VNone [] false false false);
      ("metanode_type", mkAttr TString false VNone [] false false false);
      ("is_initialized", mkAttr TBool false (VBool false) [] false false false)]
       ++ extra).

(** A fresh single slot of type [t]. *)
Definition fresh_slot (t : attr_type) (channelBox : bool) : attr :=
  mkAttr t false (type_default t) [] false false channelBox.

(** The scene a command leaves, when it succeeds. *)
Definition scene_of (r : result scene) : scene :=
  match r with Ok sc => sc | _ => [] end.

(* ----------------------------------------------------------------- *)
(** *** Declaring fields *)

(** The instance [r] is the object [m] and wraps the node [n] of the
    scene, which is also the node found under [n]'s name. *)
Definition wraps (st : state) (r : ref) (m : metanode) (n : node) : Prop :=
  nth_error (st_heap st) r = Some m /\
  find_uuid (mobject m) (st_scene st) = Some n /\
  find_node (n_name n) (st_scene st) = Some n.

(** The slot [addAttr] makes for a field of class [cls] whose validator
    asks for the type [t]: no data yet, unlocked, not driven; in the
    channel box when the field is public. *)
Definition created (cls : field_class) (t : attr_type) : attr :=
  mkAttr t (match cls with MultiField => true | _ => false end)
         (type_default t) [] false false
         (match cls with PublicField => true | _ => false end).

(** The value of a field right after it is constructed on a node that had
    no attribute of its name. *)
Definition fresh_value (cls : field_class) (v : validator_class)
  (default_value : pyval) : pyval :=
  match cls with
  | MultiField => VList []
  | _ =>
      match v with
      | IntValidator | EnumValidator => VInt 0
      | FloatValidator => VFloat float_zero
      | BoolValidator => VBool false
      | MatrixValidator => VMatrix identity_matrix
      | StringValidator | MetaNodeValidator | JsonValidator =>
          match default_value with
          | VNone => get_default_value v
          | d => d
          end
      end
  end.

(** [kwargs.get("default_value")] *)
Definition default_of (kwargs : list (string * pyval)) : pyval :=
  match dict_get "default_value" kwargs with
  | Some d => d
  | None => VNone
  end.

(** The descriptor [add_field] stores in the schema. *)
Definition field_data_of (v : validator_class) (a : Accessibility)
  (multi : pyval) (kwargs : list (string * pyval)) : list (string * pyval) :=
  dict_update [("validator", VStr (validator_name v));
               ("multi", multi);
               ("accessibility", VInt (accessibility_value a))]
              kwargs.

(** The state with one more recorded event. *)
Definition with_event (st : state) (e : event) : state :=
  mkState (st_scene st) (st_heap st) (st_fields st) (st_instances st)
          (st_classes st) (st_trace st ++ [e]).

(** A transform that carries the class tag [tag] and nothing else. *)
Definition tagged_transform (tag : pyval) : scene :=
  [mkNode "transform1" "UUID-1"
     [("metanode_type", mkAttr TString false tag [] true false false)]].

(* ----------------------------------------------------------------- *)
(** *** Serialized forms *)

(** The validators whose [serialize] is the identity. *)
Definition plain_validator (v : validator_class) : bool :=
  match v with
  | MatrixValidator | MetaNodeValidator => false
  | _ => true
  end.

(** What a private field with such a validator serializes to: the value
    in memory, a false value of a multi field becoming the empty list. *)
Definition serialized (x : field) : pyval :=
  match f_class x with
  | MultiField => if py_truth (_value x) then _value x else VList []
  | _ => _value x
  end.

(** The serialized form of the field object [f], if there is one. *)
Definition serialized_at (st : state) (f : fref) : pyval :=
  match nth_error (st_fields st) f with
  | Some x => serialized x
  | None => VNone
  end.

(* ----------------------------------------------------------------- *)
(** *** The slot of a field as the code edits it *)

(** The node [n] with the attribute [a] replaced by [s]. *)
Definition renode (n : node) (a : string) (s : attr) : node :=
  mkNode (n_name n) (n_uuid n) (dict_set a s (n_attrs n)).

(** The state in which the attribute [a] of [n] is [s]. *)
Definition reslot (st : state) (n : node) (a : string) (s : attr) : state :=
  with_scene st (store_attr (n_name n) a s (st_scene st)).

Definition with_elems (s : attr) (elems : list (pyval * bool)) : attr :=
  mkAttr (a_type s) (a_multi s) (a_value s) elems (a_locked s) (a_connected s)
         (a_channelBox s).

(** The elements once the first [k] of them have their lock set to [b]. *)
Fixpoint lock_first (k : nat) (b : bool) (l : list (pyval * bool))
  : list (pyval * bool) :=
  match k, l with
  | S k', e :: l' => (fst e, b) :: lock_first k' b l'
  | _, _ => l
  end.

Definition lock_all (b : bool) (l : list (pyval * bool)) : list (pyval * bool) :=
  map (fun e => (fst e, b)) l.

(** A multi slot after [_clear_maya_attribute]: no element, unlocked, its
    incoming connections broken. *)
Definition cleared (s : attr) : attr :=
  mkAttr (a_type s) (a_multi s) (a_value s) [] false false (a_channelBox s).

(** A multi slot after [MultiField.write] has stored the sequence
    [stored]: every element locked, the attribute itself left unlocked. *)
Definition rewritten (s : attr) (stored : list pyval) : attr :=
  mkAttr (a_type s) (a_multi s) (a_value s) (map (fun v => (v, true)) stored)
         false false (a_channelBox s).

(** The value [value] is encoded, whatever the state, to something Maya
    keeps in a slot of type [t] as [stored]. *)
Definition stores_as (v : validator_class) (t : attr_type) (value stored : pyval)
  : Prop :=
  exists raw, (forall st, to_attribute v value st = (Ok raw, st)) /\
              coerce t (set_attribute_kwargs v) raw = Ok stored.


(* ----------------------------------------------------------------- *)
(** *** Reloading a persisted schema *)
















(* ================================================================= *)
(** * Properties *)

(** ** Dicts *)

Lemma dict_get_set_same {V} (k : string) (v : V) (d : list (string * V)) :
  dict_get k (dict_set k v d) = Some v.
Proof.
  induction d as [|[k' v'] d IH]; simpl.
  - now rewrite String.eqb_refl.
  - destruct (String.eqb k k') eqn:E; simpl; rewrite E; auto.
Qed.

Lemma dict_get_set_other {V} (k k' : string) (v : V) (d : list (string * V)) :
  k <> k' -> dict_get k' (dict_set k v d) = dict_get k' d.
Proof.
  intros Hne. induction d as [|[k0 v0] d IH]; simpl.
  - destruct (String.eqb k' k) eqn:E; auto.
    apply String.eqb_eq in E. congruence.
  - destruct (String.eqb k k0) eqn:E; simpl.
    + apply String.eqb_eq in E. subst k0.
      destruct (String.eqb k' k) eqn:E'; auto.
      apply String.eqb_eq in E'. congruence.
    + now rewrite IH.
Qed.

Lemma dict_has_set_same {V} (k : string) (v : V) (d : list (string * V)) :
  dict_has k (dict_set k v d) = true.
Proof. unfold dict_has. now rewrite dict_get_set_same. Qed.

Lemma dict_has_set_other {V} (k k' : string) (v : V) (d : list (string * V)) :
  k <> k' -> dict_has k' (dict_set k v d) = dict_has k' d.
Proof. intros. unfold dict_has. now rewrite dict_get_set_other. Qed.

Lemma dict_has_set_mono {V} (k k' : string) (v : V) (d : list (string * V)) :
  dict_has k' d = true -> dict_has k' (dict_set k v d) = true.
Proof.
  intros H. destruct (string_dec k k') as [->|Hne].
  - apply dict_has_set_same.
  - now rewrite dict_has_set_other.
Qed.

(** ** The scene *)


Lemma find_uuid_uuid (u : string) (sc : scene) (n : node) :
  find_uuid u sc = Some n -> n_uuid n = u.
Proof.
  induction sc as [|h sc IH]; simpl; [discriminate|].
  destruct (String.eqb u (n_uuid h)) eqn:E; auto.
  intros [= <-]. symmetry. now apply String.eqb_eq.
Qed.

Lemma find_node_set_attrs (name : string) (attrs : list (string * attr))
  (sc : scene) (n : node) :
  find_node name sc = Some n ->
  find_node name (set_node_attrs name attrs sc)
  = Some (mkNode (n_name n) (n_uuid n) attrs).
Proof.
  induction sc as [|h sc IH]; simpl; [discriminate|].
  destruct (String.eqb name (n_name h)) eqn:E; simpl; rewrite E; auto.
  now intros [= <-].
Qed.

Lemma find_node_set_attrs_other (name name' : string)
  (attrs : list (string * attr)) (sc : scene) :
  name <> name' ->
  find_node name' (set_node_attrs name attrs sc) = find_node name' sc.
Proof.
  intros Hne. induction sc as [|h sc IH]; simpl; auto.
  destruct (String.eqb name (n_name h)) eqn:E; simpl.
  - apply String.eqb_eq in E.
    destruct (String.eqb name' (n_name h)) eqn:E'; auto.
    apply String.eqb_eq in E'. congruence.
  - now rewrite IH.
Qed.

(** Editing the attributes of the node found under its name leaves every
    lookup by UUID pointing at the same node. *)
Lemma find_uuid_set_attrs (u : string) (attrs : list (string * attr))
  (sc : scene) (n : node) :
  find_uuid u sc = Some n ->
  find_node (n_name n) sc = Some n ->
  find_uuid u (set_node_attrs (n_name n) attrs sc)
  = Some (mkNode (n_name n) (n_uuid n) attrs).
Proof.
  induction sc as [|h sc IH]; simpl; [discriminate|].
  destruct (String.eqb (n_name n) (n_name h)) eqn:En.
  - intros Hu [= ->]. simpl.
    destruct (String.eqb u (n_uuid n)) eqn:Eu; auto.
    apply find_uuid_uuid in Hu. subst u. now rewrite String.eqb_refl in Eu.
  - destruct (String.eqb u (n_uuid h)) eqn:Eu.
    + intros [= ->]. now rewrite String.eqb_refl in En.
    + intros Hu Hn. simpl. rewrite Eu. auto.
Qed.

Lemma find_uuid_set_attrs_other (u name : string)
  (attrs : list (string * attr)) (sc : scene) (n : node) :
  find_uuid u sc = Some n ->
  n_name n <> name ->
  find_uuid u (set_node_attrs name attrs sc) = Some n.
Proof.
  intros Hu Hne. induction sc as [|h sc IH]; simpl in *; [discriminate|].
  destruct (String.eqb name (n_name h)) eqn:En; simpl.
  - destruct (String.eqb u (n_uuid h)) eqn:Eu; auto.
    injection Hu as ->. apply String.eqb_eq in En. congruence.
  - destruct (String.eqb u (n_uuid h)) eqn:Eu; auto.
Qed.

Lemma lookup_attr_store_same (p a : string) (x : attr) (sc : scene) (n : node) :
  find_node p sc = Some n ->
  lookup_attr p a (store_attr p a x sc) = Ok x.
Proof.
  intros Hn. unfold lookup_attr, store_attr. rewrite Hn.
  rewrite (find_node_set_attrs _ _ _ _ Hn). simpl.
  now rewrite dict_get_set_same.
Qed.

Lemma lookup_attr_found (p a : string) (sc : scene) (n : node) (x : attr) :
  find_node p sc = Some n ->
  dict_get a (n_attrs n) = Some x ->
  lookup_attr p a sc = Ok x.
Proof. intros Hn Ha. unfold lookup_attr. now rewrite Hn, Ha. Qed.
(** ** Running monadic code *)

Lemma bind_ok {A B} (m : M A) (k : A -> M B) (st st' : state) (a : A) :
  m st = (Ok a, st') -> bind m k st = k a st'.
Proof. intros H. unfold bind. now rewrite H. Qed.

Lemma bind_raise {A B} (m : M A) (k : A -> M B) (st st' : state) (e : exn) :
  m st = (Raise e, st') -> bind m k st = (Raise e, st').
Proof. intros H. unfold bind. now rewrite H. Qed.

Lemma bind_beyond {A B} (m : M A) (k : A -> M B) (st st' : state) (w : string) :
  m st = (Beyond w, st') -> bind m k st = (Beyond w, st').
Proof. intros H. unfold bind. now rewrite H. Qed.


Lemma command_ok (c : scene -> result scene) (st : state) (sc : scene) :
  c (st_scene st) = Ok sc -> command c st = (Ok tt, with_scene st sc).
Proof. intros H. unfold command. now rewrite H. Qed.

Lemma query_run {A} (q : scene -> result A) (st : state) :
  query q st = (q (st_scene st), st).
Proof. reflexivity. Qed.


Lemma get_field_ok (st : state) (f : fref) (x : field) :
  nth_error (st_fields st) f = Some x -> get_field f st = (Ok x, st).
Proof. intros H. unfold get_field. now rewrite H. Qed.

Lemma bound_path (st : state) (f : fref) (x : field) (n : node) :
  bound st f x n -> Field_path f st = (Ok (n_name n, f_name x), st).
Proof.
  intros [Hf [m [Hm [Hu Hn]]]]. unfold Field_path.
  rewrite (bind_ok _ _ _ _ _ (get_field_ok _ _ _ Hf)).
  unfold MetaNode_path, get_metanode, bind, query. rewrite Hm, Hu. reflexivity.
Qed.

Lemma bound_store (st : state) (f : fref) (x : field) (n : node)
  (a : string) (y : attr) :
  bound st f x n ->
  bound (with_scene st (store_attr (n_name n) a y (st_scene st))) f x
        (mkNode (n_name n) (n_uuid n) (dict_set a y (n_attrs n))).
Proof.
  intros [Hf [m [Hm [Hu Hn]]]]. split; [exact Hf|].
  exists m. split; [exact Hm|]. simpl. unfold store_attr. rewrite Hn. split.
  - now apply find_uuid_set_attrs.
  - now apply find_node_set_attrs.
Qed.

(** Encoding only looks at the state. *)
Lemma to_attribute_state (v : validator_class) (value : pyval) (st st' : state)
  (r : result pyval) :
  to_attribute v value st = (r, st') -> st' = st.
Proof.
  destruct v; simpl; unfold lift, ret, raise.
  all: try (intros [= _ <-]; reflexivity).
  - destruct value as [| [] | | | | | | |]; simpl; unfold ret, beyond;
      try (intros [= _ <-]; reflexivity).
    unfold bind, MetaNode_path, get_metanode, query, bind.
    destruct (nth_error (st_heap st) r0); [|intros [= _ <-]; reflexivity].
    destruct (find_uuid (mobject m) (st_scene st)); intros [= _ <-]; reflexivity.
  - destruct (py_truth value); [|intros [= _ <-]; reflexivity].
    destruct value; unfold raise; try (intros [= _ <-]; reflexivity).
    unfold bind, MetaNode_uuid, get_metanode, get_uuid, query, bind, ret.
    destruct (nth_error (st_heap st) r0); [|intros [= _ <-]; reflexivity].
    destruct (find_uuid (mobject m) (st_scene st)); intros [= _ <-]; reflexivity.
  - unfold bind, lift, ret.
    destruct (json_dumps _); intros [= _ <-]; reflexivity.
Qed.

Lemma emit_run (e : event) (st : state) :
  emit e st = (Ok tt, mkState (st_scene st) (st_heap st) (st_fields st)
                              (st_instances st) (st_classes st)
                              (st_trace st ++ [e])).
Proof. reflexivity. Qed.

Lemma setAttr_lock_ok (p a : string) (b : bool) (sc : scene) (n : node) (s : attr) :
  find_node p sc = Some n ->
  dict_get a (n_attrs n) = Some s ->
  setAttr_lock p a b sc = Ok (store_attr p a (relock s b) sc).
Proof.
  intros Hn Ha. unfold setAttr_lock.
  now rewrite (lookup_attr_found _ _ _ _ _ Hn Ha).
Qed.

(** ** Connected slots (C7) *)

(** C7, amended to private single fields.  When the slot of a private
    single field has an incoming connection, [write()] returns normally and
    the slot keeps its stored value, its elements and its connection,
    whether encoding succeeds or raises.  The value held in memory is not
    written, and it is not discarded either: after the call the field is
    the same object [x], [_value] included. *)
Theorem Field_write_connected_skip (st : state) (f : fref) (x : field)
  (n : node) (s : attr) :
  bound st f x n ->
  f_class x = Field ->
  slot_of n x = Some s ->
  a_connected s = true ->
  (forall w st', to_attribute (validator x) (_value x) st <> (Beyond w, st')) ->
  exists st' n',
    write f st = (Ok tt, st') /\
    bound st' f x n' /\
    exists s', slot_of n' x = Some s' /\
               a_value s' = a_value s /\ a_elems s' = a_elems s /\
               a_connected s' = true.
Proof.
  intros Hb Hc Hs Hconn Hdet.
  pose proof Hb as [Hf [m [Hm [Hu Hn]]]].
  unfold write. rewrite (bind_ok _ _ _ _ _ (get_field_ok _ _ _ Hf)). rewrite Hc.
  unfold Field_write. rewrite (bind_ok _ _ _ _ _ (get_field_ok _ _ _ Hf)).
  destruct (to_attribute (validator x) (_value x) st) as [[value|e|w] st1] eqn:E.
  - pose proof (to_attribute_state _ _ _ _ _ E) as ->.
    erewrite bind_ok
      by (unfold try_except; rewrite (bind_ok _ _ _ _ _ E); reflexivity).
    rewrite Hc. unfold Field_protect_attribute.
    rewrite (bind_ok _ _ _ _ _ (bound_path _ _ _ _ Hb)).
    erewrite bind_ok
      by (apply command_ok; apply (setAttr_lock_ok _ _ _ _ _ _ Hn Hs)).
    pose proof (bound_store _ _ _ _ (f_name x) (relock s false) Hb) as Hb1.
    set (st1 := with_scene st _) in *.
    pose proof Hb1 as [Hf1 [m1 [Hm1 [Hu1 Hn1]]]].
    assert (Hs1 : dict_get (f_name x)
                    (n_attrs (mkNode (n_name n) (n_uuid n)
                       (dict_set (f_name x) (relock s false) (n_attrs n))))
                  = Some (relock s false))
      by (simpl; apply dict_get_set_same).
    erewrite bind_ok.
    2:{ rewrite (bind_ok _ _ _ _ _ (bound_path _ _ _ _ Hb1)).
        cbv beta iota. unfold bind at 1. rewrite query_run.
        unfold listConnections.
        simpl n_name in *. rewrite (lookup_attr_found _ _ _ _ _ Hn1 Hs1).
        simpl. rewrite Hconn. reflexivity. }
    rewrite (bind_ok _ _ _ _ _ (bound_path _ _ _ _ Hb1)).
    erewrite bind_ok
      by (apply command_ok; apply (setAttr_lock_ok _ _ _ _ _ _ Hn1 Hs1)).
    pose proof (bound_store _ _ _ _ (f_name x) (relock (relock s false) true) Hb1)
      as Hb2.
    eexists; eexists. split; [reflexivity|]. split; [exact Hb2|].
    eexists. split; [unfold slot_of; simpl; apply dict_get_set_same|].
    simpl. auto.
  - pose proof (to_attribute_state _ _ _ _ _ E) as ->.
    erewrite bind_ok.
    2:{ unfold try_except. rewrite (bind_raise _ _ _ _ _ E).
        rewrite (bind_ok _ _ _ _ _ (emit_run _ _)). reflexivity. }
    eexists; exists n. split; [reflexivity|]. split.
    + destruct Hb as [? [m' [? [? ?]]]]. split; [assumption|]. exists m'. auto.
    + exists s. auto.
  - exfalso. exact (Hdet w st1 eq_refl).
Qed.

(** Witness for C7: the field [driven] of the driven transform, holding 10
    in memory while the slot holds 5. *)
Lemma Field_write_connected_skip_witness :
  let st := after driven_transform
                  (declare_and_set IntValidator "driven" private false (VInt 10)) in
  exists st' n',
    write 4%nat st = (Ok tt, st') /\
    exists x s', bound st' 4%nat x n' /\ slot_of n' x = Some s' /\
                 a_value s' = VInt 5 /\ a_connected s' = true.
Proof.
  intros st.
  destruct (Field_write_connected_skip st 4%nat
              (mkField Field IntValidator TLong 0%nat "driven" (VInt 10))
              (mkNode "transform1" "UUID-1"
                 [("driven", mkAttr TLong false (VInt 5) [] false true false);
                  ("metanode_fields", mkAttr TString false VNone [] false false false);
                  ("metanode_type", mkAttr TString false VNone [] false false false);
                  ("is_initialized", mkAttr TBool false (VBool false) [] false false false)])
              (mkAttr TLong false (VInt 5) [] false true false))
    as [st' [n' [Hw [Hb [s' [Hs [Hv [_ Hc]]]]]]]].
  - split; [vm_compute; reflexivity|].
    eexists. split; [vm_compute; reflexivity|]. split; vm_compute; reflexivity.
  - reflexivity.
  - reflexivity.
  - reflexivity.
  - intros w st' H. vm_compute in H. discriminate H.
  - exists st', n'. split; [exact Hw|]. eexists; exists s'.
    split; [exact Hb|]. split; [exact Hs|]. split; [exact Hv|exact Hc].
Defined.

(** Counterexample to C7 as stated: a private multi field whose slot is
    driven.  [MultiField.write] never asks for connections; it removes the
    elements, breaking their connections, and writes the sequence held in
    memory: the stored [1, 2] becomes [9]. *)
Lemma MultiField_write_connected_overwrites :
  let st := after driven_array_transform
              (declare_and_set IntValidator "weights" private true (VList [VInt 9])) in
  exists x n s st' n' s',
    bound st 4%nat x n /\ f_class x = MultiField /\
    slot_of n x = Some s /\ a_connected s = true /\
    map fst (a_elems s) = [VInt 1; VInt 2] /\
    write 4%nat st = (Ok tt, st') /\
    bound st' 4%nat x n' /\ slot_of n' x = Some s' /\
    map fst (a_elems s') = [VInt 9].
Proof.
  intros st. do 6 eexists.
  split; [split; [vm_compute; reflexivity|
                  eexists; split; [vm_compute; reflexivity|
                                    split; vm_compute; reflexivity]]|].
  split; [reflexivity|]. split; [vm_compute; reflexivity|].
  split; [reflexivity|]. split; [reflexivity|].
  split; [vm_compute; reflexivity|].
  split; [split; [vm_compute; reflexivity|
                  eexists; split; [vm_compute; reflexivity|
                                    split; vm_compute; reflexivity]]|].
  split; vm_compute; reflexivity.
Qed.
(** ** Write-back buffering (C6) *)

Lemma nth_error_set_nth {A} (l : list A) (i : nat) (x y : A) :
  nth_error l i = Some x -> nth_error (set_nth i y l) i = Some y.
Proof.
  revert i. induction l as [|h l IH]; intros [|i]; simpl; try discriminate; auto.
Qed.

(** C6.  [set(v)] on a private single field returns normally and changes
    nothing but the [_value] of that field object: the scene, hence the
    backing slot, is exactly as before.  A [get()] that follows, before any
    flush, returns [v] and changes nothing. *)
Theorem Field_set_is_buffered (MetaNode_ : pyval -> M ref) (st : state)
  (f : fref) (x : field) (v : pyval) :
  nth_error (st_fields st) f = Some x ->
  f_class x = Field ->
  let x' := mkField (f_class x) (validator x) (create_attribute_kwargs x)
                    (f_metanode x) (f_name x) v in
  let st' := mkState (st_scene st) (st_heap st) (set_nth f x' (st_fields st))
                     (st_instances st) (st_classes st) (st_trace st) in
  set f v st = (Ok tt, st') /\
  st_scene st' = st_scene st /\
  get MetaNode_ f st' = (Ok v, st').
Proof.
  intros Hf Hc x' st'. split; [|split; [reflexivity|]].
  - unfold set. rewrite (bind_ok _ _ _ _ _ (get_field_ok _ _ _ Hf)). rewrite Hc.
    unfold Field_set, set_value.
    rewrite (bind_ok _ _ _ _ _ (get_field_ok _ _ _ Hf)). reflexivity.
  - assert (Hf' : nth_error (st_fields st') f = Some x')
      by (apply (nth_error_set_nth _ _ _ _ Hf)).
    unfold get. rewrite (bind_ok _ _ _ _ _ (get_field_ok _ _ _ Hf')).
    subst x'. cbn [f_class]. rewrite Hc. unfold Field_get.
    rewrite (bind_ok _ _ _ _ _ (get_field_ok _ _ _ Hf')). reflexivity.
Qed.

(** Witness for C6: [set(10)] on the private integer field [count] of a
    freshly wrapped transform leaves the slot at 0 and [get()] returns 10. *)
Lemma Field_set_is_buffered_witness :
  let st := after new_transform
              (declare_and_set IntValidator "count" private false (VInt 3)) in
  exists st',
    set 4%nat (VInt 10) st = (Ok tt, st') /\
    getAttr "transform1" "count" (st_scene st') = Ok (VInt 0) /\
    get MetaNode 4%nat st' = (Ok (VInt 10), st').
Proof.
  intros st.
  destruct (Field_set_is_buffered MetaNode st 4%nat
              (mkField Field IntValidator TLong 0%nat "count" (VInt 3))
              (VInt 10))
    as [Hs [Hsc Hg]]; [vm_compute; reflexivity|reflexivity|].
  eexists. split; [exact Hs|]. split; [|exact Hg].
  vm_compute. reflexivity.
Defined.

(** ** Attribute access by name (C10) *)

(** An instance with a declared field is not bare. *)
Lemma declared_is_not_bare (c mo k : string) (f : fref)
  (d : list (string * fref)) :
  bare (mkMetaNode c mo (dict_set k f d)) = false.
Proof.
  unfold bare. cbn [mobject fields].
  destruct d as [|[k0 v0] d]; cbn [dict_set];
    [|destruct (String.eqb k k0)]; apply andb_false_r.
Qed.

(** A direct call of [__getattr__] on an instance of the heap. *)
Lemma MetaNode_getattr_run (st : state) (r : ref) (m : metanode)
  (name : string) :
  nth_error (st_heap st) r = Some m ->
  MetaNode_getattr r name st =
  ((if bare m then Raise (RuntimeError "maximum recursion depth exceeded")
    else Ok (dict_get name (fields m))), st).
Proof.
  intros Hm. unfold MetaNode_getattr, get_metanode, bind. rewrite Hm.
  destruct (bare m); [reflexivity|].
  destruct (dict_get name (fields m)); reflexivity.
Qed.

(** C10, amended.  Take an instance of the heap and a name whose lookup
    the class of the instance leaves to [MetaNode].  A name bound by
    [MetaNode] or by [object] is answered by the class, whether or not a
    field is declared under it.  For any other name: on an instance that
    [__init__] has given its attributes, [mobject] and [fields] are
    answered by the instance itself, and every remaining name is answered
    by [__getattr__] with the field object declared under the name, or with
    [None] when there is none, without raising and without changing the
    state; on an instance that [__init__] never reached, the access raises
    [RuntimeError]. *)
Theorem attribute_access (subclass_names : string -> list string)
  (st : state) (r : ref) (m : metanode) (name : string) :
  nth_error (st_heap st) r = Some m ->
  inherits_lookup subclass_names m name = true ->
  (bound_by (MetaNode_names ++ object_names)%list name = true ->
   getattribute subclass_names r name st = (Ok (ClassAttribute name), st)) /\
  (bound_by (MetaNode_names ++ object_names)%list name = false ->
   bare m = false ->
   (bound_by ["mobject"; "fields"] name = true ->
    getattribute subclass_names r name st = (Ok (InstanceAttribute name), st)) /\
   (bound_by ["mobject"; "fields"] name = false ->
    getattribute subclass_names r name st
      = (Ok (Fallback (dict_get name (fields m))), st) /\
    (dict_has name (fields m) = false ->
     getattribute subclass_names r name st = (Ok (Fallback None), st)))) /\
  (bound_by (MetaNode_names ++ object_names)%list name = false ->
   bare m = true ->
   getattribute subclass_names r name st
     = (Raise (RuntimeError "maximum recursion depth exceeded"), st)).
Proof.
  intros Hm Hi.
  assert (E : forall k : metanode -> M attribute,
             (m0 <- get_metanode r ;; k m0) st = k m st).
  { intros k. unfold bind, get_metanode. rewrite Hm. reflexivity. }
  unfold getattribute. rewrite E, Hi. cbn [negb].
  split; [|split].
  - intros Hc. rewrite Hc. reflexivity.
  - intros Hc Hb. rewrite Hc. unfold instance_names. rewrite Hb. split.
    + intros Hn. rewrite Hn. reflexivity.
    + intros Hn. rewrite Hn.
      assert (G : (v <- MetaNode_getattr r name ;; ret (Fallback v)) st
                  = (Ok (Fallback (dict_get name (fields m))), st)).
      { unfold bind. rewrite (MetaNode_getattr_run _ _ _ _ Hm), Hb.
        reflexivity. }
      split; [exact G|].
      intros Hd. rewrite G. unfold dict_has in Hd.
      destruct (dict_get name (fields m)); [discriminate|reflexivity].
  - intros Hc Hb. rewrite Hc. unfold instance_names. rewrite Hb.
    cbn [bound_by existsb]. unfold bind.
    rewrite (MetaNode_getattr_run _ _ _ _ Hm), Hb. reflexivity.
Qed.

(** Witness for C10: on the wrapped transform with the integer field
    [count], [instance.count] is the field object, [instance.missing] is
    [None], [instance.fields] is the field map of the instance and
    [instance.serialize] is the method. *)
Lemma attribute_access_witness :
  let st := after new_transform
              (declare_and_set IntValidator "count" private false (VInt 3)) in
  let own := fun _ : string => @nil string in
  getattribute own 0%nat "count" st = (Ok (Fallback (Some 4%nat)), st) /\
  getattribute own 0%nat "missing" st = (Ok (Fallback None), st) /\
  getattribute own 0%nat "fields" st = (Ok (InstanceAttribute "fields"), st) /\
  getattribute own 0%nat "serialize" st = (Ok (ClassAttribute "serialize"), st).
Proof.
  intros st own.
  assert (M0 : exists m, nth_error (st_heap st) 0%nat = Some m /\
                         bare m = false /\
                         dict_get "count" (fields m) = Some 4%nat /\
                         dict_has "missing" (fields m) = false).
  { eexists. vm_compute. repeat split; reflexivity. }
  destruct M0 as [m [Hm [Hb [Hc Hn]]]].
  split; [|split; [|split]].
  - destruct (attribute_access own st 0%nat m "count" Hm eq_refl)
      as [_ [H _]].
    destruct (H eq_refl Hb) as [_ G]. destruct (G eq_refl) as [G1 _].
    rewrite G1, Hc. reflexivity.
  - destruct (attribute_access own st 0%nat m "missing" Hm eq_refl)
      as [_ [H _]].
    destruct (H eq_refl Hb) as [_ G]. destruct (G eq_refl) as [_ G2].
    exact (G2 Hn).
  - destruct (attribute_access own st 0%nat m "fields" Hm eq_refl)
      as [_ [H _]].
    destruct (H eq_refl Hb) as [G _]. exact (G eq_refl).
  - destruct (attribute_access own st 0%nat m "serialize" Hm eq_refl)
      as [H _].
    exact (H eq_refl).
Defined.

(** Counterexample to C10 as stated.  [from_uuid] on a transform that no
    live instance wraps returns an instance that [__init__] never reached:
    reading its attribute [count] raises.  And on a wrapped transform where
    a field is declared under the name [uuid], [instance.uuid] is the
    method of the class, not the field that [__getattr__] would return. *)
Lemma attribute_access_raises_or_shadows :
  let own := fun _ : string => @nil string in
  let made := from_uuid "MetaNode" "UUID-1" (fresh_process new_transform []) in
  let st := after new_transform
              (declare_and_set IntValidator "uuid" private false (VInt 3)) in
  fst made = Ok 0%nat /\
  fst (getattribute own 0%nat "count" (snd made))
    = Raise (RuntimeError "maximum recursion depth exceeded") /\
  fst (MetaNode_getattr 0%nat "uuid" st) = Ok (Some 4%nat) /\
  fst (getattribute own 0%nat "uuid" st) = Ok (ClassAttribute "uuid").
Proof. vm_compute. repeat split; reflexivity. Qed.


(** ** What a public field returns (C4) *)

Lemma Field_read_returns_None (MetaNode_ : pyval -> M ref) (f : fref)
  (st st' : state) (v : pyval) :
  Field_read MetaNode_ f st = (Ok v, st') -> v = VNone.
Proof.
  unfold Field_read, bind.
  destruct (Field_path f st) as [[[p a]| |] s1]; try discriminate.
  destruct (query (getAttr p a) s1) as [[value| |] s2]; try discriminate.
  destruct value; unfold ret; try (now intros [= <- _]).
  all: destruct (get_field f s2) as [[x| |] s3]; try discriminate.
  all: destruct (from_attribute MetaNode_ (validator x) _ s3) as [[w| |] s4];
    try discriminate.
  all: destruct (set_value f w s4) as [[[]| |] s5]; try discriminate.
  all: now intros [= <- _].
Qed.

(** [PublicField.get()] is [return self.read()], and [read()] has no
    return value: whatever the slot holds, a [get()] that returns returns
    [None]. *)
Lemma PublicField_get_is_None (MetaNode_ : pyval -> M ref) (f : fref)
  (x : field) (st st' : state) (v : pyval) :
  nth_error (st_fields st) f = Some x ->
  f_class x = PublicField ->
  get MetaNode_ f st = (Ok v, st') -> v = VNone.
Proof.
  intros Hf Hc. unfold get.
  rewrite (bind_ok _ _ _ _ _ (get_field_ok _ _ _ Hf)). rewrite Hc.
  unfold PublicField_get, read.
  rewrite (bind_ok _ _ _ _ _ (get_field_ok _ _ _ Hf)). rewrite Hc.
  apply Field_read_returns_None.
Qed.

(** C4, the code at the failing input.  On a freshly wrapped transform a
    public integer field [my_field] is declared and [set(10)] is called.
    The slot is not connected and now holds 10, yet [get()] returns [None]:
    the fresh [read()] does happen, its result is dropped. *)
Theorem PublicField_get_after_set :
  let st := after new_transform
              (declare_and_set IntValidator "my_field" public false (VInt 10)) in
  getAttr "transform1" "my_field" (st_scene st) = Ok (VInt 10) /\
  listConnections "transform1" "my_field" (st_scene st) = Ok false /\
  nth_error (st_fields st) 4%nat
  = Some (mkField PublicField IntValidator TLong 0%nat "my_field" (VInt 10)) /\
  fst (get MetaNode 4%nat st) = Ok VNone.
Proof. vm_compute. repeat split; reflexivity. Qed.

(** ** Encoding failures (C3) *)

(** For the single fields, private or public, an encoding error is caught:
    [write()] returns normally, the only effect is the warning in the log,
    and the scene is untouched. *)
Lemma Field_write_soft_fail (st st1 : state) (f : fref) (x : field) (e : exn) :
  nth_error (st_fields st) f = Some x ->
  f_class x <> MultiField ->
  to_attribute (validator x) (_value x) st = (Raise e, st1) ->
  write f st
  = (Ok tt, mkState (st_scene st) (st_heap st) (st_fields st) (st_instances st)
                    (st_classes st) (st_trace st ++ [EvWarning e])).
Proof.
  intros Hf Hc E. pose proof (to_attribute_state _ _ _ _ _ E) as ->.
  unfold write. rewrite (bind_ok _ _ _ _ _ (get_field_ok _ _ _ Hf)).
  assert (Hw : Field_write f st
               = (Ok tt, mkState (st_scene st) (st_heap st) (st_fields st)
                           (st_instances st) (st_classes st)
                           (st_trace st ++ [EvWarning e]))).
  { unfold Field_write. rewrite (bind_ok _ _ _ _ _ (get_field_ok _ _ _ Hf)).
    erewrite bind_ok.
    2:{ unfold try_except. rewrite (bind_raise _ _ _ _ _ E).
        rewrite (bind_ok _ _ _ _ _ (emit_run _ _)). reflexivity. }
    reflexivity. }
  destruct (f_class x); [exact Hw|exact Hw|congruence].
Qed.

(** C3, the code at the failing input.  A private multi integer field
    [indices] has [1, 2] persisted; in memory it then holds [7, "a"], and
    [int("a")] raises.  [MultiField.write] has no [try]: the [ValueError]
    reaches the caller, and by then the persisted elements are gone; the
    slot is left with the single element 7.  A bulk [write_fields()] stops
    at that field with the same exception. *)
Theorem MultiField_write_encode_failure :
  let flushed :=
    f <- declare_and_set IntValidator "indices" private true
                         (VList [VInt 1; VInt 2]) ;;
    write f ;;;
    before <- query (lookup_attr "transform1" "indices") ;;
    set f (VList [VInt 7; VStr "a"]) ;;;
    ret (f, map fst (a_elems before)) in
  let st := after new_transform flushed in
  fst (flushed (fresh_process new_transform []))
  = Ok (4%nat, [VInt 1; VInt 2]) /\
  fst (write 4%nat st) = Raise (ValueError "invalid literal for int()") /\
  fst (write_fields 0%nat st) = Raise (ValueError "invalid literal for int()") /\
  exists s, lookup_attr "transform1" "indices" (st_scene (snd (write 4%nat st)))
            = Ok s /\ map fst (a_elems s) = [VInt 7].
Proof.
  vm_compute. repeat split; try reflexivity.
  eexists. split; reflexivity.
Qed.

(** ** One-time initialization (C5) *)

(** C5, the code at the failing input.  [MetaNode("transform1")] is called
    twice in one process on a transform never wrapped before, with no flush
    in between.  Both calls return the same instance, which the first call
    registers before it runs [initialize()].  But the second call runs
    [__init__] again on the cached instance: the fields are rebuilt from
    the scene, where the flag [is_initialized] is still [False] because
    [set(True)] only changed the field in memory, and [initialize()] runs a
    second time.  In a later process the unflushed entity cannot even be
    wrapped: the class tag exists but is empty. *)
Theorem initialize_runs_twice :
  let first := MetaNode (VStr "transform1") in
  let twice := MetaNode (VStr "transform1") ;;; MetaNode (VStr "transform1") in
  let st1 := after new_transform first in
  let st2 := after new_transform twice in
  fst (first (fresh_process new_transform [])) = Ok 0%nat /\
  fst (twice (fresh_process new_transform [])) = Ok 0%nat /\
  filter (fun e => match e with EvAddField _ _ _ => false | _ => true end)
         (st_trace st1) = [EvRegister 0%nat; EvInitialize 0%nat] /\
  getAttr "transform1" "is_initialized" (st_scene st1) = Ok (VBool false) /\
  initialize_runs 0%nat (st_trace st1) = 1%nat /\
  initialize_runs 0%nat (st_trace st2) = 2%nat /\
  fst (MetaNode (VStr "transform1") (restart st1))
  = Raise (PyException
             "The class name stored on the node wasn't found in the subclasses").
Proof. vm_compute. repeat split; reflexivity. Qed.

(** When the fields are flushed between the two calls the flag is in the
    scene and the second call leaves [initialize()] alone. *)
Lemma initialize_runs_once_when_flushed :
  let session :=
    r <- MetaNode (VStr "transform1") ;;
    write_fields r ;;;
    MetaNode (VStr "transform1") in
  fst (session (fresh_process new_transform [])) = Ok 0%nat /\
  initialize_runs 0%nat (st_trace (after new_transform session)) = 1%nat.
Proof. vm_compute. split; reflexivity. Qed.

(** ** Schema self-description (C1) *)


(** ** Order of the reserved fields (C8) *)

(** Counterexample to C8 as stated.  Wrapping the flushed transform in a
    fresh process re-declares the persisted field [count] from inside the
    loop of [add_default_fields], when the field map holds
    [metanode_fields] alone; [metanode_type] and [is_initialized] are
    declared by the statements after the loop. *)
Lemma custom_field_before_reserved :
  let run := MetaNode (VStr "transform1") (fresh_process flushed_transform []) in
  fst run = Ok 0%nat /\
  In (EvAddField 0%nat "count" ["metanode_fields"]) (st_trace (snd run)).
Proof. vm_compute. split; [reflexivity|]. right. left. reflexivity. Qed.

(** ** Quiet code *)

Lemma fields_ext_refl (st : state) : fields_ext st st.
Proof. intros f x H. exists x. auto. Qed.

Lemma fields_ext_same (st st' : state) :
  st_fields st' = st_fields st -> fields_ext st st'.
Proof. intros E f x H. exists x. rewrite E. auto. Qed.

Lemma fields_ext_trans (a b c : state) :
  fields_ext a b -> fields_ext b c -> fields_ext a c.
Proof.
  intros H1 H2 f x Hf.
  destruct (H1 f x Hf) as [x1 [Hf1 [E1 [E2 [E3 E4]]]]].
  destruct (H2 f x1 Hf1) as [x2 [Hf2 [D1 [D2 [D3 D4]]]]].
  exists x2. repeat split; congruence.
Qed.

Lemma quiet_refl (st : state) : quiet st st.
Proof. repeat split; auto using fields_ext_refl. Qed.

Lemma quiet_trans (a b c : state) : quiet a b -> quiet b c -> quiet a c.
Proof.
  intros [H1 [H2 [H3 [H4 H5]]]] [G1 [G2 [G3 [G4 G5]]]].
  repeat split; try congruence. eapply fields_ext_trans; eauto.
Qed.

Lemma Quiet_ret {A} (a : A) : Quiet (ret a).
Proof. intros st res st' [= _ <-]. apply quiet_refl. Qed.

Lemma Quiet_raise {A} (e : exn) : Quiet (@raise A e).
Proof. intros st res st' [= _ <-]. apply quiet_refl. Qed.

Lemma Quiet_beyond {A} (w : string) : Quiet (@beyond A w).
Proof. intros st res st' [= _ <-]. apply quiet_refl. Qed.

Lemma Quiet_lift {A} (r : result A) : Quiet (lift r).
Proof. intros st res st' [= _ <-]. apply quiet_refl. Qed.

Lemma Quiet_query {A} (q : scene -> result A) : Quiet (query q).
Proof. intros st res st' [= _ <-]. apply quiet_refl. Qed.

Lemma Quiet_state {A} (g : state -> result A) : Quiet (fun st => (g st, st)).
Proof. intros st res st' [= _ <-]. apply quiet_refl. Qed.

Lemma Quiet_command (c : scene -> result scene) : Quiet (command c).
Proof.
  intros st res st'. unfold command.
  destruct (c (st_scene st)); intros [= _ <-];
    repeat split; auto using fields_ext_same.
Qed.

Lemma Quiet_bind {A B} (m : M A) (k : A -> M B) :
  Quiet m -> (forall a, Quiet (k a)) -> Quiet (bind m k).
Proof.
  intros Hm Hk st res st'. unfold bind.
  destruct (m st) as [[a|e|w] s1] eqn:E.
  - intros H. eapply quiet_trans; [eapply Hm; eauto|eapply Hk; eauto].
  - intros [= _ <-]. eapply Hm; eauto.
  - intros [= _ <-]. eapply Hm; eauto.
Qed.

Lemma Quiet_try_except {A} (m : M A) (h : exn -> M A) :
  Quiet m -> (forall e, Quiet (h e)) -> Quiet (try_except m h).
Proof.
  intros Hm Hh st res st'. unfold try_except.
  destruct (m st) as [[a|e|w] s1] eqn:E.
  - intros [= _ <-]. eapply Hm; eauto.
  - intros H. eapply quiet_trans; [eapply Hm; eauto|eapply Hh; eauto].
  - intros [= _ <-]. eapply Hm; eauto.
Qed.

Lemma Quiet_get_field (f : fref) : Quiet (get_field f).
Proof.
  intros st res st'. unfold get_field.
  destruct (nth_error (st_fields st) f); intros [= _ <-]; apply quiet_refl.
Qed.

Lemma Quiet_get_metanode (r : ref) : Quiet (get_metanode r).
Proof.
  intros st res st'. unfold get_metanode.
  destruct (nth_error (st_heap st) r); intros [= _ <-]; apply quiet_refl.
Qed.

Lemma nth_error_set_nth_other {A} (l : list A) (i j : nat) (y : A) :
  i <> j -> nth_error (set_nth i y l) j = nth_error l j.
Proof.
  revert i j. induction l as [|h l IH]; intros [|i] [|j] Hne; simpl; auto;
    congruence.
Qed.

Lemma Quiet_set_value (f : fref) (v : pyval) : Quiet (set_value f v).
Proof.
  intros st res st'. unfold set_value, bind, get_field, put_field.
  destruct (nth_error (st_fields st) f) as [x|] eqn:Hf;
    [|intros [= _ <-]; apply quiet_refl].
  intros [= _ <-]. repeat split; auto. intros g y Hg. simpl.
  destruct (Nat.eq_dec f g) as [<-|Hne].
  - rewrite (nth_error_set_nth _ _ _ _ Hf). eexists. split; [reflexivity|].
    rewrite Hf in Hg. injection Hg as <-. simpl. auto.
  - rewrite (nth_error_set_nth_other _ _ _ _ Hne). exists y. auto.
Qed.

Lemma Quiet_alloc_field (x : field) : Quiet (alloc_field x).
Proof.
  intros st res st' [= _ <-]. repeat split; auto. intros g y Hg. simpl.
  exists y. split; auto. rewrite nth_error_app1; auto.
  apply nth_error_Some. congruence.
Qed.

Lemma adds_emit (st : state) (e : event) :
  is_add e = false ->
  filter is_add (st_trace st ++ [e]) = filter is_add (st_trace st).
Proof. intros H. rewrite filter_app. simpl. rewrite H. apply app_nil_r. Qed.

Lemma Quiet_emit (e : event) : is_add e = false -> Quiet (emit e).
Proof.
  intros He st res st' [= _ <-]. repeat split; auto using fields_ext_same.
  unfold adds. simpl. now apply adds_emit.
Qed.

Create HintDb quiet.
#[export] Hint Resolve Quiet_ret Quiet_raise Quiet_beyond Quiet_lift Quiet_query
  Quiet_command Quiet_get_field Quiet_get_metanode Quiet_set_value
  Quiet_alloc_field Quiet_state : quiet.

(** Decompose a program into its calls and close each with the lemmas of
    the [quiet] database. *)
Ltac quiet_step :=
  match goal with
  | |- Quiet (bind _ _) => apply Quiet_bind; [|intros ?]
  | |- Quiet (try_except _ _) => apply Quiet_try_except; [|intros ?]
  | |- Quiet (match ?x with _ => _ end) => destruct x
  | |- Quiet (if ?b then _ else _) => destruct b
  | |- Quiet (emit _) => apply Quiet_emit; reflexivity
  | |- Quiet (let '(_, _) := ?x in _) => destruct x
  | |- Quiet _ => solve [auto with quiet]
  end.

Ltac quiet := repeat quiet_step.

Lemma Quiet_MetaNode_path (r : ref) : Quiet (MetaNode_path r).
Proof. unfold MetaNode_path. quiet. Qed.

Lemma Quiet_MetaNode_uuid (r : ref) : Quiet (MetaNode_uuid r).
Proof. unfold MetaNode_uuid, get_uuid. quiet. Qed.

#[export] Hint Resolve Quiet_MetaNode_path Quiet_MetaNode_uuid : quiet.

Lemma Quiet_Field_path (f : fref) : Quiet (Field_path f).
Proof. unfold Field_path. quiet. Qed.

#[export] Hint Resolve Quiet_Field_path : quiet.

Lemma Quiet_py_str (v : pyval) : Quiet (py_str v).
Proof. unfold py_str. quiet. Qed.

#[export] Hint Resolve Quiet_py_str : quiet.

Lemma Quiet_to_attribute (v : validator_class) (value : pyval) :
  Quiet (to_attribute v value).
Proof. unfold to_attribute. quiet. Qed.

#[export] Hint Resolve Quiet_to_attribute : quiet.

Lemma Quiet_create_attribute (f : fref) : Quiet (create_attribute f).
Proof.
  unfold create_attribute, SingleFieldBase_create_attribute,
    PublicField_create_attribute, MultiField_create_attribute,
    SingleFieldBase_create_attribute.
  quiet.
Qed.

Lemma Quiet_for_range (n : nat) (body : nat -> M unit) :
  (forall i, Quiet (body i)) -> Quiet (for_range n body).
Proof. intros H. induction n; simpl; quiet. Qed.

Lemma Quiet_lock_elements (f : fref) (b : bool) : Quiet (lock_elements f b).
Proof.
  unfold lock_elements, iter_elements. quiet.
  all: try (apply Quiet_for_range; intros i; quiet).
Qed.

#[export] Hint Resolve Quiet_create_attribute Quiet_lock_elements : quiet.

Lemma Quiet_write_elements (f : fref) (v : validator_class) (l : list pyval) :
  forall i, Quiet (write_elements f v i l).
Proof. induction l as [|x l IH]; intros i; simpl; quiet. Qed.

#[export] Hint Resolve Quiet_write_elements : quiet.

Lemma Quiet_write (f : fref) : Quiet (write f).
Proof.
  unfold write, Field_write, MultiField_write, Field_protect_attribute,
    PublicField_protect_attribute, MultiField_protect_attribute,
    clear_maya_attribute.
  quiet.
Qed.

#[export] Hint Resolve Quiet_write : quiet.

Lemma Quiet_set (f : fref) (v : pyval) : Quiet (set f v).
Proof. unfold set, PublicField_set, Field_set. quiet. Qed.

#[export] Hint Resolve Quiet_set : quiet.

(** ** Triples *)

Lemma triple_bind {A B} (P : state -> Prop) (m : M A) (k : A -> M B)
  (Q : A -> state -> Prop) (R : B -> state -> Prop) (E : state -> Prop) :
  triple P m Q E -> (forall a, triple (Q a) (k a) R E) ->
  triple P (bind m k) R E.
Proof.
  intros Hm Hk st res st' HP. unfold bind.
  destruct (m st) as [[a|e|w] s1] eqn:Em; pose proof (Hm _ _ _ HP Em) as H1.
  - intros H. exact (Hk a _ _ _ H1 H).
  - intros [= <- <-]. exact H1.
  - intros [= <- <-]. exact H1.
Qed.

Lemma triple_conseq {A} (P P' : state -> Prop) (m : M A)
  (Q Q' : A -> state -> Prop) (E E' : state -> Prop) :
  triple P' m Q' E' ->
  (forall st, P st -> P' st) ->
  (forall a st, Q' a st -> Q a st) ->
  (forall st, E' st -> E st) ->
  triple P m Q E.
Proof.
  intros H HP HQ HE st res st' Hst Hrun.
  pose proof (H _ _ _ (HP _ Hst) Hrun) as H1.
  destruct res; auto.
Qed.

Lemma triple_quiet {A} (I E : state -> Prop) (m : M A) :
  Quiet m -> respects I -> (forall st, I st -> E st) ->
  triple I m (fun _ => I) E.
Proof.
  intros Hq HI HE st res st' Hst Hrun.
  pose proof (HI _ _ (Hq _ _ _ Hrun) Hst) as H1.
  destruct res; auto.
Qed.

Lemma triple_for_each {A} (I E : state -> Prop) (l : list A) (body : A -> M unit) :
  (forall x, In x l -> triple I (body x) (fun _ => I) E) ->
  triple I (for_each l body) (fun _ => I) E.
Proof.
  induction l as [|x l IH]; intros H; simpl.
  - intros st res st' Hst Hrun. unfold ret in Hrun.
    inversion Hrun; subst. exact Hst.
  - eapply triple_bind with (Q := fun _ => I); [apply H; now left|]. intros ?.
    apply IH. intros y Hy. apply H. now right.
Qed.

(** ** Code that reaches the constructor

    The functions below call [MetaNode(node)] through the decoder of
    [MetaNodeValidator].  They keep every property [I] that the
    constructor keeps and that quiet changes cannot break. *)

Section Threading.
Variable MetaNode_ : pyval -> M ref.
Variables I E : state -> Prop.
Hypothesis I_respects : respects I.
Hypothesis I_E : forall st, I st -> E st.
Hypothesis MetaNode_keeps : forall node, triple I (MetaNode_ node) (fun _ => I) E.

Ltac thread_leaf :=
  first [ apply MetaNode_keeps
        | assumption
        | apply triple_quiet; [solve [quiet] | exact I_respects | exact I_E] ].

Ltac thread_step :=
  match goal with
  | |- triple _ (bind _ _) _ _ =>
      eapply triple_bind with (Q := fun _ => I); [|intros ?]
  | |- triple _ (match ?x with _ => _ end) _ _ => destruct x
  | |- triple _ (if ?b then _ else _) _ _ => destruct b
  | |- triple _ _ _ _ => thread_leaf
  end.

Ltac thread := repeat thread_step.

Lemma thread_from_attribute (v : validator_class) (value : pyval) :
  triple I (from_attribute MetaNode_ v value) (fun _ => I) E.
Proof. unfold from_attribute. thread. Qed.

Lemma thread_Field_read (f : fref) :
  triple I (Field_read MetaNode_ f) (fun _ => I) E.
Proof.
  pose proof thread_from_attribute as H.
  unfold Field_read. thread; apply H.
Qed.

Lemma thread_read_elements (f : fref) (n : nat) :
  triple I (read_elements MetaNode_ f n) (fun _ => I) E.
Proof.
  pose proof thread_from_attribute as H.
  induction n as [|n IH]; simpl; thread; apply H.
Qed.

Lemma thread_read (f : fref) : triple I (read MetaNode_ f) (fun _ => I) E.
Proof.
  pose proof thread_Field_read as H1. pose proof thread_read_elements as H2.
  unfold read, MultiField_read, iter_elements. thread; auto.
Qed.

Lemma thread_get (f : fref) : triple I (get MetaNode_ f) (fun _ => I) E.
Proof.
  pose proof thread_read as H.
  unfold get, PublicField_get, Field_get. thread; auto.
Qed.

Lemma thread_FieldBase_init (cls : field_class) (v : validator_class)
  (r : ref) (name : string) (kwargs : list (string * pyval)) :
  triple I (FieldBase_init MetaNode_ cls v r name kwargs) (fun _ => I) E.
Proof.
  pose proof thread_read as H.
  unfold FieldBase_init. thread; auto.
Qed.

Lemma thread_read_fields (r : ref) :
  triple I (read_fields MetaNode_ r) (fun _ => I) E.
Proof.
  pose proof thread_read as H.
  unfold read_fields. thread. apply triple_for_each. intros x _. thread; auto.
Qed.
End Threading.

(** ** The reserved fields during bootstrap (C8) *)

Lemma schema_first_adds (st st' : state) :
  adds st' = adds st -> schema_first st -> schema_first st'.
Proof.
  intros Ha H r name present Hin. apply (H r name present).
  assert (Hf : In (EvAddField r name present) (adds st')).
  { unfold adds. apply filter_In. split; [exact Hin|reflexivity]. }
  rewrite Ha in Hf. unfold adds in Hf. apply filter_In in Hf. tauto.
Qed.

Lemma has_key_heap (st st' : state) (r : ref) (k : string) :
  st_heap st' = st_heap st -> has_key r k st -> has_key r k st'.
Proof. intros Hh [m [Hm Hk]]. exists m. rewrite Hh. auto. Qed.

Lemma respects_schema_first : respects schema_first.
Proof. intros st st' [_ [_ [_ [Ha _]]]]. now apply schema_first_adds. Qed.

Lemma respects_Inv (K : ref -> string -> Prop) : respects (Inv K).
Proof.
  intros st st' Hq [H1 H2]. split.
  - eapply respects_schema_first; eauto.
  - intros r k Hk. destruct Hq as [Hh _]. eapply has_key_heap; eauto.
Qed.

Lemma Inv_schema_first (K : ref -> string -> Prop) (st : state) :
  Inv K st -> schema_first st.
Proof. now intros [H _]. Qed.

Lemma Inv_weaken (K K' : ref -> string -> Prop) (st : state) :
  (forall r k, K' r k -> K r k) -> Inv K st -> Inv K' st.
Proof. intros H [H1 H2]. split; auto. Qed.

Lemma dict_has_In_keys {V} (k : string) (d : list (string * V)) :
  dict_has k d = true -> In k (dict_keys d).
Proof.
  unfold dict_has, dict_keys. induction d as [|[k' v] d IH]; simpl.
  - discriminate.
  - destruct (String.eqb k k') eqn:E.
    + intros _. left. symmetry. now apply String.eqb_eq.
    + intros H. right. auto.
Qed.

Lemma triple_get_metanode (I E : state -> Prop) (r : ref) :
  (forall st, I st -> E st) ->
  triple I (get_metanode r)
         (fun m st => I st /\ nth_error (st_heap st) r = Some m) E.
Proof.
  intros HE st res st' Hst. unfold get_metanode.
  destruct (nth_error (st_heap st) r) eqn:Hr; intros Hrun;
    inversion Hrun; subst; auto.
Qed.

Lemma triple_raise {A} (I E : state -> Prop) (e : exn)
  (Q : A -> state -> Prop) :
  (forall st, I st -> E st) -> triple I (raise e) Q E.
Proof. intros H st res st' Hst Hrun. inversion Hrun; subst. auto. Qed.

Lemma triple_beyond {A} (I E : state -> Prop) (w : string)
  (Q : A -> state -> Prop) :
  (forall st, I st -> E st) -> triple I (beyond w) Q E.
Proof. intros H st res st' Hst Hrun. inversion Hrun; subst. auto. Qed.

Ltac by_raise :=
  unfold none_has_no;
  first [apply triple_raise | apply triple_beyond]; apply Inv_schema_first.

Ltac by_quiet :=
  apply triple_quiet;
  [solve [unfold MetaNode_getattr, none_has_no; quiet]
  |apply respects_Inv|apply Inv_schema_first].

Section ReservedFields.
Variable MetaNode_ : pyval -> M ref.
Hypothesis MetaNode_keeps :
  forall K node, only_reserved K ->
    triple (Inv K) (MetaNode_ node) (fun _ => Inv K) schema_first.

Lemma add_field_Inv (K : ref -> string -> Prop) (r : ref)
  (v : validator_class) (name : string) (a : Accessibility) (multi : pyval)
  (kwargs : list (string * pyval)) :
  only_reserved K ->
  name = "metanode_fields" \/ K r "metanode_fields" ->
  triple (Inv K) (add_field MetaNode_ r v name a multi kwargs)
         (fun _ => Inv (add_key K r name)) schema_first.
Proof.
  intros HK Hname. unfold add_field.
  assert (HK' : only_reserved (add_key K r name)).
  { intros r' k [H|[_ [-> H]]]; [exact (HK _ _ H)|exact H]. }
  eapply triple_bind; [apply triple_get_metanode; apply Inv_schema_first|].
  intros m0.
  eapply triple_bind with (Q := fun _ => Inv K).
  { intros st res st' [[Hs Hkeys] Hm0] Hrun. inversion Hrun; subst. split.
    - intros r' name' present Hin. simpl in Hin. apply in_app_or in Hin.
      destruct Hin as [Hin|[Heq|[]]]; [eapply Hs; eauto|].
      injection Heq as <- <- <-.
      destruct Hname as [->|Hk]; [now left|]. right.
      destruct (Hkeys _ _ Hk) as [m [Hm Hd]].
      rewrite Hm0 in Hm. injection Hm as <-. now apply dict_has_In_keys.
    - intros r' k Hk. eapply has_key_heap; [|apply Hkeys; eauto]. reflexivity. }
  intros _.
  eapply triple_bind with (Q := fun _ => Inv K).
  { by_quiet. }
  intros field_cls.
  eapply triple_bind with (Q := fun _ => Inv K).
  { apply thread_FieldBase_init;
      [apply respects_Inv|apply Inv_schema_first|intros; now apply MetaNode_keeps]. }
  intros field.
  eapply triple_bind; [apply triple_get_metanode; apply Inv_schema_first|].
  intros m.
  eapply triple_bind with (Q := fun _ => Inv (add_key K r name)).
  { intros st res st' [[Hs Hkeys] Hm] Hrun.
    unfold set_fields, bind, get_metanode, put_metanode in Hrun.
    rewrite Hm in Hrun. inversion Hrun; subst. split.
    - eapply schema_first_adds; [|exact Hs]. reflexivity.
    - intros r' k [Hk|[-> [-> _]]].
      + destruct (Hkeys _ _ Hk) as [m' [Hm' Hd]].
        destruct (Nat.eq_dec r r') as [<-|Hne].
        * eexists. simpl. split; [apply (nth_error_set_nth _ _ _ _ Hm)|].
          simpl. apply dict_has_set_mono. congruence.
        * exists m'. simpl. now rewrite nth_error_set_nth_other.
      + eexists. simpl. split; [apply (nth_error_set_nth _ _ _ _ Hm)|].
        simpl. apply dict_has_set_same. }
  intros _.
  eapply triple_bind with (Q := fun _ => Inv (add_key K r name)).
  { by_quiet. }
  intros [sf|].
  - eapply triple_bind with (Q := fun _ => Inv (add_key K r name)).
    { apply thread_get;
        [apply respects_Inv|apply Inv_schema_first
        |intros; now apply MetaNode_keeps]. }
    intros d.
    by_quiet.
  - by_quiet.
Qed.

Lemma Quiet_pop_descriptor (sf : fref) (field_name key : string) (d : pyval) :
  Quiet (pop_descriptor sf field_name key d).
Proof. unfold pop_descriptor. quiet. Qed.

Lemma redeclare_Inv (K : ref -> string -> Prop) (r : ref) (sf : fref)
  (item : string * pyval) :
  only_reserved K ->
  K r "metanode_fields" ->
  triple (Inv K) (redeclare MetaNode_ r sf item) (fun _ => Inv K) schema_first.
Proof.
  intros HK Hmf. destruct item as [field_name field_data]. unfold redeclare.
  pose proof Quiet_pop_descriptor as Hpop.
  eapply triple_bind with (Q := fun _ => Inv K).
  { apply triple_quiet; [apply Hpop|apply respects_Inv|apply Inv_schema_first]. }
  intros [validator_name_ d1].
  eapply triple_bind with (Q := fun _ => Inv K).
  { apply triple_quiet; [apply Hpop|apply respects_Inv|apply Inv_schema_first]. }
  intros [accessibility_ d2].
  eapply triple_bind with (Q := fun _ => Inv K).
  { by_quiet. }
  intros accessibility.
  eapply triple_bind with (Q := fun _ => Inv K).
  { apply triple_quiet; [apply Hpop|apply respects_Inv|apply Inv_schema_first]. }
  intros [multi d3].
  generalize all_validators. intros vs.
  induction vs as [|validator_cls vs IH].
  - by_quiet.
  - eapply triple_bind with (Q := fun _ => Inv K); [|intros ?; exact IH].
    destruct validator_name_;
      try (by_quiet).
    destruct (String.eqb (validator_name validator_cls) s);
      [|by_quiet].
    match goal with |- triple _ (if ?b then _ else _) _ _ => destruct b end;
      [by_quiet|].
    eapply triple_bind with (Q := fun _ => Inv K).
    + apply triple_conseq with (P' := Inv K)
        (Q' := fun _ => Inv (add_key K r field_name)) (E' := schema_first);
        [apply add_field_Inv; auto|auto| |auto].
      intros _ st. apply Inv_weaken. intros r' k H. now left.
    + intros _. by_quiet.
Qed.

Lemma add_default_fields_Inv (K : ref -> string -> Prop) (r : ref) :
  only_reserved K ->
  triple (Inv K) (add_default_fields MetaNode_ r)
         (fun _ => Inv (with_reserved K r)) schema_first.
Proof.
  intros HK. unfold add_default_fields.
  set (K1 := add_key K r "metanode_fields").
  set (K2 := add_key K1 r "metanode_type").
  set (K3 := add_key K2 r "is_initialized").
  assert (R1 : reserved "metanode_fields") by (left; reflexivity).
  assert (R2 : reserved "metanode_type") by (right; left; reflexivity).
  assert (R3 : reserved "is_initialized") by (right; right; reflexivity).
  assert (HK1 : only_reserved K1).
  { intros r' k [H|[_ [-> H]]]; [exact (HK _ _ H)|exact H]. }
  assert (HK2 : only_reserved K2).
  { intros r' k [H|[_ [-> H]]]; [exact (HK1 _ _ H)|exact H]. }
  assert (HK3 : only_reserved K3).
  { intros r' k [H|[_ [-> H]]]; [exact (HK2 _ _ H)|exact H]. }
  assert (M1 : K1 r "metanode_fields") by (right; auto).
  assert (M2 : K2 r "metanode_fields") by (left; exact M1).
  eapply triple_bind with (Q := fun _ => Inv K1).
  { apply add_field_Inv; auto. }
  intros _.
  eapply triple_bind with (Q := fun _ => Inv K1).
  { by_quiet. }
  intros [sf|]; [|by_raise].
  eapply triple_bind with (Q := fun _ => Inv K1).
  { apply thread_get;
      [apply respects_Inv|apply Inv_schema_first|intros; now apply MetaNode_keeps]. }
  intros d.
  destruct d; try by_raise.
  eapply triple_bind with (Q := fun _ => Inv K1).
  { apply triple_for_each. intros item _. now apply redeclare_Inv. }
  intros _.
  eapply triple_bind with (Q := fun _ => Inv K2).
  { apply add_field_Inv; auto. }
  intros _.
  eapply triple_bind with (Q := fun _ => Inv K2).
  { by_quiet. }
  intros m.
  eapply triple_bind with (Q := fun _ => Inv K2).
  { by_quiet. }
  intros tf.
  eapply triple_bind with (Q := fun _ => Inv K2).
  { destruct tf; by_quiet. }
  intros _.
  eapply triple_bind with (Q := fun _ => Inv K3).
  { apply add_field_Inv; auto. }
  intros _ st res st' Hst Hrun. inversion Hrun; subst.
  eapply Inv_weaken; [|exact Hst].
  intros r' k [Hk|[ -> [ -> | [ -> | -> ] ] ] ].
  - left. left. left. exact Hk.
  - left. left. right. auto.
  - left. right. auto.
  - right. auto.
Qed.

Lemma register_Inv (K : ref -> string -> Prop) (uuid : string) (r : ref) :
  triple (Inv K) (register uuid r) (fun _ => Inv K) schema_first.
Proof.
  intros st res st' [Hs Hk] Hrun. inversion Hrun; subst. split.
  - eapply schema_first_adds; [|exact Hs]. unfold adds. simpl.
    now apply adds_emit.
  - intros r' k H. eapply has_key_heap; [|apply Hk; eauto]. reflexivity.
Qed.

Lemma MetaNode_init_Inv (K : ref -> string -> Prop) (r : ref) (node : string) :
  only_reserved K ->
  triple (Inv K) (MetaNode_init MetaNode_ r node)
         (fun _ => Inv (with_reserved K r)) schema_first.
Proof.
  intros HK. unfold MetaNode_init.
  set (K' := with_reserved K r).
  assert (HK' : only_reserved K').
  { intros r' k [H|[_ H]]; [exact (HK _ _ H)|exact H]. }
  assert (HK0 : only_reserved (without K r)).
  { intros r' k [H _]. exact (HK _ _ H). }
  eapply triple_bind with (Q := fun _ => Inv K).
  { apply triple_quiet;
      [unfold get_mobject; quiet|apply respects_Inv|apply Inv_schema_first]. }
  intros mobj.
  eapply triple_bind; [apply triple_get_metanode; apply Inv_schema_first|].
  intros m.
  eapply triple_bind with (Q := fun _ => Inv (without K r)).
  { intros st res st' [[Hs Hkeys] Hm] Hrun. inversion Hrun; subst. split.
    - eapply schema_first_adds; [|exact Hs]. reflexivity.
    - intros r' k [Hk Hne]. destruct (Hkeys _ _ Hk) as [m' [Hm' Hd]].
      exists m'. simpl. rewrite nth_error_set_nth_other; auto. }
  intros _.
  eapply triple_bind with (Q := fun _ => Inv K').
  { apply triple_conseq with (P' := Inv (without K r))
      (Q' := fun _ => Inv (with_reserved (without K r) r)) (E' := schema_first);
      [apply add_default_fields_Inv; auto|auto| |auto].
    intros _ st. apply Inv_weaken. intros r' k [H|[-> H]].
    - destruct (Nat.eq_dec r' r) as [->|Hne].
      + right. split; [reflexivity|exact (HK _ _ H)].
      + left. split; assumption.
    - right. auto. }
  intros _.
  eapply triple_bind with (Q := fun _ => Inv K'); [by_quiet|]. intros uuid.
  eapply triple_bind with (Q := fun _ => Inv K'); [by_quiet|]. intros known.
  eapply triple_bind with (Q := fun _ => Inv K').
  { destruct (negb known); [|by_quiet].
    eapply triple_bind with (Q := fun _ => Inv K').
    { apply thread_read_fields;
        [apply respects_Inv|apply Inv_schema_first
        |intros; now apply MetaNode_keeps]. }
    intros _.
    eapply triple_bind with (Q := fun _ => Inv K'); [by_quiet|]. intros uuid'.
    apply register_Inv. }
  intros _.
  eapply triple_bind with (Q := fun _ => Inv K'); [by_quiet|].
  intros [ff|]; [|by_raise].
  eapply triple_bind with (Q := fun _ => Inv K').
  { apply thread_get;
      [apply respects_Inv|apply Inv_schema_first|intros; now apply MetaNode_keeps]. }
  intros v. destruct (negb (py_truth v)); [|by_quiet].
  eapply triple_bind with (Q := fun _ => Inv K');
    [unfold initialize; by_quiet|].
  intros _.
  eapply triple_bind with (Q := fun _ => Inv K'); [by_quiet|].
  intros [ff'|]; [by_quiet|by_raise].
Qed.
End ReservedFields.

Lemma MetaNode_new_Inv (K : ref -> string -> Prop) (cls : string) (node : pyval) :
  triple (Inv K) (MetaNode_new cls node) (fun _ => Inv K) schema_first.
Proof.
  assert (Halloc : forall m, triple (Inv K) (alloc_metanode m)
                                    (fun _ => Inv K) schema_first).
  { intros m st res st' [Hs Hk] Hrun. inversion Hrun; subst. split.
    - eapply schema_first_adds; [|exact Hs]. reflexivity.
    - intros r k H. destruct (Hk _ _ H) as [m' [Hm' Hd]]. exists m'. simpl.
      split; auto. rewrite nth_error_app1; auto.
      apply nth_error_Some. congruence. }
  unfold MetaNode_new. destruct node; try by_raise.
  eapply triple_bind with (Q := fun _ => Inv K); [by_quiet|]. intros ex.
  destruct (negb ex); [by_raise|].
  eapply triple_bind with (Q := fun _ => Inv K);
    [unfold get_mobject; by_quiet|]. intros mobj.
  eapply triple_bind with (Q := fun _ => Inv K);
    [unfold get_uuid; by_quiet|]. intros uuid.
  eapply triple_bind with (Q := fun _ => Inv K); [by_quiet|].
  intros [instance|]; [by_quiet|].
  eapply triple_bind with (Q := fun _ => Inv K); [by_quiet|]. intros has_tag.
  eapply triple_bind with (Q := fun _ => Inv K);
    [destruct has_tag; by_quiet|]. intros stored.
  eapply triple_bind with (Q := fun _ => Inv K); [by_quiet|]. intros classes.
  match goal with |- triple _ (match ?x with _ => _ end) _ _ => destruct x end;
    [apply Halloc|by_raise].
Qed.

(** The constructor keeps [schema_first], whatever it ends with, and the
    reserved keys of every instance when it returns. *)
Lemma MetaNode_call_Inv (fuel : nat) :
  forall (cls : string) (node : pyval) (K : ref -> string -> Prop),
    only_reserved K ->
    triple (Inv K) (MetaNode_call fuel cls node) (fun _ => Inv K) schema_first.
Proof.
  induction fuel as [|fuel IH]; intros cls node K HK; simpl.
  - by_raise.
  - eapply triple_bind with (Q := fun _ => Inv K); [apply MetaNode_new_Inv|].
    intros r.
    eapply triple_bind with (Q := fun _ => Inv K); [by_quiet|]. intros m.
    eapply triple_bind with (Q := fun _ => Inv K); [by_quiet|]. intros classes.
    eapply triple_bind with (Q := fun _ => Inv K); [|intros ?; by_quiet].
    destruct (isinstance classes (m_class m) cls); [|by_quiet].
    destruct node; try by_quiet.
    apply triple_conseq with (P' := Inv K)
      (Q' := fun _ => Inv (with_reserved K r)) (E' := schema_first);
      [apply MetaNode_init_Inv; [intros K0 node0 HK0; now apply IH|exact HK]
      |auto| |auto].
    intros _ st. apply Inv_weaken. intros r' k H. now left.
Qed.

(** C8, amended.  Only the schema field is known to be there before the
    other declarations.  Say that a state is in order when every
    [add_field] call recorded so far was either for [metanode_fields] or
    found [metanode_fields] in the field map of its instance.  (1) A
    constructor call, with the constructor calls nested in it, keeps a state
    in order, however it ends.  (2) So does a call of [add_field] on an
    instance whose field map holds [metanode_fields].  (3, 4) When
    [add_default_fields], or [__init__], returns normally from a state in
    order, the three reserved fields are in the field map.  Nothing is said
    of [metanode_type] and [is_initialized] at the time a persisted field
    is declared again: see the counterexample. *)
Theorem schema_field_first :
  (forall fuel cls node st res st',
      schema_first st ->
      MetaNode_call fuel cls node st = (res, st') ->
      schema_first st') /\
  (forall fuel r v name a multi kwargs st res st',
      schema_first st ->
      has_key r "metanode_fields" st ->
      add_field (MetaNode_call fuel "MetaNode") r v name a multi kwargs st
      = (res, st') ->
      schema_first st') /\
  (forall fuel r st st',
      schema_first st ->
      add_default_fields (MetaNode_call fuel "MetaNode") r st = (Ok tt, st') ->
      has_key r "metanode_fields" st' /\ has_key r "metanode_type" st' /\
      has_key r "is_initialized" st') /\
  (forall fuel r node st st',
      schema_first st ->
      MetaNode_init (MetaNode_call fuel "MetaNode") r node st = (Ok tt, st') ->
      has_key r "metanode_fields" st' /\ has_key r "metanode_type" st' /\
      has_key r "is_initialized" st').
Proof.
  assert (Hnone : only_reserved (fun _ _ => False)) by (intros ? ? []).
  assert (H0 : forall st, schema_first st -> Inv (fun _ _ => False) st)
    by (intros st H; split; [exact H|intros ? ? []]).
  assert (Hcall : forall fuel K node, only_reserved K ->
            triple (Inv K) (MetaNode_call fuel "MetaNode" node)
                   (fun _ => Inv K) schema_first)
    by (intros; now apply MetaNode_call_Inv).
  assert (Hkeys : forall r st, Inv (with_reserved (fun _ _ => False) r) st ->
            has_key r "metanode_fields" st /\ has_key r "metanode_type" st /\
            has_key r "is_initialized" st).
  { intros r st [_ Hk]. repeat split; apply Hk; right; split; auto;
      unfold reserved; auto. }
  split; [|split; [|split]].
  - intros fuel cls node st res st' Hs Hrun.
    pose proof (MetaNode_call_Inv fuel cls node _ Hnone _ _ _ (H0 _ Hs) Hrun) as H.
    destruct res; auto. now apply Inv_schema_first in H.
  - intros fuel r v name a multi kwargs st res st' Hs Hmf Hrun.
    set (K := fun r' k => r' = r /\ k = "metanode_fields").
    assert (HK : only_reserved K) by (intros ? ? [_ ->]; left; reflexivity).
    assert (Hst : Inv K st).
    { split; [exact Hs|]. intros r' k [-> ->]. exact Hmf. }
    pose proof (add_field_Inv _ (Hcall fuel) K r v name a multi kwargs HK
                  (or_intror (conj eq_refl eq_refl)) _ _ _ Hst Hrun) as H.
    destruct res; auto. now apply Inv_schema_first in H.
  - intros fuel r st st' Hs Hrun. apply Hkeys.
    exact (add_default_fields_Inv _ (Hcall fuel) _ r Hnone _ _ _ (H0 _ Hs) Hrun).
  - intros fuel r node st st' Hs Hrun. apply Hkeys.
    exact (MetaNode_init_Inv _ (Hcall fuel) _ r node Hnone _ _ _ (H0 _ Hs) Hrun).
Qed.

(** Witness for C8: wrapping the flushed transform in a fresh process. *)
Lemma schema_field_first_witness :
  let st0 := fresh_process flushed_transform [] in
  let run := MetaNode_call 3 "MetaNode" (VStr "transform1") st0 in
  let st1 := snd (MetaNode_new "MetaNode" (VStr "transform1") st0) in
  let st2 := snd (MetaNode_init (MetaNode_call 2 "MetaNode") 0%nat "transform1" st1) in
  schema_first st0 /\ schema_first (snd run) /\
  has_key 0%nat "metanode_fields" st2 /\ has_key 0%nat "metanode_type" st2 /\
  has_key 0%nat "is_initialized" st2.
Proof.
  intros st0 run st1 st2.
  assert (Hs0 : schema_first st0) by (intros ? ? ? []).
  destruct schema_field_first as [H1 [_ [_ H4]]].
  split; [exact Hs0|]. split.
  - apply (H1 3%nat "MetaNode" (VStr "transform1") st0 (fst run) (snd run) Hs0).
    apply surjective_pairing.
  - apply (H4 2%nat 0%nat "transform1" st1 st2).
    + intros r name present Hin. vm_compute in Hin. destruct Hin.
    + vm_compute. reflexivity.
Defined.

(** ** Properties kept by the declaration of fields

    A property of states is kept by [add_field] and by the loop of
    [add_default_fields] as soon as quiet changes, the constructor, the
    update of a field map and the recording of a call keep it. *)

Section Keeping.
Variable MetaNode_ : pyval -> M ref.
Variable I : state -> Prop.
Hypothesis I_respects : respects I.
Hypothesis MetaNode_keeps : forall node, triple I (MetaNode_ node) (fun _ => I) I.
Hypothesis I_set_fields : forall r fs, triple I (set_fields r fs) (fun _ => I) I.
Hypothesis I_emit : forall e, triple I (emit e) (fun _ => I) I.






End Keeping.

(** ** The identity cache (C2) *)









Lemma find_uuid_of_node (name : string) (sc : scene) (n : node) :
  find_node name sc = Some n ->
  exists n', find_uuid (n_uuid n) sc = Some n'.
Proof.
  induction sc as [|h sc IH]; simpl; [discriminate|].
  destruct (String.eqb name (n_name h)).
  - intros [= <-]. rewrite String.eqb_refl. eauto.
  - intros H. destruct (String.eqb (n_uuid n) (n_uuid h)); eauto.
Qed.

Lemma objExists_run (name : string) (st : state) (n : node) :
  find_node name (st_scene st) = Some n ->
  query (fun sc => Ok (objExists name sc)) st = (Ok true, st).
Proof. intros Hn. unfold query, objExists. now rewrite Hn. Qed.

Lemma get_mobject_run (name : string) (st : state) (n : node) :
  find_node name (st_scene st) = Some n ->
  get_mobject name st = (Ok (n_uuid n), st).
Proof. intros Hn. unfold get_mobject, query. now rewrite Hn. Qed.

Lemma get_uuid_run (u : string) (st : state) (n : node) :
  find_uuid u (st_scene st) = Some n ->
  get_uuid u st = (Ok u, st).
Proof.
  intros Hu. unfold get_uuid, query. rewrite Hu.
  now rewrite (find_uuid_uuid _ _ _ Hu).
Qed.

(** [__new__] on a node whose durable id is in the cache: the cached
    instance, and nothing changes. *)
Lemma MetaNode_new_hit (cls name : string) (st : state) (n : node) (r : ref) :
  find_node name (st_scene st) = Some n ->
  registered (n_uuid n) r st ->
  MetaNode_new cls (VStr name) st = (Ok r, st).
Proof.
  intros Hn Hr. destruct (find_uuid_of_node _ _ _ Hn) as [n' Hu].
  unfold MetaNode_new.
  rewrite (bind_ok _ _ _ _ _ (objExists_run _ _ _ Hn)).
  cbv beta. cbn [negb].
  rewrite (bind_ok _ _ _ _ _ (get_mobject_run _ _ _ Hn)).
  rewrite (bind_ok _ _ _ _ _ (get_uuid_run _ _ _ Hu)).
  unfold bind at 1. unfold registered in Hr. rewrite Hr. reflexivity.
Qed.


Lemma nth_error_app_length {A} (l : list A) (x : A) :
  nth_error (l ++ [x]) (List.length l) = Some x.
Proof. rewrite nth_error_app2, Nat.sub_diag; [reflexivity|apply Nat.le_refl]. Qed.




Lemma MetaNode_call_hit (fuel : nat) (cls name : string) (st : state)
  (n : node) (r : ref) :
  find_node name (st_scene st) = Some n ->
  registered (n_uuid n) r st ->
  MetaNode_call (S fuel) cls (VStr name) st
  = (m <- get_metanode r ;;
     classes <- (fun st => (Ok (st_classes st), st)) ;;
     (if isinstance classes (m_class m) cls
      then MetaNode_init (MetaNode_call fuel "MetaNode") r name
      else ret tt) ;;;
     ret r) st.
Proof.
  intros Hn Hr. simpl.
  now rewrite (bind_ok _ _ _ _ _ (MetaNode_new_hit cls _ _ _ _ Hn Hr)).
Qed.

Lemma MetaNode_call_hit_result (fuel : nat) (cls name : string) (st st' : state)
  (n : node) (r r' : ref) :
  find_node name (st_scene st) = Some n ->
  registered (n_uuid n) r st ->
  MetaNode_call fuel cls (VStr name) st = (Ok r', st') ->
  r' = r.
Proof.
  intros Hn Hr. destruct fuel as [|fuel]; [discriminate|].
  rewrite (MetaNode_call_hit _ _ _ _ _ _ Hn Hr). unfold bind.
  destruct (get_metanode r st) as [[m| |] s1]; try discriminate.
  destruct (isinstance (st_classes s1) (m_class m) cls).
  - destruct (MetaNode_init _ r name s1) as [[[]| |] s2]; try discriminate.
    now intros [= <- _].
  - now intros [= <- _].
Qed.




(** ** [json.loads] after [json.dumps] *)

Lemma append_assoc (a b c : string) : ((a ++ b) ++ c = a ++ (b ++ c))%string.
Proof. induction a as [|x a IH]; simpl; [reflexivity|now rewrite IH]. Qed.

Lemma length_append (a b : string) :
  String.length (a ++ b) = (String.length a + String.length b)%nat.
Proof. induction a as [|x a IH]; simpl; [reflexivity|now rewrite IH]. Qed.

Lemma delimited_no_digit (rest : string) :
  delimited rest ->
  scan_digits rest = (EmptyString, rest) /\
  (head_is "." rest || head_is "e" rest || head_is "E" rest)%bool = false.
Proof.
  intros [->|H]; [split; reflexivity|].
  destruct rest as [|c rest]; [split; reflexivity|]. simpl in *.
  destruct H as [H|[H|H]]; apply Ascii.eqb_eq in H; subst c; split; reflexivity.
Qed.

Lemma scan_digits_uint (d : Decimal.uint) (rest : string) :
  delimited rest ->
  scan_digits (NilEmpty.string_of_uint d ++ rest)
  = (NilEmpty.string_of_uint d, rest).
Proof.
  intros Hr. induction d; simpl; try rewrite IHd; try reflexivity.
  apply (delimited_no_digit _ Hr).
Qed.

Lemma nzhead_head (d : Decimal.uint) :
  match Decimal.nzhead d with Decimal.D0 _ => False | _ => True end.
Proof. induction d; simpl; auto. Qed.

Lemma to_uint_head (p : positive) :
  match Pos.to_uint p with
  | Decimal.Nil | Decimal.D0 _ => False
  | _ => True
  end.
Proof.
  pose proof (DecimalPos.Unsigned.to_of (Pos.to_uint p)) as H.
  rewrite DecimalPos.Unsigned.of_to in H. simpl in H.
  pose proof (nzhead_head (Pos.to_uint p)) as Hh.
  pose proof (DecimalPos.Unsigned.to_uint_nonnil p) as Hn.
  unfold Decimal.unorm in H.
  destruct (Decimal.nzhead (Pos.to_uint p)) eqn:E; rewrite H in *; auto.
  - pose proof (DecimalPos.Unsigned.to_uint_nonzero p). congruence.
Qed.

(** Reading back the digits of a positive number. *)
Lemma scan_number_pos (p : positive) (rest : string) (neg : bool) :
  delimited rest ->
  let d := NilEmpty.string_of_uint (Pos.to_uint p) in
  scan_digits (d ++ rest) = (d, rest) /\
  exists c d', d = String c d' /\ Ascii.eqb c "0" = false /\
               is_digit c = true /\
               NilZero.int_of_string d = Some (Decimal.Pos (Pos.to_uint p)).
Proof.
  intros Hr d. split; [now apply scan_digits_uint|].
  pose proof (to_uint_head p) as Hh.
  pose proof (NilEmpty.usu (Pos.to_uint p)) as Hu.
  subst d. destruct (Pos.to_uint p) eqn:E; try contradiction;
    simpl; eexists; eexists; (split; [reflexivity|]);
    (split; [reflexivity|]); (split; [reflexivity|]);
    simpl in Hu; unfold NilZero.int_of_string, NilZero.uint_of_string; simpl;
    rewrite Hu; reflexivity.
Qed.

Lemma digit_is_not (c x : ascii) :
  is_digit c = true -> is_digit x = false -> Ascii.eqb c x = false.
Proof.
  intros Hc Hx. destruct (Ascii.eqb_spec c x) as [->|]; [congruence|reflexivity].
Qed.

Lemma uint_string_nonnil (d : Decimal.uint) :
  d <> Decimal.Nil -> NilZero.string_of_uint d = NilEmpty.string_of_uint d.
Proof. destruct d; simpl; congruence. Qed.

Lemma scan_number_Z (z : Z) (rest : string) :
  delimited rest ->
  scan_number (string_of_Z z ++ rest) = Ok (VInt z, rest).
Proof.
  intros Hr. destruct (delimited_no_digit _ Hr) as [Hd Hf].
  unfold string_of_Z. destruct z as [|p|p]; simpl Z.to_int.
  - simpl. unfold scan_number. simpl. rewrite Hd. simpl. rewrite Hf. reflexivity.
  - unfold NilZero.string_of_int.
    rewrite (uint_string_nonnil _ (DecimalPos.Unsigned.to_uint_nonnil p)).
    destruct (scan_number_pos p rest false Hr) as [Hs [c [d' [Hd' [Hz [Hdig Hi]]]]]].
    unfold scan_number. rewrite Hd'. simpl append.
    assert (Hm : head_is "-" (String c (d' ++ rest)) = false)
      by (simpl; apply digit_is_not; auto).
    rewrite Hm. rewrite Hd' in Hs. simpl append in Hs. rewrite Hs.
    rewrite Hz. simpl andb. rewrite Hf. rewrite <- Hd', Hi.
    pose proof (DecimalZ.of_to (Z.pos p)) as Hz'. simpl in Hz'.
    simpl Z.of_int. now rewrite Hz'.
  - unfold NilZero.string_of_int.
    rewrite (uint_string_nonnil _ (DecimalPos.Unsigned.to_uint_nonnil p)).
    destruct (scan_number_pos p rest true Hr) as [Hs [c [d' [Hd' [Hz [Hdig Hi]]]]]].
    unfold scan_number. simpl append. simpl head_is. simpl tail. cbv iota.
    rewrite Hs. rewrite Hd'. rewrite Hz. simpl andb. rewrite Hf.
    rewrite <- Hd', Hi.
    pose proof (DecimalZ.of_to (Z.pos p)) as Hz'. simpl in Hz'.
    simpl Z.of_int. now rewrite Hz'.
Qed.

Lemma string_of_Z_start (z : Z) :
  exists c t, string_of_Z z = String c t /\ number_start c = true.
Proof.
  unfold string_of_Z. destruct z as [|p|p]; simpl Z.to_int.
  - eexists; eexists. split; reflexivity.
  - unfold NilZero.string_of_int.
    rewrite (uint_string_nonnil _ (DecimalPos.Unsigned.to_uint_nonnil p)).
    destruct (scan_number_pos p EmptyString false (or_introl eq_refl))
      as [_ [c [d' [Hd' [_ [Hdig _]]]]]].
    exists c, d'. split; [exact Hd'|]. unfold number_start.
    rewrite Hdig. apply orb_true_r.
  - eexists; eexists. split; reflexivity.
Qed.

Lemma number_start_dispatch (c : ascii) :
  number_start c = true ->
  is_space c = false /\ Ascii.eqb c "{" = false /\ Ascii.eqb c "[" = false /\
  Ascii.eqb c dquote = false /\ Ascii.eqb c "t" = false /\
  Ascii.eqb c "f" = false /\ Ascii.eqb c "n" = false /\
  Ascii.eqb c "]" = false /\ Ascii.eqb c "}" = false.
Proof.
  unfold number_start. intros H. apply orb_prop in H. destruct H as [H|H].
  - apply Ascii.eqb_eq in H. subst c. repeat split; reflexivity.
  - repeat split; try (apply digit_is_not; [exact H|reflexivity]).
    unfold is_space, is_digit in *.
    destruct (nat_of_ascii c) as [|n]; [discriminate|].
    apply andb_prop in H. destruct H as [H1 H2].
    apply Nat.leb_le in H1, H2.
    apply orb_false_intro.
    + apply Nat.eqb_neq. lia.
    + apply andb_false_intro2. apply Nat.leb_gt. lia.
Qed.

Lemma append_nil_r (s : string) : (s ++ EmptyString)%string = s.
Proof. induction s as [|c s IH]; simpl; [reflexivity|now rewrite IH]. Qed.

Lemma substring_full (s : string) : substring 0 (String.length s) s = s.
Proof. induction s as [|c s IH]; simpl; [reflexivity|now rewrite IH]. Qed.

Lemma scan_escape (s e : string) :
  json_escape s = Ok e ->
  forall rest, scan_string (e ++ String dquote rest) = Ok (s, rest).
Proof.
  revert e. induction s as [|c s IH]; intros e; simpl.
  - intros [= <-] rest. reflexivity.
  - destruct (json_escape s) as [r| |]; simpl; try discriminate.
    destruct (Ascii.eqb c dquote) eqn:Eq.
    + intros [= <-] rest. apply Ascii.eqb_eq in Eq. subst c.
      simpl. rewrite (IH r eq_refl). reflexivity.
    + destruct (Ascii.eqb c "\") eqn:Eb.
      * intros [= <-] rest. apply Ascii.eqb_eq in Eb. subst c.
        simpl. rewrite (IH r eq_refl). reflexivity.
      * destruct (plain_char c) eqn:Ep; [|discriminate].
        intros [= <-] rest. simpl. rewrite Eq, Eb, Ep.
        rewrite (IH r eq_refl). reflexivity.
Qed.

Lemma plain_escape (s : string) :
  plain_string s = true -> exists e, json_escape s = Ok e.
Proof.
  induction s as [|c s IH]; simpl; [eauto|].
  intros H. apply andb_prop in H. destruct H as [Hc Hs].
  destruct (IH Hs) as [e He]. rewrite He. simpl. rewrite Hc.
  destruct (Ascii.eqb c dquote); [eauto|]. destruct (Ascii.eqb c "\"); eauto.
Qed.

(** The text of a string literal reads back as the string. *)
Lemma quoted_reads_back (s : string) :
  plain_string s = true ->
  exists q, json_quote s = Ok (String dquote q) /\
            forall rest, scan_string (q ++ rest) = Ok (s, rest).
Proof.
  intros H. destruct (plain_escape s H) as [e He].
  exists (e ++ String dquote EmptyString)%string. unfold json_quote.
  rewrite He. simpl. split; [reflexivity|].
  intros rest. rewrite append_assoc. simpl. now apply scan_escape.
Qed.

Lemma dict_set_fresh {V} (k : string) (v : V) (d : list (string * V)) :
  dict_has k d = false -> dict_set k v d = (d ++ [(k, v)])%list.
Proof.
  unfold dict_has. induction d as [|[k' v'] d IH]; simpl; [reflexivity|].
  destruct (String.eqb k k'); [discriminate|]. intros H. now rewrite IH.
Qed.

Lemma dict_has_app {V} (k : string) (d1 d2 : list (string * V)) :
  dict_has k (d1 ++ d2) = (dict_has k d1 || dict_has k d2)%bool.
Proof.
  unfold dict_has. induction d1 as [|[k' v'] d1 IH]; simpl; [reflexivity|].
  destruct (String.eqb k k'); [reflexivity|exact IH].
Qed.

Lemma parse_value_space (f : nat) (s : string) :
  parse_value f (String " " s) = parse_value f s.
Proof. destruct f; reflexivity. Qed.

Lemma parse_elems_space (f : nat) (s : string) (acc : list pyval) :
  parse_elems f (String " " s) acc = parse_elems f s acc.
Proof. destruct f; simpl; [reflexivity|]. now rewrite parse_value_space. Qed.

Lemma parse_members_space (f : nat) (s : string) (acc : list (string * pyval)) :
  parse_members f (String " " s) acc = parse_members f s acc.
Proof. destruct f; reflexivity. Qed.

Lemma opens_value_head (s rest : string) (c : ascii) :
  opens_value s ->
  lstrip (s ++ rest) = (s ++ rest)%string /\
  head_is "]" (s ++ rest) = false /\ head_is "}" (s ++ rest) = false.
Proof.
  intros [c' [t [-> [Hs [H1 H2]]]]]. simpl. rewrite Hs. auto.
Qed.

Lemma prefix_nil (s : string) : prefix EmptyString s = true.
Proof. destruct s; reflexivity. Qed.

Lemma json_dumps_list (l : list pyval) :
  json_dumps_body (VList l)
  = rbind (rmap json_dumps_body l) (fun ss => Ok ("[" ++ join ", " ss ++ "]")%string).
Proof. reflexivity. Qed.

Lemma json_dumps_dict (d : list (string * pyval)) :
  json_dumps_body (VDict d)
  = rbind (rmap member_text d) (fun ss => Ok ("{" ++ join ", " ss ++ "}")%string).
Proof. reflexivity. Qed.

Lemma need_positive (v : pyval) : (1 <= need v)%nat.
Proof. destruct v; simpl; lia. Qed.

Lemma reads_value_step (n : nat) :
  reads_elems n -> reads_members n -> reads_value (S n).
Proof.
  intros HQ HR v Hneed Hok.
  destruct v as [| b | z | f | str | l | d | m | r]; simpl in Hok;
    try discriminate.
  - (* None *)
    exists "null". split; [reflexivity|]. split; [simpl; lia|]. split.
    + exists "n"%char, "ull". repeat split; reflexivity.
    + intros rest _. simpl. unfold expect. simpl.
      rewrite prefix_nil, Nat.sub_0_r. now rewrite substring_full.
  - (* booleans *)
    destruct b.
    + exists "true". split; [reflexivity|]. split; [simpl; lia|]. split.
      * exists "t"%char, "rue". repeat split; reflexivity.
      * intros rest _. simpl. unfold expect. simpl.
        rewrite prefix_nil, Nat.sub_0_r. now rewrite substring_full.
    + exists "false". split; [reflexivity|]. split; [simpl; lia|]. split.
      * exists "f"%char, "alse". repeat split; reflexivity.
      * intros rest _. simpl. unfold expect. simpl.
        rewrite prefix_nil, Nat.sub_0_r. now rewrite substring_full.
  - (* integers *)
    destruct (string_of_Z_start z) as [c [t [Hs Hc]]].
    destruct (number_start_dispatch c Hc)
      as [H0 [H1 [H2 [H3 [H4 [H5 [H6 [H7 H8]]]]]]]].
    exists (string_of_Z z). split; [reflexivity|].
    split; [rewrite Hs; simpl; lia|]. split.
    + exists c, t. auto.
    + intros rest Hr. pose proof (scan_number_Z z rest Hr) as Hn.
      rewrite Hs in *. simpl. rewrite H0, H1, H2, H3, H4, H5, H6. exact Hn.
  - (* text *)
    destruct (quoted_reads_back str Hok) as [q [Hq Hscan]].
    exists (String dquote q). split; [exact Hq|]. split; [simpl; lia|]. split.
    + exists dquote, q. repeat split; reflexivity.
    + intros rest _. simpl. rewrite Hscan. reflexivity.
  - (* lists *)
    destruct l as [|x l].
    + exists "[]". split; [reflexivity|]. split; [simpl; lia|]. split.
      * exists "["%char, "]". repeat split; reflexivity.
      * intros rest _. reflexivity.
    + assert (Hne : x :: l <> []) by discriminate.
      assert (Hn : (elems_need (x :: l) <= n)%nat)
        by (simpl in Hneed; unfold elems_need; simpl; lia).
      destruct (HQ (x :: l) Hne Hn Hok) as [ss [Hss [Hlen [Hopen Hparse]]]].
      exists ("[" ++ join ", " ss ++ "]")%string.
      split; [rewrite json_dumps_list, Hss; reflexivity|].
      split.
      { change (need (VList (x :: l))) with (S (elems_need (x :: l))).
        simpl String.length. rewrite length_append. simpl. lia. }
      split; [exists "["%char; eexists; repeat split; reflexivity|].
      intros rest _.
      change (("[" ++ join ", " ss ++ "]") ++ rest)%string
        with (String "[" ((join ", " ss ++ "]") ++ rest)).
      rewrite append_assoc. simpl append.
      destruct (opens_value_head _ (String "]" rest) "a" Hopen) as [E1 [E2 _]].
      simpl. rewrite E1, E2. apply (Hparse []).
  - (* dicts *)
    apply andb_prop in Hok. destruct Hok as [Hok Huniq].
    destruct d as [|kv d].
    + exists "{}". split; [reflexivity|]. split; [simpl; lia|]. split.
      * exists "{"%char, "}". repeat split; reflexivity.
      * intros rest _. reflexivity.
    + assert (Hne : kv :: d <> []) by discriminate.
      assert (Hn : (members_need (kv :: d) <= n)%nat)
        by (simpl in Hneed; unfold members_need; simpl; lia).
      destruct (HR (kv :: d) Hne Hn Hok Huniq) as [ss [Hss [Hlen [Hq Hparse]]]].
      exists ("{" ++ join ", " ss ++ "}")%string.
      split.
      { rewrite json_dumps_dict, Hss. reflexivity. }
      split.
      { change (need (VDict (kv :: d))) with (S (members_need (kv :: d))).
        simpl String.length. rewrite length_append. simpl. lia. }
      split; [exists "{"%char; eexists; repeat split; reflexivity|].
      intros rest _.
      change (("{" ++ join ", " ss ++ "}") ++ rest)%string
        with (String "{" ((join ", " ss ++ "}") ++ rest)).
      rewrite append_assoc. simpl append.
      destruct (join ", " ss) as [|c t] eqn:Ej; [discriminate|].
      simpl in Hq. apply Ascii.eqb_eq in Hq. subst c.
      simpl. apply (Hparse []). intros k _. reflexivity.
Qed.

Lemma opens_value_app (s t : string) : opens_value s -> opens_value (s ++ t).
Proof.
  intros [c [u [-> H]]]. exists c, (u ++ t)%string. split; [reflexivity|exact H].
Qed.

Lemma rbind_Ok {A B} (a : A) (k : A -> result B) : rbind (Ok a) k = k a.
Proof. reflexivity. Qed.

Lemma join_cons (sep x y : string) (l : list string) :
  join sep (x :: y :: l) = (x ++ sep ++ join sep (y :: l))%string.
Proof. reflexivity. Qed.

Lemma reads_elems_step (n : nat) :
  reads_value n -> reads_elems n -> reads_elems (S n).
Proof.
  intros HP HQ l Hne Hneed Hok. destruct l as [|x l]; [congruence|].
  simpl in Hok. apply andb_prop in Hok. destruct Hok as [Hx Hl].
  unfold elems_need in Hneed. simpl in Hneed.
  fold (elems_need l) in Hneed.
  assert (Hnx : (need x <= n)%nat) by lia.
  destruct (HP x Hnx Hx) as [sx [Hsx [Hlx [Hox Hpx]]]].
  destruct l as [|y l].
  - exists [sx]. split; [simpl; rewrite Hsx; reflexivity|].
    split; [unfold elems_need; simpl; lia|]. split; [exact Hox|].
    intros acc rest. simpl join. simpl parse_elems.
    rewrite (Hpx (String "]" rest)) by (right; right; left; reflexivity).
    reflexivity.
  - assert (Hne' : y :: l <> []) by discriminate.
    assert (Hnl : (elems_need (y :: l) <= n)%nat) by lia.
    destruct (HQ (y :: l) Hne' Hnl Hl) as [ss [Hss [Hls [Hos Hps]]]].
    destruct ss as [|s1 ss].
    { destruct Hos as [c [t [E _]]]. discriminate E. }
    exists (sx :: s1 :: ss). split.
    { change (rmap json_dumps_body (x :: y :: l))
        with (rbind (json_dumps_body x)
                (fun a => rbind (rmap json_dumps_body (y :: l))
                            (fun ys => Ok (a :: ys)))).
      rewrite Hsx, rbind_Ok, Hss. reflexivity. }
    split.
    { change (elems_need (x :: y :: l))
        with (S (need x + elems_need (y :: l))).
      rewrite join_cons, !length_append.
      revert Hls. generalize (join ", " (s1 :: ss)) (elems_need (y :: l)).
      intros J E HJ. simpl String.length. lia. }
    split; [rewrite join_cons; now apply opens_value_app|].
    intros acc rest. rewrite join_cons, !append_assoc. simpl parse_elems.
    rewrite (Hpx _) by (right; left; reflexivity).
    simpl. rewrite parse_elems_space, Hps.
    now rewrite <- app_assoc.
Qed.

Lemma reads_members_step (n : nat) :
  reads_value n -> reads_members n -> reads_members (S n).
Proof.
  intros HP HR d Hne Hneed Hok Huniq. destruct d as [|[k x] d]; [congruence|].
  simpl in Hok. apply andb_prop in Hok. destruct Hok as [Hkx Hd].
  apply andb_prop in Hkx. destruct Hkx as [Hk Hx].
  simpl in Huniq. apply andb_prop in Huniq. destruct Huniq as [Hfresh Huniq].
  apply negb_true_iff in Hfresh.
  unfold members_need in Hneed. simpl in Hneed. fold (members_need d) in Hneed.
  assert (Hnx : (need x <= n)%nat) by lia.
  destruct (HP x Hnx Hx) as [sx [Hsx [Hlx [Hox Hpx]]]].
  destruct (quoted_reads_back k Hk) as [q [Hq Hscan]].
  set (mt := (String dquote q ++ ": " ++ sx)%string).
  assert (Hmt : member_text (k, x) = Ok mt)
    by (unfold member_text; rewrite Hq; simpl; rewrite Hsx; reflexivity).
  assert (Hstep : forall acc tl,
             delimited tl ->
             dict_has k acc = false ->
             parse_members (S n) (mt ++ tl) acc
             = (if head_is "," tl
                then parse_members n (tail tl) (acc ++ [(k, x)])
                else if head_is "}" tl
                     then Ok (VDict (acc ++ [(k, x)]), tail tl)
                     else bad_json)).
  { intros acc tl Htl Hacc. unfold mt. rewrite !append_assoc.
    simpl append. simpl parse_members. rewrite Hscan. simpl.
    rewrite parse_value_space, (Hpx tl Htl). simpl.
    rewrite (dict_set_fresh _ _ _ Hacc).
    destruct Htl as [->|[H|[H|H]]]; [reflexivity| | |];
      destruct tl as [|c tl]; try discriminate; simpl in H;
      apply Ascii.eqb_eq in H; subst c; reflexivity. }
  destruct d as [|kv d].
  - exists [mt]. split.
    { change (rmap member_text [(k, x)])
        with (rbind (member_text (k, x)) (fun a => Ok [a])).
      now rewrite Hmt. }
    split; [unfold members_need, mt; simpl; rewrite !length_append; simpl; lia|].
    split; [reflexivity|].
    intros acc rest Hacc. simpl join.
    rewrite Hstep; [reflexivity|right; right; right; reflexivity|].
    apply Hacc. unfold dict_has. simpl. now rewrite String.eqb_refl.
  - assert (Hne' : kv :: d <> []) by discriminate.
    assert (Hnl : (members_need (kv :: d) <= n)%nat) by lia.
    destruct (HR (kv :: d) Hne' Hnl Hd Huniq) as [ss [Hss [Hls [Hos Hps]]]].
    destruct ss as [|s1 ss]; [discriminate Hos|].
    exists (mt :: s1 :: ss). split.
    { change (rmap member_text ((k, x) :: kv :: d))
        with (rbind (member_text (k, x))
                (fun a => rbind (rmap member_text (kv :: d))
                            (fun ys => Ok (a :: ys)))).
      rewrite Hmt, rbind_Ok, Hss. reflexivity. }
    split.
    { change (members_need ((k, x) :: kv :: d))
        with (S (need x + members_need (kv :: d))).
      rewrite join_cons, !length_append. unfold mt.
      revert Hls. generalize (join ", " (s1 :: ss)) (members_need (kv :: d)).
      intros J E HJ. simpl String.length. rewrite !length_append.
      simpl String.length. lia. }
    split; [reflexivity|].
    intros acc rest Hacc. rewrite join_cons, !append_assoc.
    rewrite Hstep; [|right; left; reflexivity|].
    + simpl. rewrite parse_members_space, Hps.
      * now rewrite <- app_assoc.
      * intros k' Hk'. rewrite dict_has_app.
        rewrite Hacc.
        -- simpl. unfold dict_has. simpl.
           destruct (String.eqb k' k) eqn:E; [|reflexivity].
           apply String.eqb_eq in E. subst k'. congruence.
        -- unfold dict_has in *. simpl.
           destruct (String.eqb k' k); [reflexivity|exact Hk'].
    + apply Hacc. unfold dict_has. simpl. now rewrite String.eqb_refl.
Qed.

(** Every allowance is enough for the values that need no more. *)
Lemma reads_back (n : nat) : reads_value n /\ reads_elems n /\ reads_members n.
Proof.
  induction n as [|n [HP [HQ HR]]].
  - split; [|split].
    + intros v Hn. pose proof (need_positive v). lia.
    + intros [|x l] Hne Hn; [congruence|]. unfold elems_need in Hn.
      simpl in Hn. lia.
    + intros [|[k x] d] Hne Hn; [congruence|]. unfold members_need in Hn.
      simpl in Hn. lia.
  - split; [|split].
    + now apply reads_value_step.
    + now apply reads_elems_step.
    + now apply reads_members_step.
Qed.
(** ** Round trips of the codecs *)

(** Every JSON-compatible value is written as a text that reads back as
    the value. *)
Lemma json_loads_dumps (v : pyval) :
  json_ok v = true -> exists s, json_dumps v = Ok s /\ json_loads s = Ok v.
Proof.
  intros Hok.
  destruct (reads_back (need v)) as [HV _].
  destruct (HV v (le_n _) Hok) as [s [Hs [Hlen _]]].
  destruct (reads_back (2 * String.length s + 2)) as [HV' _].
  assert (Hn : (need v <= 2 * String.length s + 2)%nat) by lia.
  destruct (HV' v Hn Hok) as [s' [Hs' [_ [_ Hp]]]].
  rewrite Hs in Hs'. injection Hs' as <-.
  exists s. split; [exact Hs|]. unfold json_loads.
  specialize (Hp EmptyString (or_introl eq_refl)).
  rewrite append_nil_r in Hp. rewrite Hp. reflexivity.
Qed.

(** X1.  [JsonValidator]: a JSON-compatible value (nested lists and dicts
    of [None], booleans, integers and printable text, dict keys distinct)
    is encoded as a text that decodes to the same value; [None] is encoded
    as the text of an empty dict and so comes back as [{}].  Neither
    direction touches the state. *)
Theorem JsonValidator_round_trip (MetaNode_ : pyval -> M ref) (v : pyval)
  (st : state) :
  json_ok v = true ->
  exists s,
    to_attribute JsonValidator v st = (Ok (VStr s), st) /\
    from_attribute MetaNode_ JsonValidator (VStr s) st
    = (Ok (match v with VNone => VDict [] | _ => v end), st).
Proof.
  intros Hok.
  set (v' := match v with VNone => VDict [] | _ => v end).
  assert (Hok' : json_ok v' = true) by (subst v'; destruct v; auto).
  destruct (json_loads_dumps v' Hok') as [s [Hd Hl]].
  exists s. split.
  - unfold to_attribute. fold v'. unfold bind, lift, ret. now rewrite Hd.
  - unfold from_attribute, lift. now rewrite Hl.
Qed.

Lemma JsonValidator_round_trip_witness :
  exists s,
    to_attribute JsonValidator
      (VDict [("count", VInt 3); ("tags", VList [VStr "a"; VNone])])
      (fresh_process new_transform [])
    = (Ok (VStr s), fresh_process new_transform []) /\
    from_attribute MetaNode JsonValidator (VStr s) (fresh_process new_transform [])
    = (Ok (VDict [("count", VInt 3); ("tags", VList [VStr "a"; VNone])]),
       fresh_process new_transform []).
Proof.
  apply (JsonValidator_round_trip MetaNode
           (VDict [("count", VInt 3); ("tags", VList [VStr "a"; VNone])])
           (fresh_process new_transform [])).
  vm_compute. reflexivity.
Defined.
(** ** Writing and reading a slot *)

Lemma dict_set_set {V} (k : string) (v v' : V) (d : list (string * V)) :
  dict_set k v (dict_set k v' d) = dict_set k v d.
Proof.
  induction d as [|[k0 v0] d IH]; simpl.
  - now rewrite String.eqb_refl.
  - destruct (String.eqb k k0) eqn:E; simpl; rewrite E; [reflexivity|].
    now rewrite IH.
Qed.

Lemma set_node_attrs_twice (p : string) (a1 a2 : list (string * attr))
  (sc : scene) :
  set_node_attrs p a2 (set_node_attrs p a1 sc) = set_node_attrs p a2 sc.
Proof.
  induction sc as [|h sc IH]; simpl; [reflexivity|].
  destruct (String.eqb p (n_name h)) eqn:E; simpl; rewrite E; [reflexivity|].
  now rewrite IH.
Qed.

(** Storing twice in the same slot keeps the second attribute only. *)
Lemma store_attr_twice (p a : string) (y y' : attr) (sc : scene) :
  store_attr p a y (store_attr p a y' sc) = store_attr p a y sc.
Proof.
  unfold store_attr. destruct (find_node p sc) as [n|] eqn:Hn.
  - rewrite (find_node_set_attrs _ _ _ _ Hn). simpl.
    now rewrite set_node_attrs_twice, dict_set_set.
  - now rewrite Hn.
Qed.

Lemma set_nth_same {A} (l : list A) (i : nat) (x : A) :
  nth_error l i = Some x -> set_nth i x l = l.
Proof.
  revert i. induction l as [|h l IH]; intros [|i]; simpl; try discriminate.
  - now intros [= ->].
  - intros H. now rewrite IH.
Qed.

Lemma with_value_same (x : field) : with_value x (_value x) = x.
Proof. now destruct x. Qed.

Lemma bound_slot (st : state) (f : fref) (x : field) (n : node) (s : attr) :
  bound st f x n -> slot_of n x = Some s ->
  lookup_attr (n_name n) (f_name x) (st_scene st) = Ok s.
Proof.
  intros [_ [m [_ [_ Hn]]]] Hs. now apply (lookup_attr_found _ _ _ n).
Qed.

(** [Field.write] on a private single field whose slot is not driven: the
    slot is unlocked, receives the encoded value and is locked. *)
Lemma Field_write_run (st st0 : state) (f : fref) (x : field) (n : node)
  (s : attr) (raw stored : pyval) :
  bound st f x n -> f_class x = Field ->
  slot_of n x = Some s -> a_multi s = false -> a_connected s = false ->
  to_attribute (validator x) (_value x) st = (Ok raw, st0) ->
  coerce (a_type s) (set_attribute_kwargs (validator x)) raw = Ok stored ->
  write f st
  = (Ok tt, with_scene st (store_attr (n_name n) (f_name x)
                             (written s stored true) (st_scene st))).
Proof.
  intros Hb Hc Hs Hmulti Hconn E Hco.
  pose proof (to_attribute_state _ _ _ _ _ E) as ->.
  pose proof Hb as [Hf [m [Hm [Hu Hn]]]].
  unfold write. rewrite (bind_ok _ _ _ _ _ (get_field_ok _ _ _ Hf)). rewrite Hc.
  unfold Field_write. rewrite (bind_ok _ _ _ _ _ (get_field_ok _ _ _ Hf)).
  erewrite bind_ok
    by (unfold try_except; rewrite (bind_ok _ _ _ _ _ E); reflexivity).
  rewrite Hc. unfold Field_protect_attribute.
  rewrite (bind_ok _ _ _ _ _ (bound_path _ _ _ _ Hb)).
  erewrite bind_ok
    by (apply command_ok; apply (setAttr_lock_ok _ _ _ _ _ _ Hn Hs)).
  pose proof (bound_store _ _ _ _ (f_name x) (relock s false) Hb) as Hb1.
  set (st1 := with_scene st _) in *.
  pose proof Hb1 as [Hf1 [m1 [Hm1 [Hu1 Hn1]]]].
  assert (Hs1 : lookup_attr (n_name n) (f_name x) (st_scene st1)
                = Ok (relock s false)).
  { apply (bound_slot _ _ _ _ _ Hb1). unfold slot_of. simpl.
    apply dict_get_set_same. }
  erewrite bind_ok.
  2:{ rewrite (bind_ok _ _ _ _ _ (bound_path _ _ _ _ Hb1)).
      cbv beta iota. unfold bind at 1. rewrite query_run.
      unfold listConnections. simpl n_name. rewrite Hs1.
      simpl. rewrite Hconn.
      rewrite (bind_ok _ _ _ _ _ (bound_path _ _ _ _ Hb1)).
      simpl n_name. apply command_ok.
      unfold setAttr. rewrite Hs1. simpl. rewrite Hconn, Hmulti. simpl.
      rewrite Hco. simpl. reflexivity. }
  set (s2 := mkAttr (a_type s) false stored (a_elems s) false false
                    (a_channelBox s)).
  pose proof (bound_store _ _ _ _ (f_name x) s2 Hb1) as Hb2.
  cbn [n_name n_uuid n_attrs] in Hb2.
  assert (Hs2 : lookup_attr (n_name n) (f_name x)
                  (st_scene (with_scene st1 (store_attr (n_name n) (f_name x) s2
                                               (st_scene st1))))
                = Ok s2).
  { apply (bound_slot _ _ _ _ _ Hb2). unfold slot_of. simpl.
    apply dict_get_set_same. }
  rewrite (bind_ok _ _ _ _ _ (bound_path _ _ _ _ Hb2)). cbn [n_name].
  erewrite bind_ok.
  2:{ apply command_ok. unfold setAttr_lock. rewrite Hs2.
      simpl. reflexivity. }
  unfold ret, with_scene. simpl. rewrite !store_attr_twice.
  unfold written. now rewrite Hmulti, Hconn.
Qed.

(** [Field.read] on a single slot: nothing happens when the slot has no
    data, otherwise the decoded value replaces the one in memory. *)
Lemma Field_read_run (MetaNode_ : pyval -> M ref) (st : state) (f : fref)
  (x : field) (n : node) (s : attr) :
  bound st f x n -> slot_of n x = Some s -> a_multi s = false ->
  Field_read MetaNode_ f st
  = match a_value s with
    | VNone => (Ok VNone, st)
    | _ => (v <- from_attribute MetaNode_ (validator x) (a_value s) ;;
            set_value f v ;;; ret VNone) st
    end.
Proof.
  intros Hb Hs Hmulti. pose proof Hb as [Hf _]. unfold Field_read.
  rewrite (bind_ok _ _ _ _ _ (bound_path _ _ _ _ Hb)).
  erewrite bind_ok.
  2:{ rewrite query_run. unfold getAttr.
      rewrite (bound_slot _ _ _ _ _ Hb Hs). simpl. rewrite Hmulti. reflexivity. }
  destruct (a_value s); try reflexivity;
    now rewrite (bind_ok _ _ _ _ _ (get_field_ok _ _ _ Hf)).
Qed.

(** X2.  [Field.write] on a private single field.  When the slot exists,
    is a single slot and has no incoming connection, and the value in
    memory encodes to [raw], which Maya accepts for the slot as [stored]:
    [write()] returns normally; only the scene changes; in it the slot
    holds [stored] and is locked, whether or not it was locked before, and
    every other attribute of the node is as it was. *)
Theorem private_write_stores_and_locks (st st0 : state) (f : fref) (x : field)
  (n : node) (s : attr) (raw stored : pyval) :
  bound st f x n -> f_class x = Field ->
  slot_of n x = Some s -> a_multi s = false -> a_connected s = false ->
  to_attribute (validator x) (_value x) st = (Ok raw, st0) ->
  coerce (a_type s) (set_attribute_kwargs (validator x)) raw = Ok stored ->
  exists sc',
    write f st = (Ok tt, with_scene st sc') /\
    bound (with_scene st sc') f x
          (mkNode (n_name n) (n_uuid n)
                  (dict_set (f_name x) (written s stored true) (n_attrs n))) /\
    getAttr (n_name n) (f_name x) sc' = Ok stored /\
    (forall a, a <> f_name x ->
               lookup_attr (n_name n) a sc' = lookup_attr (n_name n) a (st_scene st)).
Proof.
  intros Hb Hc Hs Hmulti Hconn E Hco.
  eexists. split; [apply (Field_write_run _ _ _ _ _ _ _ _ Hb Hc Hs Hmulti Hconn E Hco)|].
  pose proof (bound_store _ _ _ _ (f_name x) (written s stored true) Hb) as Hb'.
  split; [exact Hb'|]. split.
  - unfold getAttr.
    assert (Hs' : slot_of (mkNode (n_name n) (n_uuid n)
                     (dict_set (f_name x) (written s stored true) (n_attrs n))) x
                  = Some (written s stored true))
      by (unfold slot_of; simpl; apply dict_get_set_same).
    pose proof (bound_slot _ _ _ _ _ Hb' Hs') as Hl. cbn [n_name st_scene with_scene] in Hl.
    rewrite Hl. simpl. now rewrite Hmulti.
  - intros a Ha. destruct Hb as [_ [m [_ [_ Hn]]]].
    unfold lookup_attr, store_attr. rewrite Hn.
    rewrite (find_node_set_attrs _ _ _ _ Hn). simpl.
    now rewrite dict_get_set_other by congruence.
Qed.

Ltac bound_here :=
  split; [vm_compute; reflexivity
         |eexists; split; [vm_compute; reflexivity
                          |split; vm_compute; reflexivity]].

(** Witness for X2: the private integer field [count] of a freshly wrapped
    transform holds 10 in memory; [write()] puts 10 in the slot. *)
Lemma private_write_stores_and_locks_witness :
  let st := after new_transform
              (declare_and_set IntValidator "count" private false (VInt 10)) in
  exists sc',
    write 4%nat st = (Ok tt, with_scene st sc') /\
    getAttr "transform1" "count" sc' = Ok (VInt 10).
Proof.
  intros st.
  destruct (private_write_stores_and_locks st st 4%nat
              (mkField Field IntValidator TLong 0%nat "count" (VInt 10))
              (wrapped_node [("count", fresh_slot TLong false)])
              (fresh_slot TLong false) (VInt 10) (VInt 10))
    as [sc' [Hw [_ [Hg _]]]].
  - bound_here.
  - reflexivity.
  - reflexivity.
  - reflexivity.
  - reflexivity.
  - vm_compute. reflexivity.
  - reflexivity.
  - exists sc'. split; [exact Hw|exact Hg].
Defined.

Lemma set_value_run (st : state) (f : fref) (x : field) (v : pyval) :
  nth_error (st_fields st) f = Some x ->
  set_value f v st
  = (Ok tt, with_fields st (set_nth f (with_value x v) (st_fields st))).
Proof.
  intros Hf. unfold set_value.
  now rewrite (bind_ok _ _ _ _ _ (get_field_ok _ _ _ Hf)).
Qed.

Lemma floats_of_floats (m : list pyfloat) : floats_of (map VFloat m) = Some m.
Proof. induction m as [|f m IH]; simpl; [reflexivity|]. now rewrite IH. Qed.

(** What [native] promises: the value is encoded, stored and decoded
    without change, and the state is not touched. *)
Lemma native_codec (MetaNode_ : pyval -> M ref) (v : validator_class)
  (t : attr_type) (value : pyval) :
  native v t value = true ->
  exists raw stored,
    (forall st, to_attribute v value st = (Ok raw, st)) /\
    coerce t (set_attribute_kwargs v) raw = Ok stored /\
    stored <> VNone /\
    forall st, from_attribute MetaNode_ v stored st = (Ok value, st).
Proof.
  destruct v, t; simpl; try discriminate.
  - destruct value; try discriminate. intros _.
    exists (VInt z), (VInt z). repeat split; discriminate.
  - destruct value; try discriminate. intros _.
    exists (VFloat f), (VFloat f). repeat split; discriminate.
  - destruct value; try discriminate. intros _.
    exists (VBool b), (VBool b). repeat split; discriminate.
  - destruct value; try discriminate. intros _.
    exists (VStr s), (VStr s). repeat split; discriminate.
  - destruct value; try discriminate. intros H.
    exists (VMatrix m), (VList (map VFloat m)). simpl. rewrite H.
    repeat split; try discriminate.
    intros st. unfold lift. simpl. rewrite floats_of_floats, H. reflexivity.
  - intros H.
    assert (Hok : json_ok value = true) by (destruct value; auto; discriminate).
    assert (Hnn : value <> VNone) by (destruct value; discriminate).
    destruct (json_loads_dumps value Hok) as [s [Hd Hl]].
    exists (VStr s), (VStr s). split; [|split; [reflexivity|split; [discriminate|]]].
    + intros st. unfold bind, lift, ret.
      replace (match value with VNone => VDict [] | _ => value end) with value
        by (destruct value; congruence).
      now rewrite Hd.
    + intros st. unfold lift. now rewrite Hl.
Qed.

(** X3.  Flush and reload of a private single field.  When the value in
    memory is one the validator keeps as it is ([native]) and the slot is a
    single slot of the matching type with no incoming connection, [write()]
    followed by [read()] both return normally and the field object ends
    exactly as it started: the value read back from the slot is the value
    that was written.  The slot ends locked. *)
Theorem write_then_read_restores (MetaNode_ : pyval -> M ref) (st : state)
  (f : fref) (x : field) (n : node) (s : attr) :
  bound st f x n -> f_class x = Field ->
  slot_of n x = Some s -> a_multi s = false -> a_connected s = false ->
  native (validator x) (a_type s) (_value x) = true ->
  exists sc' s',
    write f st = (Ok tt, with_scene st sc') /\
    read MetaNode_ f (with_scene st sc') = (Ok VNone, with_scene st sc') /\
    nth_error (st_fields (with_scene st sc')) f = Some x /\
    lookup_attr (n_name n) (f_name x) sc' = Ok s' /\
    a_value s' <> VNone /\ a_locked s' = true.
Proof.
  intros Hb Hc Hs Hmulti Hconn Hnat.
  destruct (native_codec MetaNode_ _ _ _ Hnat) as [raw [stored [He [Hco [Hnn Hd]]]]].
  pose proof (Field_write_run _ _ _ _ _ _ _ _ Hb Hc Hs Hmulti Hconn (He st) Hco)
    as Hw.
  pose proof (bound_store _ _ _ _ (f_name x) (written s stored true) Hb) as Hb'.
  set (st' := with_scene st _) in *.
  assert (Hs' : slot_of (mkNode (n_name n) (n_uuid n)
                   (dict_set (f_name x) (written s stored true) (n_attrs n))) x
                = Some (written s stored true))
    by (unfold slot_of; simpl; apply dict_get_set_same).
  pose proof Hb' as [Hf' _].
  exists (st_scene st'), (written s stored true).
  split; [exact Hw|]. split; [|split; [exact Hf'|split; [|split; [exact Hnn|reflexivity]]]].
  - change (with_scene st (st_scene st')) with st'.
    unfold read. rewrite (bind_ok _ _ _ _ _ (get_field_ok _ _ _ Hf')). rewrite Hc.
    rewrite (Field_read_run MetaNode_ _ _ _ _ _ Hb' Hs' Hmulti).
    cbn [a_value written].
    assert (Hrun : (v <- from_attribute MetaNode_ (validator x) stored ;;
                    set_value f v ;;; ret VNone) st' = (Ok VNone, st')).
    { rewrite (bind_ok _ _ _ _ _ (Hd st')).
      rewrite (bind_ok _ _ _ _ _ (set_value_run _ _ _ _ Hf')).
      rewrite with_value_same, (set_nth_same _ _ _ Hf'). now destruct st'. }
    destruct stored; try exact Hrun. congruence.
  - pose proof (bound_slot _ _ _ _ _ Hb' Hs') as Hl. exact Hl.
Qed.

(** Witness for X3: the schema of a freshly wrapped transform, a dict of
    dicts, is flushed and read back. *)
Lemma write_then_read_restores_witness :
  let st := after new_transform
              (declare_and_set IntValidator "count" private false (VInt 10)) in
  exists sc',
    write 1%nat st = (Ok tt, with_scene st sc') /\
    read MetaNode 1%nat (with_scene st sc') = (Ok VNone, with_scene st sc') /\
    option_map _value (nth_error (st_fields (with_scene st sc')) 1%nat)
    = Some (VDict [("metanode_fields", descriptor JsonValidator private false);
                   ("metanode_type", descriptor StringValidator private false);
                   ("is_initialized", descriptor BoolValidator private false);
                   ("count", descriptor IntValidator private false)]).
Proof.
  intros st.
  destruct (write_then_read_restores MetaNode st 1%nat
              (mkField Field JsonValidator TString 0%nat "metanode_fields"
                 (VDict [("metanode_fields", descriptor JsonValidator private false);
                         ("metanode_type", descriptor StringValidator private false);
                         ("is_initialized", descriptor BoolValidator private false);
                         ("count", descriptor IntValidator private false)]))
              (wrapped_node [("count", fresh_slot TLong false)])
              (fresh_slot TString false))
    as [sc' [s' [Hw [Hr [Hf _]]]]].
  - bound_here.
  - reflexivity.
  - reflexivity.
  - reflexivity.
  - reflexivity.
  - vm_compute. reflexivity.
  - exists sc'. split; [exact Hw|]. split; [exact Hr|]. now rewrite Hf.
Defined.

(** ** Public fields write through *)

Lemma bound_with_value (st : state) (f : fref) (x : field) (n : node)
  (v : pyval) :
  bound st f x n ->
  bound (with_fields st (set_nth f (with_value x v) (st_fields st))) f
        (with_value x v) n.
Proof.
  intros [Hf [m [Hm [Hu Hn]]]]. split.
  - simpl. apply (nth_error_set_nth _ _ _ _ Hf).
  - exists m. simpl. auto.
Qed.

(** Encoding does not look at the field objects. *)
Lemma to_attribute_fields (v : validator_class) (value : pyval) (st : state)
  (fs : list field) :
  fst (to_attribute v value (with_fields st fs)) = fst (to_attribute v value st).
Proof.
  unfold with_fields. destruct v; simpl; unfold lift, ret; try reflexivity.
  - destruct value as [| [] | | | | | | |]; simpl; try reflexivity.
    unfold bind, MetaNode_path, get_metanode, query, bind, ret. cbn [st_scene st_heap].
    destruct (nth_error (st_heap st) r); [|reflexivity]. cbn [st_scene].
    destruct (find_uuid (mobject m) (st_scene st)); reflexivity.
  - destruct (py_truth value); [|reflexivity].
    destruct value; try reflexivity.
    unfold bind, MetaNode_uuid, get_metanode, get_uuid, query, bind, ret. cbn [st_scene st_heap].
    destruct (nth_error (st_heap st) r); [|reflexivity]. cbn [st_scene].
    destruct (find_uuid (mobject m) (st_scene st)); reflexivity.
  - unfold bind, lift, ret. destruct (json_dumps _); reflexivity.
Qed.

Lemma to_attribute_run (v : validator_class) (value : pyval) (st : state) :
  to_attribute v value st = (fst (to_attribute v value st), st).
Proof.
  destruct (to_attribute v value st) as [r st'] eqn:E.
  now rewrite (to_attribute_state _ _ _ _ _ E).
Qed.

(** The part of [Field.write] that a public field runs once the value is
    encoded: no lock is touched. *)
Lemma PublicField_write_run (st : state) (f : fref) (x : field) (n : node)
  (s : attr) (raw : pyval) :
  bound st f x n -> f_class x = PublicField ->
  slot_of n x = Some s ->
  fst (to_attribute (validator x) (_value x) st) = Ok raw ->
  write f st
  = if a_connected s then (Ok tt, st)
    else command (setAttr (n_name n) (f_name x) raw
                          (set_attribute_kwargs (validator x))) st.
Proof.
  intros Hb Hc Hs E. pose proof Hb as [Hf _].
  pose proof (to_attribute_run (validator x) (_value x) st) as E'.
  rewrite E in E'.
  unfold write. rewrite (bind_ok _ _ _ _ _ (get_field_ok _ _ _ Hf)). rewrite Hc.
  unfold Field_write. rewrite (bind_ok _ _ _ _ _ (get_field_ok _ _ _ Hf)).
  erewrite bind_ok
    by (unfold try_except; rewrite (bind_ok _ _ _ _ _ E'); reflexivity).
  rewrite Hc. unfold PublicField_protect_attribute.
  rewrite (bind_ok _ _ _ _ _ (bound_path _ _ _ _ Hb)).
  erewrite bind_ok.
  2:{ rewrite query_run. unfold listConnections.
      rewrite (bound_slot _ _ _ _ _ Hb Hs). reflexivity. }
  destruct (a_connected s); [reflexivity|].
  now rewrite (bind_ok _ _ _ _ _ (bound_path _ _ _ _ Hb)).
Qed.

(** X4.  [PublicField.set] writes through.  When the slot is a single
    slot, neither locked nor driven, and [value] encodes to [raw], which
    Maya accepts as [stored]: [set(value)] returns normally, the value is
    kept in memory and the slot holds [stored] at once, without a flush;
    the slot is left unlocked, and no other attribute changes. *)
Theorem PublicField_set_writes_through (st st0 : state) (f : fref) (x : field)
  (n : node) (s : attr) (value raw stored : pyval) :
  bound st f x n -> f_class x = PublicField ->
  slot_of n x = Some s ->
  a_multi s = false -> a_connected s = false -> a_locked s = false ->
  to_attribute (validator x) value st = (Ok raw, st0) ->
  coerce (a_type s) (set_attribute_kwargs (validator x)) raw = Ok stored ->
  exists st',
    set f value st = (Ok tt, st') /\
    bound st' f (with_value x value)
          (mkNode (n_name n) (n_uuid n)
                  (dict_set (f_name x) (written s stored false) (n_attrs n))) /\
    getAttr (n_name n) (f_name x) (st_scene st') = Ok stored /\
    st_heap st' = st_heap st /\ st_instances st' = st_instances st.
Proof.
  intros Hb Hc Hs Hmulti Hconn Hlock E Hco. pose proof Hb as [Hf _].
  pose proof (bound_with_value _ _ _ _ value Hb) as Hb1.
  set (st1 := with_fields st _) in *.
  assert (E1 : fst (to_attribute (validator x) value st1) = Ok raw).
  { unfold st1. rewrite to_attribute_fields. now rewrite E. }
  unfold set. rewrite (bind_ok _ _ _ _ _ (get_field_ok _ _ _ Hf)). rewrite Hc.
  unfold PublicField_set.
  rewrite (bind_ok _ _ _ _ _ (set_value_run _ _ _ value Hf)). fold st1.
  rewrite (PublicField_write_run st1 f (with_value x value) n s raw Hb1 Hc Hs E1).
  rewrite Hconn. cbn [validator with_value f_name].
  pose proof (bound_slot _ _ _ _ _ Hb1 Hs) as Hl. cbn [f_name with_value] in Hl.
  erewrite command_ok.
  2:{ unfold setAttr. rewrite Hl. simpl. rewrite Hlock, Hconn, Hmulti. simpl.
      rewrite Hco. reflexivity. }
  eexists. split; [reflexivity|].
  pose proof (bound_store _ _ _ _ (f_name x) (written s stored false) Hb1) as Hb2.
  cbn [f_name with_value] in Hb2.
  assert (Hw : mkAttr (a_type s) false stored (a_elems s) false false
                      (a_channelBox s) = written s stored false)
    by (unfold written; now rewrite Hmulti, Hconn).
  rewrite Hw. split; [exact Hb2|]. split; [|split; reflexivity].
  unfold getAttr.
  assert (Hs2 : slot_of (mkNode (n_name n) (n_uuid n)
                   (dict_set (f_name x) (written s stored false) (n_attrs n)))
                  (with_value x value)
                = Some (written s stored false))
    by (unfold slot_of; simpl; apply dict_get_set_same).
  pose proof (bound_slot _ _ _ _ _ Hb2 Hs2) as Hl2.
  replace (lookup_attr _ _ _) with (Ok (written s stored false))
    by (symmetry; exact Hl2).
  simpl. now rewrite Hmulti.
Qed.

(** X5.  A public field never unlocks its slot.  When the slot is locked
    and not driven, [set(value)] raises Maya's [RuntimeError]: the value
    stays in memory, the scene is untouched. *)
Theorem PublicField_set_locked_raises (st st0 : state) (f : fref) (x : field)
  (n : node) (s : attr) (value raw : pyval) :
  bound st f x n -> f_class x = PublicField ->
  slot_of n x = Some s ->
  a_connected s = false -> a_locked s = true ->
  to_attribute (validator x) value st = (Ok raw, st0) ->
  set f value st
  = (Raise (RuntimeError "setAttr: the attribute is locked or connected"),
     with_fields st (set_nth f (with_value x value) (st_fields st))).
Proof.
  intros Hb Hc Hs Hconn Hlock E. pose proof Hb as [Hf _].
  pose proof (bound_with_value _ _ _ _ value Hb) as Hb1.
  set (st1 := with_fields st _) in *.
  assert (E1 : fst (to_attribute (validator x) value st1) = Ok raw).
  { unfold st1. rewrite to_attribute_fields. now rewrite E. }
  unfold set. rewrite (bind_ok _ _ _ _ _ (get_field_ok _ _ _ Hf)). rewrite Hc.
  unfold PublicField_set.
  rewrite (bind_ok _ _ _ _ _ (set_value_run _ _ _ value Hf)). fold st1.
  rewrite (PublicField_write_run st1 f (with_value x value) n s raw Hb1 Hc Hs E1).
  rewrite Hconn. cbn [validator with_value f_name].
  pose proof (bound_slot _ _ _ _ _ Hb1 Hs) as Hl. cbn [f_name with_value] in Hl.
  unfold command, setAttr. rewrite Hl. simpl. rewrite Hlock. reflexivity.
Qed.

(** Witness for X4: a public integer field [speed] holding 3; [set(7)]
    puts 7 in the slot at once. *)
Lemma PublicField_set_writes_through_witness :
  let st := after new_transform
              (declare_and_set IntValidator "speed" public false (VInt 3)) in
  exists st',
    set 4%nat (VInt 7) st = (Ok tt, st') /\
    getAttr "transform1" "speed" (st_scene st') = Ok (VInt 7).
Proof.
  intros st.
  destruct (PublicField_set_writes_through st st 4%nat
              (mkField PublicField IntValidator TLong 0%nat "speed" (VInt 3))
              (wrapped_node [("speed", mkAttr TLong false (VInt 3) [] false false true)])
              (mkAttr TLong false (VInt 3) [] false false true)
              (VInt 7) (VInt 7) (VInt 7))
    as [st' [Hs [_ [Hg _]]]].
  - bound_here.
  - reflexivity.
  - reflexivity.
  - reflexivity.
  - reflexivity.
  - reflexivity.
  - vm_compute. reflexivity.
  - reflexivity.
  - exists st'. split; [exact Hs|exact Hg].
Defined.

(** Witness for X5: the same field once the user has locked the slot in
    Maya. *)
Lemma PublicField_set_locked_raises_witness :
  let st0 := after new_transform
               (declare_and_set IntValidator "speed" public false (VInt 3)) in
  let st := with_scene st0
              (scene_of (setAttr_lock "transform1" "speed" true (st_scene st0))) in
  fst (set 4%nat (VInt 7) st)
  = Raise (RuntimeError "setAttr: the attribute is locked or connected") /\
  getAttr "transform1" "speed" (st_scene (snd (set 4%nat (VInt 7) st)))
  = Ok (VInt 3).
Proof.
  intros st0 st.
  rewrite (PublicField_set_locked_raises st st 4%nat
             (mkField PublicField IntValidator TLong 0%nat "speed" (VInt 3))
             (wrapped_node [("speed", mkAttr TLong false (VInt 3) [] true false true)])
             (mkAttr TLong false (VInt 3) [] true false true)
             (VInt 7) (VInt 7)).
  - split; [reflexivity|vm_compute; reflexivity].
  - bound_here.
  - reflexivity.
  - reflexivity.
  - reflexivity.
  - reflexivity.
  - vm_compute. reflexivity.
Defined.
(** ** Creating the slot of a field *)

Lemma wraps_path (st : state) (r : ref) (m : metanode) (n : node) :
  wraps st r m n -> MetaNode_path r st = (Ok (n_name n), st).
Proof.
  intros [Hm [Hu Hn]]. unfold MetaNode_path, get_metanode, bind, query.
  now rewrite Hm, Hu.
Qed.

Lemma bound_wraps (st : state) (f : fref) (x : field) (n : node) :
  bound st f x n <->
  nth_error (st_fields st) f = Some x /\ exists m, wraps st (f_metanode x) m n.
Proof. reflexivity. Qed.

Lemma addAttr_run (cls : field_class) (x : field) (n : node) (st : state)
  (multi : bool) :
  find_node (n_name n) (st_scene st) = Some n ->
  dict_has (f_name x) (n_attrs n) = false ->
  command (addAttr (n_name n) (f_name x) (create_attribute_kwargs x) multi) st
  = (Ok tt, with_scene st
              (store_attr (n_name n) (f_name x)
                 (mkAttr (create_attribute_kwargs x) multi
                         (type_default (create_attribute_kwargs x)) [] false
                         false false)
                 (st_scene st))).
Proof.
  intros Hn Hd. apply command_ok. unfold addAttr. now rewrite Hn, Hd.
Qed.

(** [create_attribute] on a field of a wrapped node: nothing happens when
    the node has an attribute of that name, otherwise the slot is made. *)
Lemma create_attribute_run (st : state) (f : fref) (x : field) (n : node) :
  bound st f x n ->
  create_attribute f st
  = if dict_has (f_name x) (n_attrs n) then (Ok false, st)
    else (Ok true,
          with_scene st
            (store_attr (n_name n) (f_name x)
                        (created (f_class x) (create_attribute_kwargs x))
                        (st_scene st))).
Proof.
  intros Hb. pose proof Hb as [Hf [m [Hm [Hu Hn]]]].
  assert (Hp : MetaNode_path (f_metanode x) st = (Ok (n_name n), st))
    by (apply (wraps_path _ _ m); repeat split; assumption).
  assert (Hq : query (fun sc => Ok (attributeQuery_exists (f_name x) (n_name n) sc)) st
               = (Ok (dict_has (f_name x) (n_attrs n)), st))
    by (unfold query, attributeQuery_exists; now rewrite Hn).
  assert (HS : SingleFieldBase_create_attribute f st
               = if dict_has (f_name x) (n_attrs n) then (Ok false, st)
                 else (Ok true,
                       with_scene st
                         (store_attr (n_name n) (f_name x)
                            (created Field (create_attribute_kwargs x))
                            (st_scene st)))).
  { unfold SingleFieldBase_create_attribute.
    rewrite (bind_ok _ _ _ _ _ (get_field_ok _ _ _ Hf)).
    rewrite (bind_ok _ _ _ _ _ Hp), (bind_ok _ _ _ _ _ Hq).
    destruct (dict_has (f_name x) (n_attrs n)) eqn:Hd; [reflexivity|].
    cbn [negb]. rewrite (bind_ok _ _ _ _ _ Hp).
    now rewrite (bind_ok _ _ _ _ _ (addAttr_run Field x n st false Hn Hd)). }
  unfold create_attribute. rewrite (bind_ok _ _ _ _ _ (get_field_ok _ _ _ Hf)).
  destruct (f_class x) eqn:Hc.
  - exact HS.
  - unfold PublicField_create_attribute.
    destruct (dict_has (f_name x) (n_attrs n)) eqn:Hd;
      rewrite (bind_ok _ _ _ _ _ HS); [reflexivity|].
    pose proof (bound_store _ _ _ _ (f_name x)
                  (created Field (create_attribute_kwargs x)) Hb) as Hb1.
    rewrite (bind_ok _ _ _ _ _ (bound_path _ _ _ _ Hb1)). cbn [n_name].
    assert (Hs1 : slot_of (mkNode (n_name n) (n_uuid n)
                     (dict_set (f_name x) (created Field (create_attribute_kwargs x))
                               (n_attrs n))) x
                  = Some (created Field (create_attribute_kwargs x)))
      by (unfold slot_of; simpl; apply dict_get_set_same).
    pose proof (bound_slot _ _ _ _ _ Hb1 Hs1) as Hl. cbn [n_name] in Hl.
    erewrite bind_ok
      by (apply command_ok; unfold setAttr_channelBox; rewrite Hl; reflexivity).
    unfold ret, with_scene. simpl. now rewrite store_attr_twice.
  - unfold MultiField_create_attribute.
    rewrite (bind_ok _ _ _ _ _ (get_field_ok _ _ _ Hf)).
    rewrite (bind_ok _ _ _ _ _ Hp), (bind_ok _ _ _ _ _ Hq).
    destruct (dict_has (f_name x) (n_attrs n)) eqn:Hd; [reflexivity|].
    cbn [negb]. rewrite (bind_ok _ _ _ _ _ Hp).
    now rewrite (bind_ok _ _ _ _ _ (addAttr_run MultiField x n st true Hn Hd)).
Qed.

(** X6.  [create_attribute] is idempotent and never alters an existing
    attribute.  On a field of a wrapped node it returns normally; when
    the node already has an attribute of the field's name it returns
    [False] and changes nothing, whatever the type, the data, the lock or
    the multi flag of that attribute; otherwise it returns [True] and the
    slot exists with the type the validator asks for, no data yet,
    unlocked, multi for a multi field, in the channel box for a public
    field.  A second call always returns [False] and changes nothing. *)
Theorem create_attribute_idempotent (st : state) (f : fref) (x : field)
  (n : node) :
  bound st f x n ->
  exists b st1,
    create_attribute f st = (Ok b, st1) /\
    create_attribute f st1 = (Ok false, st1) /\
    (dict_has (f_name x) (n_attrs n) = true -> b = false /\ st1 = st) /\
    (dict_has (f_name x) (n_attrs n) = false ->
     b = true /\
     lookup_attr (n_name n) (f_name x) (st_scene st1)
     = Ok (created (f_class x) (create_attribute_kwargs x))).
Proof.
  intros Hb. rewrite (create_attribute_run _ _ _ _ Hb).
  destruct (dict_has (f_name x) (n_attrs n)) eqn:Hd.
  - exists false, st. split; [reflexivity|]. split.
    + rewrite (create_attribute_run _ _ _ _ Hb). now rewrite Hd.
    + split; [auto|discriminate].
  - eexists; eexists. split; [reflexivity|].
    pose proof (bound_store _ _ _ _ (f_name x)
                  (created (f_class x) (create_attribute_kwargs x)) Hb) as Hb1.
    split; [|split; [discriminate|]].
    + rewrite (create_attribute_run _ _ _ _ Hb1). cbn [n_attrs].
      now rewrite dict_has_set_same.
    + intros _. split; [reflexivity|].
      apply (bound_slot _ _ _ _ _ Hb1). unfold slot_of. simpl.
      apply dict_get_set_same.
Qed.

(** Witness for X6: the field [count] of a wrapped transform whose
    attribute was deleted in Maya. *)
Lemma create_attribute_idempotent_witness :
  let st0 := after new_transform
               (declare_and_set IntValidator "count" private false (VInt 10)) in
  let st := with_scene st0 [wrapped_node []] in
  exists st1,
    create_attribute 4%nat st = (Ok true, st1) /\
    create_attribute 4%nat st1 = (Ok false, st1) /\
    getAttr "transform1" "count" (st_scene st1) = Ok (VInt 0).
Proof.
  intros st0 st.
  destruct (create_attribute_idempotent st 4%nat
              (mkField Field IntValidator TLong 0%nat "count" (VInt 10))
              (wrapped_node []))
    as [b [st1 [H1 [H2 [_ H4]]]]]; [bound_here|].
  destruct (H4 eq_refl) as [-> Hl].
  exists st1. split; [exact H1|]. split; [exact H2|].
  unfold getAttr. cbn [n_name wrapped_node f_name] in Hl. rewrite Hl. reflexivity.
Defined.

(** ** Declaring a field *)

(** X7.  A public multi field is refused before anything is made.
    [add_field] with a true [multi] and [Accessibility.public] raises
    [ValueError]; no field object, no attribute and no schema entry is
    created: the state differs only by the record of the call. *)
Theorem add_field_public_multi_rejected (MetaNode_ : pyval -> M ref)
  (st : state) (r : ref) (m : metanode) (v : validator_class) (name : string)
  (multi : pyval) (kwargs : list (string * pyval)) :
  nth_error (st_heap st) r = Some m ->
  py_truth multi = true ->
  add_field MetaNode_ r v name public multi kwargs st
  = (Raise (ValueError "A multi field cannot be public."),
     with_event st (EvAddField r name (dict_keys (fields m)))).
Proof.
  intros Hm Ht. unfold add_field.
  erewrite bind_ok by (unfold get_metanode; rewrite Hm; reflexivity).
  rewrite (bind_ok _ _ _ _ _ (emit_run _ _)).
  unfold bind, lift, get_field_class. now rewrite Ht.
Qed.

Lemma add_field_public_multi_rejected_witness :
  let st := after new_transform (MetaNode (VStr "transform1")) in
  fst (add_field MetaNode 0%nat IntValidator "weights" public (VBool true) [] st)
  = Raise (ValueError "A multi field cannot be public.") /\
  st_scene (snd (add_field MetaNode 0%nat IntValidator "weights" public
                           (VBool true) [] st))
  = st_scene st.
Proof.
  intros st.
  rewrite (add_field_public_multi_rejected MetaNode st 0%nat
             (mkMetaNode "MetaNode" "UUID-1"
                [("metanode_fields", 1%nat); ("metanode_type", 2%nat);
                 ("is_initialized", 3%nat)])
             IntValidator "weights" (VBool true) []).
  - split; reflexivity.
  - vm_compute. reflexivity.
  - reflexivity.
Defined.

Lemma wraps_alloc_field (st : state) (r : ref) (m : metanode) (n : node)
  (x : field) :
  wraps st r m n -> f_metanode x = r ->
  bound (with_fields st (st_fields st ++ [x])) (List.length (st_fields st)) x n.
Proof.
  intros Hw Hr. split.
  - simpl. apply nth_error_app_length.
  - exists m. rewrite Hr. exact Hw.
Qed.

(** A slot just made, read for the first time. *)
Lemma type_default_decodes (MetaNode_ : pyval -> M ref) (v : validator_class)
  (kwargs : list (string * pyval)) (t : attr_type) (d : pyval) (st : state) :
  process_kwargs v kwargs = Ok t ->
  match type_default t with
  | VNone => fresh_value Field v d = match d with
                                     | VNone => get_default_value v
                                     | _ => d
                                     end
  | raw => from_attribute MetaNode_ v raw st = (Ok (fresh_value Field v d), st)
  end.
Proof.
  destruct v; simpl; try (intros [= <-]; reflexivity).
  destruct (join_choices _); simpl; try discriminate.
  intros [= <-]. reflexivity.
Qed.

(** Allocation and creation of the slot, on a node that has no attribute
    of the field's name. *)
Lemma construct_run {A} (st : state) (r : ref) (m : metanode) (n : node)
  (x : field) (k : fref -> M A) :
  wraps st r m n -> f_metanode x = r ->
  dict_has (f_name x) (n_attrs n) = false ->
  (f <- alloc_field x ;; create_attribute f ;;; k f) st
  = k (List.length (st_fields st))
      (with_scene (with_fields st (st_fields st ++ [x]))
         (store_attr (n_name n) (f_name x)
                     (created (f_class x) (create_attribute_kwargs x))
                     (st_scene st))).
Proof.
  intros Hw Hr Hd.
  pose proof (wraps_alloc_field st r m n x Hw Hr) as Hb.
  unfold bind at 1. unfold alloc_field.
  change (mkState (st_scene st) (st_heap st) (st_fields st ++ [x])
                  (st_instances st) (st_classes st) (st_trace st))
    with (with_fields st (st_fields st ++ [x])).
  erewrite bind_ok; [reflexivity|].
  rewrite (create_attribute_run _ _ _ _ Hb). now rewrite Hd.
Qed.

Lemma set_nth_last {A} (l : list A) (x y : A) :
  set_nth (List.length l) y (l ++ [x]) = (l ++ [y])%list.
Proof. induction l as [|h l IH]; simpl; [reflexivity|]. now rewrite IH. Qed.

Lemma iter_elements_run (st : state) (f : fref) (x : field) (n : node)
  (s : attr) :
  bound st f x n -> slot_of n x = Some s ->
  iter_elements f st = (Ok (List.length (a_elems s)), st).
Proof.
  intros Hb Hs. unfold iter_elements.
  rewrite (bind_ok _ _ _ _ _ (bound_path _ _ _ _ Hb)).
  rewrite query_run. unfold numElements.
  now rewrite (bound_slot _ _ _ _ _ Hb Hs).
Qed.

(** The first [read()] of a field whose slot was just made. *)
Lemma read_fresh (MetaNode_ : pyval -> M ref) (st : state) (f : fref)
  (x : field) (n : node) (kwargs : list (string * pyval)) (d : pyval) :
  bound st f x n ->
  slot_of n x = Some (created (f_class x) (create_attribute_kwargs x)) ->
  process_kwargs (validator x) kwargs = Ok (create_attribute_kwargs x) ->
  (f_class x <> MultiField ->
   _value x = match d with VNone => get_default_value (validator x) | _ => d end) ->
  read MetaNode_ f st
  = (Ok VNone,
     with_fields st
       (set_nth f (with_value x (fresh_value (f_class x) (validator x) d))
                (st_fields st))).
Proof.
  intros Hb Hs Ht Hv. pose proof Hb as [Hf _].
  assert (Hsingle : f_class x <> MultiField ->
            Field_read MetaNode_ f st
            = (Ok VNone,
               with_fields st
                 (set_nth f (with_value x (fresh_value Field (validator x) d))
                          (st_fields st)))).
  { intros Hc.
    assert (Hm : a_multi (created (f_class x) (create_attribute_kwargs x)) = false)
      by (destruct (f_class x); [reflexivity|reflexivity|congruence]).
    rewrite (Field_read_run MetaNode_ _ _ _ _ _ Hb Hs Hm).
    cbn [a_value created].
    pose proof (type_default_decodes MetaNode_ (validator x) _ _ d st Ht) as Hdec.
    destruct (type_default (create_attribute_kwargs x)) eqn:Etd;
      try (rewrite (bind_ok _ _ _ _ _ Hdec);
           now rewrite (bind_ok _ _ _ _ _ (set_value_run _ _ _ _ Hf))).
    rewrite Hdec, <- (Hv Hc), with_value_same, (set_nth_same _ _ _ Hf).
    now destruct st. }
  unfold read. rewrite (bind_ok _ _ _ _ _ (get_field_ok _ _ _ Hf)).
  destruct (f_class x) eqn:Hc.
  - apply Hsingle. discriminate.
  - apply Hsingle. discriminate.
  - unfold MultiField_read.
    rewrite (bind_ok _ _ _ _ _ (iter_elements_run _ _ _ _ _ Hb Hs)).
    cbn [a_elems created List.length read_elements].
    unfold ret at 1. unfold bind at 1.
    now rewrite (bind_ok _ _ _ _ _ (set_value_run _ _ _ _ Hf)).
Qed.

(** The constructor of a field on a node that has no attribute of that
    name. *)
Lemma FieldBase_init_fresh (MetaNode_ : pyval -> M ref) (cls : field_class)
  (v : validator_class) (r : ref) (name : string)
  (kwargs : list (string * pyval)) (st : state) (m : metanode) (n : node)
  (t : attr_type) :
  wraps st r m n ->
  dict_has "validator_class" kwargs = false ->
  dict_has "metanode" kwargs = false ->
  process_kwargs v (dict_del "default_value" kwargs) = Ok t ->
  dict_has name (n_attrs n) = false ->
  FieldBase_init MetaNode_ cls v r name kwargs st
  = (Ok (List.length (st_fields st)),
     with_scene
       (with_fields st
          (st_fields st
             ++ [mkField cls v t r name (fresh_value cls v (default_of kwargs))]))
       (store_attr (n_name n) name (created cls t) (st_scene st))).
Proof.
  intros Hw Hk1 Hk2 Ht Hd. unfold FieldBase_init. rewrite Hk1, Hk2. cbn [orb].
  fold (default_of kwargs).
  unfold lift at 1. unfold bind at 1. rewrite Ht.
  match goal with |- context [alloc_field ?x0] => set (x := x0) end.
  rewrite (construct_run st r m n x _ Hw eq_refl Hd).
  cbn [f_name f_class create_attribute_kwargs x].
  pose proof (bound_store _ _ _ _ name (created cls t)
                (wraps_alloc_field st r m n x Hw eq_refl)) as Hb2.
  set (st2 := with_scene _ _) in *.
  assert (Hs2 : slot_of (mkNode (n_name n) (n_uuid n)
                   (dict_set name (created cls t) (n_attrs n))) x
                = Some (created (f_class x) (create_attribute_kwargs x)))
    by (unfold slot_of; simpl; apply dict_get_set_same).
  erewrite bind_ok.
  2:{ apply (read_fresh MetaNode_ st2 _ x _ _ (default_of kwargs) Hb2 Hs2 Ht).
      cbn [f_class validator _value x]. destruct cls; congruence. }
  unfold ret. f_equal. unfold st2, with_fields, with_scene. simpl.
  now rewrite set_nth_last.
Qed.

(** X8.  The constructor of a field on a node that has no attribute of
    the field's name.  It returns a new field object and leaves the older
    ones and the instances alone; the slot is made as [created] describes.
    The first [read()] then decides the value: for a multi field it is the
    empty list and for the validators whose slot is not text it is Maya's
    default for the slot (0, 0.0, False, the identity matrix), so a
    [default_value] argument is lost; only on a text slot, which reads as
    [None], does [default_value], or else the validator's default, stay. *)
Theorem constructor_on_new_slot (MetaNode_ : pyval -> M ref)
  (cls : field_class) (v : validator_class) (r : ref) (name : string)
  (kwargs : list (string * pyval)) (st : state) (m : metanode) (n : node)
  (t : attr_type) :
  wraps st r m n ->
  dict_has "validator_class" kwargs = false ->
  dict_has "metanode" kwargs = false ->
  process_kwargs v (dict_del "default_value" kwargs) = Ok t ->
  dict_has name (n_attrs n) = false ->
  exists st' value,
    FieldBase_init MetaNode_ cls v r name kwargs st
    = (Ok (List.length (st_fields st)), st') /\
    st_fields st' = (st_fields st ++ [mkField cls v t r name value])%list /\
    st_heap st' = st_heap st /\
    lookup_attr (n_name n) name (st_scene st') = Ok (created cls t) /\
    (cls = MultiField -> value = VList []) /\
    (cls <> MultiField -> set_attribute_kwargs v <> Some "string" ->
     from_attribute MetaNode_ v (type_default t) st' = (Ok value, st')) /\
    (cls <> MultiField -> set_attribute_kwargs v = Some "string" ->
     value = match default_of kwargs with
             | VNone => get_default_value v
             | d => d
             end).
Proof.
  intros Hw Hk1 Hk2 Ht Hd.
  rewrite (FieldBase_init_fresh MetaNode_ cls v r name kwargs st m n t
             Hw Hk1 Hk2 Ht Hd).
  eexists; eexists. split; [reflexivity|]. split; [reflexivity|].
  split; [reflexivity|]. split; [|split; [|split]].
  - destruct Hw as [_ [_ Hn]]. simpl. unfold store_attr. rewrite Hn.
    unfold lookup_attr. rewrite (find_node_set_attrs _ _ _ _ Hn). simpl.
    now rewrite dict_get_set_same.
  - now intros ->.
  - intros Hc Hs. destruct cls; try congruence;
      destruct v; simpl in Hs; try congruence; simpl in Ht;
      try (injection Ht as <-; reflexivity);
      destruct (join_choices _); simpl in Ht; try discriminate;
      injection Ht as <-; reflexivity.
  - intros Hc Hs. destruct cls; try congruence;
      destruct v; simpl in Hs; try congruence;
      unfold fresh_value; destruct (default_of kwargs); reflexivity.
Qed.

(** Witness for X8: an integer field declared with [default_value=5] on a
    node that has no such attribute starts at 0. *)
Lemma constructor_on_new_slot_witness :
  let st := after new_transform (MetaNode (VStr "transform1")) in
  exists st',
    FieldBase_init MetaNode Field IntValidator 0%nat "count"
                   [("default_value", VInt 5)] st
    = (Ok 4%nat, st') /\
    nth_error (st_fields st') 4%nat
    = Some (mkField Field IntValidator TLong 0%nat "count" (VInt 0)).
Proof.
  intros st.
  destruct (constructor_on_new_slot MetaNode Field IntValidator 0%nat "count"
              [("default_value", VInt 5)] st
              (mkMetaNode "MetaNode" "UUID-1"
                 [("metanode_fields", 1%nat); ("metanode_type", 2%nat);
                  ("is_initialized", 3%nat)])
              (wrapped_node []) TLong)
    as [st' [value [Hrun [Hf [_ [_ [_ [Hv _]]]]]]]].
  - split; [vm_compute; reflexivity|split; vm_compute; reflexivity].
  - reflexivity.
  - reflexivity.
  - reflexivity.
  - reflexivity.
  - exists st'. split; [exact Hrun|]. rewrite Hf.
    assert (Hv' : (Ok (VInt 0), st') = (Ok value, st'))
      by (apply Hv; discriminate).
    injection Hv' as <-. vm_compute. reflexivity.
Defined.

Lemma get_metanode_ok (st : state) (r : ref) (m : metanode) :
  nth_error (st_heap st) r = Some m -> get_metanode r st = (Ok m, st).
Proof. intros H. unfold get_metanode. now rewrite H. Qed.

Lemma nth_error_app_old {A} (l : list A) (y : A) (i : nat) (x : A) :
  nth_error l i = Some x -> nth_error (l ++ [y]) i = Some x.
Proof.
  intros H. rewrite nth_error_app1; [exact H|].
  apply nth_error_Some. congruence.
Qed.

(** [add_field] for a name the node has no attribute of, on an instance
    whose schema field is private. *)
Lemma add_field_run (MetaNode_ : pyval -> M ref) (st : state) (r : ref)
  (m : metanode) (n : node) (v : validator_class) (name : string)
  (a : Accessibility) (multi : pyval) (kwargs : list (string * pyval))
  (cls : field_class) (t : attr_type) (sf : fref) (xs : field)
  (items : list (string * pyval)) :
  wraps st r m n ->
  get_field_class a multi = Ok cls ->
  dict_has "validator_class" kwargs = false ->
  dict_has "metanode" kwargs = false ->
  process_kwargs v (dict_del "default_value" kwargs) = Ok t ->
  dict_has name (n_attrs n) = false ->
  name <> "metanode_fields" ->
  dict_get "metanode_fields" (fields m) = Some sf ->
  nth_error (st_fields st) sf = Some xs ->
  f_class xs <> PublicField ->
  _value xs = VDict items ->
  add_field MetaNode_ r v name a multi kwargs st
  = (Ok (List.length (st_fields st)),
     mkState
       (store_attr (n_name n) name (created cls t) (st_scene st))
       (set_nth r (mkMetaNode (m_class m) (mobject m)
                     (dict_set name (List.length (st_fields st)) (fields m)))
                (st_heap st))
       (set_nth sf
          (with_value xs
             (VDict (dict_set name (VDict (field_data_of v a multi kwargs)) items)))
          (st_fields st
             ++ [mkField cls v t r name (fresh_value cls v (default_of kwargs))]))
       (st_instances st) (st_classes st)
       (st_trace st ++ [EvAddField r name (dict_keys (fields m))])).
Proof.
  intros Hw Hcls Hk1 Hk2 Ht Hd Hname Hsf Hxs Hpriv Hitems.
  pose proof Hw as [Hm [Hu Hn]].
  unfold add_field.
  rewrite (bind_ok _ _ _ _ _ (get_metanode_ok _ _ _ Hm)).
  rewrite (bind_ok _ _ _ _ _ (emit_run _ _)).
  fold (with_event st (EvAddField r name (dict_keys (fields m)))).
  set (st1 := with_event st _).
  unfold lift at 1. unfold bind at 1. rewrite Hcls.
  assert (Hw1 : wraps st1 r m n) by exact Hw.
  rewrite (bind_ok _ _ _ _ _
             (FieldBase_init_fresh MetaNode_ cls v r name kwargs st1 m n t
                Hw1 Hk1 Hk2 Ht Hd)).
  set (st2 := with_scene _ _).
  assert (Hm2 : nth_error (st_heap st2) r = Some m) by exact Hm.
  rewrite (bind_ok _ _ _ _ _ (get_metanode_ok _ _ _ Hm2)).
  erewrite bind_ok
    by (unfold set_fields; rewrite (bind_ok _ _ _ _ _ (get_metanode_ok _ _ _ Hm2));
        reflexivity).
  erewrite bind_ok.
  2:{ erewrite MetaNode_getattr_run
        by (simpl; apply (nth_error_set_nth _ _ _ _ Hm)).
      rewrite declared_is_not_bare. cbn [fields].
      rewrite dict_get_set_other by exact Hname.
      rewrite Hsf. reflexivity. }
  cbv beta iota.
  assert (Hxs2 : nth_error (st_fields st ++
                   [mkField cls v t r name (fresh_value cls v (default_of kwargs))])
                   sf = Some xs) by (apply nth_error_app_old; exact Hxs).
  erewrite bind_ok.
  2:{ unfold get. erewrite bind_ok by (apply get_field_ok; exact Hxs2).
      assert (Hg : forall s0, nth_error (st_fields s0) sf = Some xs ->
                     Field_get sf s0 = (Ok (VDict items), s0)).
      { intros s0 H0. unfold Field_get.
        rewrite (bind_ok _ _ _ _ _ (get_field_ok _ _ _ H0)).
        unfold ret. now rewrite Hitems. }
      destruct (f_class xs); [apply Hg; exact Hxs2|congruence|apply Hg; exact Hxs2]. }
  cbv beta iota.
  erewrite bind_ok by (apply set_value_run; exact Hxs2).
  reflexivity.
Qed.

(** X9.  What [add_field] declares.  On an instance that wraps a node
    with no attribute called [name], whose schema field is private and
    holds a dict, and for a name other than the schema's own: [add_field]
    returns a new field object of the class that [get_field_class] gives;
    the field map of the instance maps [name] to it, the other names being
    untouched; the schema dict held in memory maps [name] to the
    descriptor, made of the validator's name, [multi], the accessibility
    value and the keyword arguments; in the scene the slot of the field is
    made and nothing else changes: the schema slot is not written. *)
Theorem add_field_declares (MetaNode_ : pyval -> M ref) (st : state) (r : ref)
  (m : metanode) (n : node) (v : validator_class) (name : string)
  (a : Accessibility) (multi : pyval) (kwargs : list (string * pyval))
  (cls : field_class) (t : attr_type) (sf : fref) (xs : field)
  (items : list (string * pyval)) :
  wraps st r m n ->
  get_field_class a multi = Ok cls ->
  dict_has "validator_class" kwargs = false ->
  dict_has "metanode" kwargs = false ->
  process_kwargs v (dict_del "default_value" kwargs) = Ok t ->
  dict_has name (n_attrs n) = false ->
  name <> "metanode_fields" ->
  dict_get "metanode_fields" (fields m) = Some sf ->
  nth_error (st_fields st) sf = Some xs ->
  f_class xs <> PublicField ->
  _value xs = VDict items ->
  exists st',
    add_field MetaNode_ r v name a multi kwargs st
    = (Ok (List.length (st_fields st)), st') /\
    nth_error (st_heap st') r
    = Some (mkMetaNode (m_class m) (mobject m)
              (dict_set name (List.length (st_fields st)) (fields m))) /\
    nth_error (st_fields st') (List.length (st_fields st))
    = Some (mkField cls v t r name (fresh_value cls v (default_of kwargs))) /\
    nth_error (st_fields st') sf
    = Some (with_value xs
              (VDict (dict_set name (VDict (field_data_of v a multi kwargs)) items))) /\
    st_scene st' = store_attr (n_name n) name (created cls t) (st_scene st) /\
    (forall a', a' <> name ->
       lookup_attr (n_name n) a' (st_scene st')
       = lookup_attr (n_name n) a' (st_scene st)) /\
    st_instances st' = st_instances st.
Proof.
  intros Hw Hcls Hk1 Hk2 Ht Hd Hname Hsf Hxs Hpriv Hitems.
  rewrite (add_field_run MetaNode_ st r m n v name a multi kwargs cls t sf xs
             items Hw Hcls Hk1 Hk2 Ht Hd Hname Hsf Hxs Hpriv Hitems).
  destruct Hw as [Hm [Hu Hn]].
  assert (Hlt : sf <> List.length (st_fields st)).
  { assert (sf < List.length (st_fields st))%nat
      by (apply nth_error_Some; congruence). lia. }
  eexists. split; [reflexivity|]. cbn [st_heap st_fields st_scene st_instances].
  split; [apply (nth_error_set_nth _ _ _ _ Hm)|].
  split; [rewrite nth_error_set_nth_other by exact Hlt;
          apply nth_error_app_length|].
  split; [apply (nth_error_set_nth _ _ xs); apply nth_error_app_old; exact Hxs|].
  split; [reflexivity|]. split; [|reflexivity].
  intros a' Ha. unfold lookup_attr, store_attr. rewrite Hn.
  rewrite (find_node_set_attrs _ _ _ _ Hn). simpl.
  now rewrite dict_get_set_other by congruence.
Qed.

(** Witness for X9: [count] is declared on a freshly wrapped transform. *)
Lemma add_field_declares_witness :
  let st := after new_transform (MetaNode (VStr "transform1")) in
  exists st',
    add_field MetaNode 0%nat IntValidator "count" private (VBool false) [] st
    = (Ok 4%nat, st') /\
    MetaNode_getattr 0%nat "count" st' = (Ok (Some 4%nat), st') /\
    option_map _value (nth_error (st_fields st') 1%nat)
    = Some (VDict [("metanode_fields", descriptor JsonValidator private false);
                   ("metanode_type", descriptor StringValidator private false);
                   ("is_initialized", descriptor BoolValidator private false);
                   ("count", descriptor IntValidator private false)]) /\
    getAttr "transform1" "metanode_fields" (st_scene st') = Ok VNone.
Proof.
  intros st.
  destruct (add_field_declares MetaNode st 0%nat
              (mkMetaNode "MetaNode" "UUID-1"
                 [("metanode_fields", 1%nat); ("metanode_type", 2%nat);
                  ("is_initialized", 3%nat)])
              (wrapped_node []) IntValidator "count" private (VBool false) []
              Field TLong 1%nat
              (mkField Field JsonValidator TString 0%nat "metanode_fields"
                 (VDict [("metanode_fields", descriptor JsonValidator private false);
                         ("metanode_type", descriptor StringValidator private false);
                         ("is_initialized", descriptor BoolValidator private false)]))
              [("metanode_fields", descriptor JsonValidator private false);
               ("metanode_type", descriptor StringValidator private false);
               ("is_initialized", descriptor BoolValidator private false)])
    as [st' [Hrun [Hh [_ [Hs [_ [Hother _]]]]]]].
  - split; [vm_compute; reflexivity|split; vm_compute; reflexivity].
  - reflexivity.
  - reflexivity.
  - reflexivity.
  - reflexivity.
  - reflexivity.
  - discriminate.
  - reflexivity.
  - vm_compute. reflexivity.
  - discriminate.
  - reflexivity.
  - exists st'. split; [exact Hrun|]. split; [|split].
    + unfold MetaNode_getattr.
      rewrite (bind_ok _ _ _ _ _ (get_metanode_ok _ _ _ Hh)). reflexivity.
    + rewrite Hs. reflexivity.
    + unfold getAttr. cbn [n_name wrapped_node] in Hother.
      rewrite (Hother "metanode_fields") by discriminate.
      vm_compute. reflexivity.
Defined.
(** ** The schema on flush and on reload *)

Lemma wraps_store (st st' : state) (r : ref) (m m' : metanode) (n : node)
  (a : string) (y : attr) :
  wraps st r m n ->
  st_scene st' = store_attr (n_name n) a y (st_scene st) ->
  nth_error (st_heap st') r = Some m' -> mobject m' = mobject m ->
  wraps st' r m' (mkNode (n_name n) (n_uuid n) (dict_set a y (n_attrs n))).
Proof.
  intros [Hm [Hu Hn]] Hsc Hm' Hmo. unfold wraps. rewrite Hsc, Hmo.
  unfold store_attr. rewrite Hn. split; [exact Hm'|]. split.
  - now apply find_uuid_set_attrs.
  - now apply find_node_set_attrs.
Qed.

(** X10.  Declaring a field and flushing the schema field persists the
    descriptor.  Under the conditions of [add_field] on a new name, when
    the schema field belongs to the instance, its slot is a single text
    slot with no incoming connection and the schema with the new
    descriptor is JSON-compatible: [add_field] then [write()] on the
    schema field return normally, the schema slot holds a text, and that
    text decodes to the schema dict with [name] mapped to the descriptor. *)
Theorem declared_schema_is_flushed (MetaNode_ : pyval -> M ref) (st : state)
  (r : ref) (m : metanode) (n : node) (v : validator_class) (name : string)
  (a : Accessibility) (multi : pyval) (kwargs : list (string * pyval))
  (cls : field_class) (t : attr_type) (sf : fref) (xs : field)
  (items : list (string * pyval)) (s : attr) :
  wraps st r m n ->
  get_field_class a multi = Ok cls ->
  dict_has "validator_class" kwargs = false ->
  dict_has "metanode" kwargs = false ->
  process_kwargs v (dict_del "default_value" kwargs) = Ok t ->
  dict_has name (n_attrs n) = false ->
  name <> "metanode_fields" ->
  dict_get "metanode_fields" (fields m) = Some sf ->
  nth_error (st_fields st) sf = Some xs ->
  xs = mkField Field JsonValidator TString r "metanode_fields" (VDict items) ->
  dict_get "metanode_fields" (n_attrs n) = Some s ->
  a_type s = TString -> a_multi s = false -> a_connected s = false ->
  json_ok (VDict (dict_set name (VDict (field_data_of v a multi kwargs)) items))
  = true ->
  exists f st1 st2 text,
    add_field MetaNode_ r v name a multi kwargs st = (Ok f, st1) /\
    write sf st1 = (Ok tt, st2) /\
    getAttr (n_name n) "metanode_fields" (st_scene st2) = Ok (VStr text) /\
    json_loads text
    = Ok (VDict (dict_set name (VDict (field_data_of v a multi kwargs)) items)).
Proof.
  intros Hw Hcls Hk1 Hk2 Ht Hd Hname Hsf Hxs Hx Hs Hty Hmulti Hconn Hok.
  assert (Hpriv : f_class xs <> PublicField) by (subst xs; discriminate).
  assert (Hitems : _value xs = VDict items) by (subst xs; reflexivity).
  pose proof (add_field_run MetaNode_ st r m n v name a multi kwargs cls t sf xs
                items Hw Hcls Hk1 Hk2 Ht Hd Hname Hsf Hxs Hpriv Hitems) as Hrun.
  set (items' := dict_set name (VDict (field_data_of v a multi kwargs)) items) in *.
  set (st1 := mkState _ _ _ _ _ _) in Hrun.
  set (n1 := mkNode (n_name n) (n_uuid n) (dict_set name (created cls t) (n_attrs n))).
  destruct (json_loads_dumps _ Hok) as [text [Hdumps Hloads]].
  pose proof Hw as [Hm [Hu Hn]].
  assert (Hb1 : bound st1 sf (with_value xs (VDict items')) n1).
  { split.
    - simpl. apply (nth_error_set_nth _ _ xs). apply nth_error_app_old. exact Hxs.
    - eexists. subst xs. cbn [f_metanode with_value].
      apply (wraps_store st st1 r m _ n name (created cls t) Hw eq_refl);
        [simpl; apply (nth_error_set_nth _ _ _ _ Hm)|reflexivity]. }
  assert (Hs1 : slot_of n1 (with_value xs (VDict items')) = Some s).
  { unfold slot_of. subst xs. simpl.
    rewrite dict_get_set_other by exact Hname. exact Hs. }
  assert (Henc : to_attribute (validator (with_value xs (VDict items')))
                              (_value (with_value xs (VDict items'))) st1
                 = (Ok (VStr text), st1)).
  { subst xs. cbn [validator _value with_value]. unfold to_attribute.
    cbv zeta iota. unfold bind, lift, ret. now rewrite Hdumps. }
  assert (Hco : coerce (a_type s)
                  (set_attribute_kwargs (validator (with_value xs (VDict items'))))
                  (VStr text) = Ok (VStr text))
    by (subst xs; simpl; rewrite Hty; reflexivity).
  pose proof (Field_write_run st1 st1 sf _ n1 s (VStr text) (VStr text) Hb1
                ltac:(subst xs; reflexivity) Hs1 Hmulti Hconn Henc Hco) as Hwr.
  exists (List.length (st_fields st)), st1. eexists. exists text.
  split; [exact Hrun|]. split; [exact Hwr|]. split; [|exact Hloads].
  pose proof (bound_store _ _ _ _ (f_name (with_value xs (VDict items')))
                (written s (VStr text) true) Hb1) as Hb2.
  assert (Hs2 : slot_of (mkNode (n_name n1) (n_uuid n1)
                   (dict_set (f_name (with_value xs (VDict items')))
                             (written s (VStr text) true) (n_attrs n1)))
                  (with_value xs (VDict items'))
                = Some (written s (VStr text) true))
    by (unfold slot_of; simpl; apply dict_get_set_same).
  pose proof (bound_slot _ _ _ _ _ Hb2 Hs2) as Hl.
  unfold getAttr.
  replace (lookup_attr _ _ _) with (Ok (written s (VStr text) true))
    by (symmetry; subst xs; exact Hl).
  simpl. now rewrite Hmulti.
Qed.

(** Witness for X10: [count] is declared on a freshly wrapped transform
    and the schema field is flushed. *)
Lemma declared_schema_is_flushed_witness :
  let st := after new_transform (MetaNode (VStr "transform1")) in
  exists f st1 st2 text,
    add_field MetaNode 0%nat IntValidator "count" private (VBool false) [] st
    = (Ok f, st1) /\
    write 1%nat st1 = (Ok tt, st2) /\
    getAttr "transform1" "metanode_fields" (st_scene st2) = Ok (VStr text) /\
    json_loads text
    = Ok (VDict [("metanode_fields", descriptor JsonValidator private false);
                 ("metanode_type", descriptor StringValidator private false);
                 ("is_initialized", descriptor BoolValidator private false);
                 ("count", descriptor IntValidator private false)]).
Proof.
  intros st.
  apply (declared_schema_is_flushed MetaNode st 0%nat
           (mkMetaNode "MetaNode" "UUID-1"
              [("metanode_fields", 1%nat); ("metanode_type", 2%nat);
               ("is_initialized", 3%nat)])
           (wrapped_node []) IntValidator "count" private (VBool false) []
           Field TLong 1%nat
           (mkField Field JsonValidator TString 0%nat "metanode_fields"
              (VDict [("metanode_fields", descriptor JsonValidator private false);
                      ("metanode_type", descriptor StringValidator private false);
                      ("is_initialized", descriptor BoolValidator private false)]))
           [("metanode_fields", descriptor JsonValidator private false);
            ("metanode_type", descriptor StringValidator private false);
            ("is_initialized", descriptor BoolValidator private false)]
           (fresh_slot TString false)).
  - split; [vm_compute; reflexivity|split; vm_compute; reflexivity].
  - reflexivity.
  - reflexivity.
  - reflexivity.
  - reflexivity.
  - reflexivity.
  - discriminate.
  - reflexivity.
  - vm_compute. reflexivity.
  - reflexivity.
  - reflexivity.
  - reflexivity.
  - reflexivity.
  - reflexivity.
  - vm_compute. reflexivity.
Defined.

Lemma dict_update_app {V} (kw d : list (string * V)) :
  unique_keys kw = true ->
  (forall k, dict_has k kw = true -> dict_has k d = false) ->
  dict_update d kw = (d ++ kw)%list.
Proof.
  unfold dict_update. revert d.
  induction kw as [|[k v] kw IH]; intros d Hu Hd; simpl.
  - now rewrite app_nil_r.
  - simpl in Hu. apply andb_prop in Hu. destruct Hu as [Hk Hu].
    apply negb_true_iff in Hk.
    assert (Hkd : dict_has k d = false).
    { apply Hd. unfold dict_has. simpl. now rewrite String.eqb_refl. }
    rewrite (dict_set_fresh _ _ _ Hkd), IH, <- app_assoc; [reflexivity|exact Hu|].
    intros k' Hk'. rewrite dict_has_app.
    assert (Hne : String.eqb k' k = false).
    { destruct (String.eqb k' k) eqn:E; [|reflexivity].
      apply String.eqb_eq in E. subst k'. congruence. }
    rewrite Hd.
    + unfold dict_has. simpl. now rewrite Hne.
    + unfold dict_has. simpl. rewrite Hne. exact Hk'.
Qed.

Lemma set_nth_twice {A} (l : list A) (i : nat) (x y : A) :
  set_nth i y (set_nth i x l) = set_nth i y l.
Proof.
  revert i. induction l as [|h l IH]; intros [|i]; simpl; try reflexivity.
  now rewrite IH.
Qed.

(** [field_data.pop(key)] on a descriptor that has the key, while the
    schema field holds a dict. *)
Lemma pop_descriptor_run (sf : fref) (name key : string)
  (dd : list (string * pyval)) (v : pyval) (st : state) (x : field)
  (items : list (string * pyval)) :
  dict_get key dd = Some v ->
  nth_error (st_fields st) sf = Some x ->
  _value x = VDict items ->
  pop_descriptor sf name key (VDict dd) st
  = (Ok (v, VDict (dict_del key dd)),
     with_fields st
       (set_nth sf
          (with_value x (VDict (dict_set name (VDict (dict_del key dd)) items)))
          (st_fields st))).
Proof.
  intros Hk Hx Hi. unfold pop_descriptor. rewrite Hk.
  rewrite (bind_ok _ _ _ _ _ (get_field_ok _ _ _ Hx)). rewrite Hi.
  now rewrite (bind_ok _ _ _ _ _ (set_value_run _ _ _ _ Hx)).
Qed.

(** X11.  Reload repeats the declaration.  One turn of the loop of
    [add_default_fields] over a schema item [name: descriptor], where the
    descriptor is the one [add_field(validator, name, accessibility,
    multi, **kwargs)] stores, makes exactly that call again: same
    validator class, found by its name, same accessibility, same [multi],
    same keyword arguments.  Before the call the three [pop]s have
    stripped the descriptor held by the schema field down to the keyword
    arguments, the dict object being shared. *)
Theorem redeclare_repeats_add_field (MetaNode_ : pyval -> M ref) (r : ref)
  (sf : fref) (st : state) (x : field) (items : list (string * pyval))
  (name : string) (v : validator_class) (a : Accessibility) (multi : pyval)
  (kwargs : list (string * pyval)) :
  nth_error (st_fields st) sf = Some x ->
  _value x = VDict items ->
  unique_keys kwargs = true ->
  (forall k, In k ["validator"; "multi"; "accessibility"; "self"; "name"] ->
             dict_has k kwargs = false) ->
  redeclare MetaNode_ r sf (name, VDict (field_data_of v a multi kwargs)) st
  = (add_field MetaNode_ r v name a multi kwargs ;;; ret tt)
      (with_fields st
         (set_nth sf (with_value x (VDict (dict_set name (VDict kwargs) items)))
                  (st_fields st))).
Proof.
  intros Hx Hi Hu Hk.
  assert (Hfd : field_data_of v a multi kwargs
                = ([("validator", VStr (validator_name v)); ("multi", multi);
                    ("accessibility", VInt (accessibility_value a))] ++ kwargs)%list).
  { unfold field_data_of. apply dict_update_app; [exact Hu|].
    intros k Hin. unfold dict_has. simpl.
    destruct (String.eqb k "validator") eqn:E1.
    { apply String.eqb_eq in E1. subst k. rewrite Hk in Hin by (simpl; auto).
      discriminate. }
    destruct (String.eqb k "multi") eqn:E2.
    { apply String.eqb_eq in E2. subst k. rewrite Hk in Hin by (simpl; auto).
      discriminate. }
    destruct (String.eqb k "accessibility") eqn:E3; [|reflexivity].
    apply String.eqb_eq in E3. subst k. rewrite Hk in Hin by (simpl; auto).
    discriminate. }
  rewrite Hfd. unfold redeclare.
  erewrite bind_ok
    by (eapply pop_descriptor_run; [reflexivity|exact Hx|exact Hi]).
  cbn [dict_del app String.eqb Ascii.eqb Bool.eqb].
  set (x1 := with_value x _). set (st1 := with_fields st _).
  assert (Hx1 : nth_error (st_fields st1) sf = Some x1)
    by (apply (nth_error_set_nth _ _ _ _ Hx)).
  erewrite bind_ok
    by (eapply pop_descriptor_run; [reflexivity|exact Hx1|reflexivity]).
  cbn [dict_del String.eqb Ascii.eqb Bool.eqb].
  set (x2 := with_value x1 _). set (st2 := with_fields st1 _).
  assert (Hx2 : nth_error (st_fields st2) sf = Some x2)
    by (apply (nth_error_set_nth _ _ _ _ Hx1)).
  assert (Hacc : lift (Accessibility_of (VInt (accessibility_value a))) st2
                 = (Ok a, st2)) by (destruct a; reflexivity).
  rewrite (bind_ok _ _ _ _ _ Hacc).
  erewrite bind_ok
    by (eapply pop_descriptor_run; [reflexivity|exact Hx2|reflexivity]).
  cbn [dict_del String.eqb Ascii.eqb Bool.eqb].
  assert (Hst : with_fields st2
                  (set_nth sf
                     (with_value x2
                        (VDict (dict_set name (VDict kwargs)
                                  (dict_set name
                                     (VDict (("multi", multi) :: kwargs))
                                     (dict_set name
                                        (VDict (("multi", multi)
                                                  :: ("accessibility",
                                                      VInt (accessibility_value a))
                                                  :: kwargs)) items)))))
                     (st_fields st2))
                = with_fields st
                    (set_nth sf
                       (with_value x (VDict (dict_set name (VDict kwargs) items)))
                       (st_fields st))).
  { unfold st2, st1, x2, x1, with_fields, with_value. simpl.
    now rewrite !set_nth_twice, !dict_set_set. }
  rewrite Hst. set (st3 := with_fields st _).
  rewrite (Hk "self"), (Hk "name") by (simpl; tauto). cbn [orb].
  destruct v; cbn -[add_field]; unfold bind, ret;
    destruct (add_field _ _ _ _ _ _ _ st3) as [[f| |] s']; reflexivity.
Qed.

(** Witness for X11: the item [count] of the schema of a wrapped
    transform on which [count] was declared. *)
Lemma redeclare_repeats_add_field_witness :
  let st := after new_transform
              (declare_and_set IntValidator "count" private false (VInt 10)) in
  let items := [("metanode_fields", descriptor JsonValidator private false);
                ("metanode_type", descriptor StringValidator private false);
                ("is_initialized", descriptor BoolValidator private false);
                ("count", descriptor IntValidator private false)] in
  redeclare MetaNode 0%nat 1%nat ("count", descriptor IntValidator private false) st
  = (add_field MetaNode 0%nat IntValidator "count" private (VBool false) [] ;;;
     ret tt)
      (with_fields st
         (set_nth 1%nat
            (mkField Field JsonValidator TString 0%nat "metanode_fields"
               (VDict (dict_set "count" (VDict []) items)))
            (st_fields st))).
Proof.
  intros st items.
  apply (redeclare_repeats_add_field MetaNode 0%nat 1%nat st
           (mkField Field JsonValidator TString 0%nat "metanode_fields"
              (VDict items))
           items "count" IntValidator private (VBool false) []).
  - vm_compute. reflexivity.
  - reflexivity.
  - reflexivity.
  - intros k _. reflexivity.
Defined.
(** ** The constructor: refusals and the class tag *)

(** X12.  What the constructor refuses.  [MetaNode(node)] raises
    [TypeError] when [node] is not text and [ValueError] when no node of
    the scene has that name; in both cases nothing is allocated,
    registered or written: the state is untouched. *)
Theorem constructor_refuses (fuel : nat) (cls : string) (node : pyval)
  (st : state) :
  (forall name, node = VStr name -> find_node name (st_scene st) = None) ->
  MetaNode_call (S fuel) cls node st
  = (Raise (match node with
            | VStr _ => ValueError "Specified Maya node does not exist"
            | _ => TypeError "MetaNode can only be instanciated from a node name."
            end), st).
Proof.
  intros H. simpl. unfold bind at 1.
  destruct node; try reflexivity.
  unfold MetaNode_new, bind, query, objExists.
  now rewrite (H s eq_refl).
Qed.

Lemma constructor_refuses_witness :
  MetaNode_call 3 "MetaNode" (VInt 10) (fresh_process new_transform [])
  = (Raise (TypeError "MetaNode can only be instanciated from a node name."),
     fresh_process new_transform []) /\
  MetaNode_call 3 "MetaNode" (VStr "nothing") (fresh_process new_transform [])
  = (Raise (ValueError "Specified Maya node does not exist"),
     fresh_process new_transform []).
Proof.
  split.
  - apply (constructor_refuses 2 "MetaNode" (VInt 10)). discriminate.
  - apply (constructor_refuses 2 "MetaNode" (VStr "nothing")).
    intros name [= <-]. reflexivity.
Defined.

Lemma fold_left_existsb (stored : string) (l : list string) (init : option string) :
  fold_left (fun found subclass =>
               if String.eqb stored subclass then Some subclass else found)
            l init
  = if existsb (String.eqb stored) l then Some stored else init.
Proof.
  revert init. induction l as [|x l IH]; intros init; simpl; [reflexivity|].
  rewrite IH. destruct (String.eqb stored x) eqn:E; simpl; [|reflexivity].
  apply String.eqb_eq in E. subst x. now destruct (existsb _ l).
Qed.

(** X13.  The class tag decides the class of a new instance.  For a node
    the identity cache does not know and that carries the attribute
    [metanode_type]: [__new__] allocates an instance of the class named by
    the tag when that name is the class asked for or one of its
    subclasses, and this is the only change; otherwise, also when the tag
    holds no text, as on a node that was wrapped but never flushed, it
    raises [Exception] and changes nothing. *)
Theorem class_tag_decides (cls name : string) (n : node) (st : state) (s : attr) :
  find_node name (st_scene st) = Some n ->
  dict_get (n_uuid n) (st_instances st) = None ->
  dict_get "metanode_type" (n_attrs n) = Some s ->
  a_multi s = false ->
  MetaNode_new cls (VStr name) st
  = match a_value s with
    | VStr stored =>
        if (String.eqb stored cls
            || existsb (String.eqb stored) (all_subclasses (st_classes st) cls))%bool
        then alloc_metanode (mkMetaNode stored EmptyString []) st
        else (Raise (PyException
                "The class name stored on the node wasn't found in the subclasses"),
              st)
    | _ => (Raise (PyException
              "The class name stored on the node wasn't found in the subclasses"),
            st)
    end.
Proof.
  intros Hn Hnone Hs Hmulti.
  destruct (find_uuid_of_node _ _ _ Hn) as [n' Hu].
  unfold MetaNode_new.
  rewrite (bind_ok _ _ _ _ _ (objExists_run _ _ _ Hn)).
  cbv beta. cbn [negb].
  rewrite (bind_ok _ _ _ _ _ (get_mobject_run _ _ _ Hn)).
  rewrite (bind_ok _ _ _ _ _ (get_uuid_run _ _ _ Hu)).
  unfold bind at 1. rewrite Hnone.
  unfold bind at 1. unfold query at 1. unfold attributeQuery_exists.
  rewrite Hn. unfold dict_has. rewrite Hs.
  unfold bind at 1. unfold query at 1. unfold getAttr, lookup_attr.
  rewrite Hn, Hs. simpl rbind. rewrite Hmulti.
  unfold bind at 1.
  destruct (a_value s) as [| | | |stored| | | |]; try reflexivity.
  destruct (String.eqb stored cls) eqn:E; simpl orb.
  - apply String.eqb_eq in E. now subst stored.
  - rewrite fold_left_existsb.
    now destruct (existsb (String.eqb stored) (all_subclasses (st_classes st) cls)).
Qed.

(** Witness for X13: with the subclass [Rig] imported, a node tagged [Rig]
    gives an instance of [Rig]; a node tagged [Ghost] is refused. *)
Lemma class_tag_decides_witness :
  let classes := [("Rig", "MetaNode")] in
  fst (MetaNode_new "MetaNode" (VStr "transform1")
         (fresh_process (tagged_transform (VStr "Rig")) classes)) = Ok 0%nat /\
  st_heap (snd (MetaNode_new "MetaNode" (VStr "transform1")
                  (fresh_process (tagged_transform (VStr "Rig")) classes)))
  = [mkMetaNode "Rig" EmptyString []] /\
  MetaNode_new "MetaNode" (VStr "transform1")
    (fresh_process (tagged_transform (VStr "Ghost")) classes)
  = (Raise (PyException
       "The class name stored on the node wasn't found in the subclasses"),
     fresh_process (tagged_transform (VStr "Ghost")) classes).
Proof.
  intros classes.
  rewrite (class_tag_decides "MetaNode" "transform1"
             (mkNode "transform1" "UUID-1"
                [("metanode_type", mkAttr TString false (VStr "Rig") [] true false false)])
             (fresh_process (tagged_transform (VStr "Rig")) classes)
             (mkAttr TString false (VStr "Rig") [] true false false)
             eq_refl eq_refl eq_refl eq_refl).
  rewrite (class_tag_decides "MetaNode" "transform1"
             (mkNode "transform1" "UUID-1"
                [("metanode_type", mkAttr TString false (VStr "Ghost") [] true false false)])
             (fresh_process (tagged_transform (VStr "Ghost")) classes)
             (mkAttr TString false (VStr "Ghost") [] true false false)
             eq_refl eq_refl eq_refl eq_refl).
  repeat split; reflexivity.
Defined.

(** ** Lookup by durable id *)

(** X14.  [from_uuid] on a wrapped node returns the cached instance and
    changes nothing.  When the first node that [cmds.ls(uuid)] reports is
    one whose durable id the identity cache knows, [from_uuid] returns the
    cached instance, whatever class it is called on, and the state is
    untouched: unlike the constructor call [MetaNode(node)], it does not
    run [__init__] again.  When [cmds.ls(uuid)] reports nothing it raises
    [ValueError], again without any change. *)
Theorem from_uuid_returns_cached (cls uuid : string) (st : state) :
  (ls uuid (st_scene st) = [] ->
   from_uuid cls uuid st = (Raise (ValueError "No node with uuid"), st)) /\
  (forall first rest n r,
     ls uuid (st_scene st) = first :: rest ->
     find_node first (st_scene st) = Some n ->
     registered (n_uuid n) r st ->
     from_uuid cls uuid st = (Ok r, st)).
Proof.
  split.
  - intros H. unfold from_uuid, bind, query. now rewrite H.
  - intros first rest n r H Hn Hr. unfold from_uuid.
    unfold bind at 1. unfold query. rewrite H.
    now apply (MetaNode_new_hit cls first st n r).
Qed.

(** X15.  [from_uuid] on a node that is not wrapped yet.  When the node
    carries no class tag and the identity cache does not know it,
    [from_uuid] allocates an instance of the class it is called on and
    that is all: [__init__] does not run, so the instance has no handle and
    no field, no attribute is made, and the identity cache is left as it
    was, so the instance is not the one a later lookup or constructor call
    will return. *)
Theorem from_uuid_does_not_register (cls uuid : string) (st : state)
  (first : string) (rest : list string) (n : node) :
  ls uuid (st_scene st) = first :: rest ->
  find_node first (st_scene st) = Some n ->
  dict_get (n_uuid n) (st_instances st) = None ->
  dict_has "metanode_type" (n_attrs n) = false ->
  from_uuid cls uuid st
  = (Ok (List.length (st_heap st)),
     mkState (st_scene st) (st_heap st ++ [mkMetaNode cls EmptyString []])
             (st_fields st) (st_instances st) (st_classes st) (st_trace st)).
Proof.
  intros H Hn Hnone Htag. unfold from_uuid.
  unfold bind at 1. unfold query. rewrite H.
  destruct (find_uuid_of_node _ _ _ Hn) as [n' Hu].
  unfold MetaNode_new.
  rewrite (bind_ok _ _ _ _ _ (objExists_run _ _ _ Hn)).
  cbv beta. cbn [negb].
  rewrite (bind_ok _ _ _ _ _ (get_mobject_run _ _ _ Hn)).
  rewrite (bind_ok _ _ _ _ _ (get_uuid_run _ _ _ Hu)).
  unfold bind at 1. rewrite Hnone.
  unfold bind at 1. unfold query at 1. unfold attributeQuery_exists.
  rewrite Hn, Htag. unfold bind at 1. unfold ret at 1.
  unfold bind at 1. now rewrite String.eqb_refl.
Qed.

Lemma from_uuid_returns_cached_witness :
  let st := after new_transform (MetaNode (VStr "transform1")) in
  from_uuid "MetaNode" "UUID-0" st = (Raise (ValueError "No node with uuid"), st) /\
  from_uuid "MetaNode" "UUID-1" st = (Ok 0%nat, st).
Proof.
  intros st.
  destruct (from_uuid_returns_cached "MetaNode" "UUID-0" st) as [H0 _].
  destruct (from_uuid_returns_cached "MetaNode" "UUID-1" st) as [_ H1].
  split; [apply H0; reflexivity|].
  apply (H1 "transform1" [] (wrapped_node []) 0%nat); vm_compute; reflexivity.
Defined.

Lemma from_uuid_does_not_register_witness :
  let st := fresh_process new_transform [] in
  fst (from_uuid "MetaNode" "UUID-1" st) = Ok 0%nat /\
  st_instances (snd (from_uuid "MetaNode" "UUID-1" st)) = [] /\
  st_scene (snd (from_uuid "MetaNode" "UUID-1" st)) = new_transform.
Proof.
  intros st.
  rewrite (from_uuid_does_not_register "MetaNode" "UUID-1" st "transform1" []
             (mkNode "transform1" "UUID-1" []) eq_refl eq_refl eq_refl eq_refl).
  repeat split; reflexivity.
Defined.
(** ** Equality and entity references *)

Lemma wraps_uuid (st : state) (r : ref) (m : metanode) (n : node) :
  wraps st r m n -> MetaNode_uuid r st = (Ok (n_uuid n), st).
Proof.
  intros [Hm [Hu Hn]]. unfold MetaNode_uuid.
  rewrite (bind_ok _ _ _ _ _ (get_metanode_ok _ _ _ Hm)).
  unfold get_uuid, query. now rewrite Hu.
Qed.

(** X16.  [__eq__] compares durable ids and needs a [MetaNode] on the
    right.  For an instance that wraps a node, [self == other] is the
    equality of the two durable ids when [other] is an instance that wraps
    a node; when [other] is anything else, [None] included, it raises
    [AttributeError].  Nothing changes in either case. *)
Theorem equality_is_by_durable_id (st : state) (r1 : ref) (m1 : metanode)
  (n1 : node) :
  wraps st r1 m1 n1 ->
  (forall r2 m2 n2, wraps st r2 m2 n2 ->
     MetaNode_eq r1 (VNode r2) st = (Ok (String.eqb (n_uuid n1) (n_uuid n2)), st)) /\
  (forall other, (forall r2, other <> VNode r2) ->
     MetaNode_eq r1 other st
     = (Raise (AttributeError "object has no attribute 'uuid'"), st)).
Proof.
  intros Hw. split.
  - intros r2 m2 n2 Hw2. unfold MetaNode_eq.
    rewrite (bind_ok _ _ _ _ _ (wraps_uuid _ _ _ _ Hw)).
    now rewrite (bind_ok _ _ _ _ _ (wraps_uuid _ _ _ _ Hw2)).
  - intros other Hno. unfold MetaNode_eq.
    rewrite (bind_ok _ _ _ _ _ (wraps_uuid _ _ _ _ Hw)).
    destruct other; try reflexivity. now destruct (Hno r).
Qed.

Lemma equality_is_by_durable_id_witness :
  let st := after new_transform (MetaNode (VStr "transform1")) in
  MetaNode_eq 0%nat (VNode 0%nat) st = (Ok true, st) /\
  MetaNode_eq 0%nat VNone st
  = (Raise (AttributeError "object has no attribute 'uuid'"), st).
Proof.
  intros st.
  assert (Hw : wraps st 0%nat
                 (mkMetaNode "MetaNode" "UUID-1"
                    [("metanode_fields", 1%nat); ("metanode_type", 2%nat);
                     ("is_initialized", 3%nat)])
                 (wrapped_node []))
    by (split; [vm_compute; reflexivity|split; vm_compute; reflexivity]).
  destruct (equality_is_by_durable_id st 0%nat _ _ Hw) as [H1 H2].
  split; [apply (H1 0%nat _ _ Hw)|apply H2; discriminate].
Defined.

(** X17.  An absent entity reference.  [MetaNodeValidator] encodes every
    false value, [None] among them, as the empty text and decodes every
    false value as [None]; it also decodes as [None] a text for which
    [cmds.ls] reports nothing, such as the durable id of a node that was
    deleted.  No constructor is called and the state is untouched. *)
Theorem absent_reference_is_None (MetaNode_ : pyval -> M ref) (st : state) :
  (forall value, py_truth value = false ->
     to_attribute MetaNodeValidator value st = (Ok (VStr EmptyString), st) /\
     from_attribute MetaNode_ MetaNodeValidator value st = (Ok VNone, st)) /\
  (forall s, ls s (st_scene st) = [] ->
     from_attribute MetaNode_ MetaNodeValidator (VStr s) st = (Ok VNone, st)).
Proof.
  split.
  - intros value H. simpl. now rewrite H.
  - intros s H. simpl. destruct (String.eqb s EmptyString); [reflexivity|].
    simpl. unfold bind, query. now rewrite H.
Qed.

Lemma absent_reference_is_None_witness :
  let st := fresh_process new_transform [] in
  to_attribute MetaNodeValidator VNone st = (Ok (VStr EmptyString), st) /\
  from_attribute MetaNode MetaNodeValidator (VStr EmptyString) st = (Ok VNone, st) /\
  from_attribute MetaNode MetaNodeValidator (VStr "UUID-9") st = (Ok VNone, st).
Proof.
  intros st. destruct (absent_reference_is_None MetaNode st) as [H1 H2].
  split; [apply (H1 VNone); reflexivity|].
  split; [apply (H1 (VStr EmptyString)); reflexivity|].
  apply H2. reflexivity.
Defined.

(** X18.  An entity reference is stored as the durable id and resolved
    through the identity cache.  For an instance [r] that wraps a node and
    that the cache holds for the node's durable id, [MetaNodeValidator]
    encodes [r] as that id without touching the state; decoding the id,
    when [cmds.ls] reports the node first, goes through the constructor,
    which runs [__init__] on [r] again, and can return no other instance
    than [r]. *)
Theorem reference_resolves_to_registered (fuel : nat) (st : state) (r : ref)
  (m : metanode) (n : node) (rest : list string) :
  wraps st r m n ->
  registered (n_uuid n) r st ->
  n_uuid n <> EmptyString ->
  ls (n_uuid n) (st_scene st) = n_name n :: rest ->
  to_attribute MetaNodeValidator (VNode r) st = (Ok (VStr (n_uuid n)), st) /\
  from_attribute (MetaNode_call (S fuel) "MetaNode") MetaNodeValidator
                 (VStr (n_uuid n)) st
  = (r' <- (m <- get_metanode r ;;
            classes <- (fun st => (Ok (st_classes st), st)) ;;
            (if isinstance classes (m_class m) "MetaNode"
             then MetaNode_init (MetaNode_call fuel "MetaNode") r (n_name n)
             else ret tt) ;;;
            ret r) ;;
     ret (VNode r')) st /\
  forall v st',
    from_attribute (MetaNode_call (S fuel) "MetaNode") MetaNodeValidator
                   (VStr (n_uuid n)) st = (Ok v, st') ->
    v = VNode r.
Proof.
  intros Hw Hr Hne Hls. pose proof Hw as [Hm [Hu Hn]].
  assert (Hdec : from_attribute (MetaNode_call (S fuel) "MetaNode")
                   MetaNodeValidator (VStr (n_uuid n)) st
                 = (r' <- MetaNode_call (S fuel) "MetaNode" (VStr (n_name n)) ;;
                    ret (VNode r')) st).
  { cbn [from_attribute py_truth].
    destruct (String.eqb (n_uuid n) EmptyString) eqn:E.
    - apply String.eqb_eq in E. congruence.
    - cbn [negb]. unfold bind at 1. unfold query. now rewrite Hls. }
  split; [|split].
  - cbn [to_attribute py_truth].
    now rewrite (bind_ok _ _ _ _ _ (wraps_uuid _ _ _ _ Hw)).
  - rewrite Hdec. unfold bind at 1.
    rewrite (MetaNode_call_hit fuel "MetaNode" (n_name n) st n r Hn Hr).
    reflexivity.
  - intros v st'. rewrite Hdec. unfold bind at 1.
    destruct (MetaNode_call (S fuel) "MetaNode" (VStr (n_name n)) st)
      as [[r'| |] s1] eqn:E; try discriminate.
    intros [= <- <-].
    now rewrite (MetaNode_call_hit_result _ _ _ _ _ _ _ _ Hn Hr E).
Qed.

(** Witness for X18: the wrapped transform refers to itself. *)
Lemma reference_resolves_to_registered_witness :
  let st := after new_transform (MetaNode (VStr "transform1")) in
  to_attribute MetaNodeValidator (VNode 0%nat) st = (Ok (VStr "UUID-1"), st) /\
  fst (from_attribute (MetaNode_call 2 "MetaNode") MetaNodeValidator
                      (VStr "UUID-1") st) = Ok (VNode 0%nat).
Proof.
  intros st.
  destruct (reference_resolves_to_registered 1 st 0%nat
              (mkMetaNode "MetaNode" "UUID-1"
                 [("metanode_fields", 1%nat); ("metanode_type", 2%nat);
                  ("is_initialized", 3%nat)])
              (wrapped_node []) [])
    as [H1 [_ H3]].
  - split; [vm_compute; reflexivity|split; vm_compute; reflexivity].
  - vm_compute. reflexivity.
  - discriminate.
  - vm_compute. reflexivity.
  - split; [exact H1|].
    destruct (from_attribute (MetaNode_call 2 "MetaNode") MetaNodeValidator
                             (VStr "UUID-1") st) as [[v| |] st'] eqn:E.
    + simpl. f_equal. apply (H3 v st'). exact E.
    + vm_compute in E. discriminate E.
    + vm_compute in E. discriminate E.
Defined.
(** ** Round trip of every validator kind (C9) *)




(** ** Serialization *)

Lemma Field_get_run (MetaNode_ : pyval -> M ref) (st : state) (f : fref)
  (x : field) :
  nth_error (st_fields st) f = Some x -> f_class x <> PublicField ->
  get MetaNode_ f st = (Ok (_value x), st).
Proof.
  intros Hf Hc. unfold get. rewrite (bind_ok _ _ _ _ _ (get_field_ok _ _ _ Hf)).
  assert (Hg : Field_get f st = (Ok (_value x), st))
    by (unfold Field_get; now rewrite (bind_ok _ _ _ _ _ (get_field_ok _ _ _ Hf))).
  destruct (f_class x); [exact Hg|congruence|exact Hg].
Qed.

(** X19.  [MultiField.serialize].  A multi field whose value is false,
    the empty list in particular, serializes to the empty list, never to
    [None].  A multi field of entity references that holds at least one
    element cannot be serialized: the validator is handed the whole list,
    which has no [uuid], and [AttributeError] is raised.  The state is
    untouched in both cases. *)
Theorem MultiField_serialize_edges (MetaNode_ : pyval -> M ref) (st : state)
  (f : fref) (x : field) :
  nth_error (st_fields st) f = Some x ->
  f_class x = MultiField ->
  (py_truth (_value x) = false ->
   field_serialize MetaNode_ f st = (Ok (VList []), st)) /\
  (validator x = MetaNodeValidator ->
   forall v l, _value x = VList (v :: l) ->
     field_serialize MetaNode_ f st
     = (Raise (AttributeError "object has no attribute 'uuid'"), st)).
Proof.
  intros Hf Hc.
  assert (Hg : get MetaNode_ f st = (Ok (_value x), st))
    by (apply Field_get_run; [exact Hf|congruence]).
  assert (Hrun : field_serialize MetaNode_ f st
                 = if py_truth (_value x)
                   then serialize (validator x) (_value x) st
                   else (Ok (VList []), st)).
  { unfold field_serialize.
    rewrite (bind_ok _ _ _ _ _ (get_field_ok _ _ _ Hf)). rewrite Hc.
    unfold MultiField_serialize. rewrite (bind_ok _ _ _ _ _ Hg).
    destruct (py_truth (_value x)); [|reflexivity].
    now rewrite (bind_ok _ _ _ _ _ (get_field_ok _ _ _ Hf)). }
  split.
  - intros Ht. now rewrite Hrun, Ht.
  - intros Hv v l Hl. rewrite Hrun, Hv, Hl. reflexivity.
Qed.

Lemma MultiField_serialize_edges_witness :
  let st := after new_transform
              (declare_and_set MetaNodeValidator "parts" private true
                               (VList [VNode 0%nat])) in
  field_serialize MetaNode 4%nat st
  = (Raise (AttributeError "object has no attribute 'uuid'"), st) /\
  field_serialize MetaNode 4%nat
    (with_fields st (set_nth 4%nat
                       (mkField MultiField MetaNodeValidator TString 0%nat "parts"
                                (VList []))
                       (st_fields st)))
  = (Ok (VList []),
     with_fields st (set_nth 4%nat
                       (mkField MultiField MetaNodeValidator TString 0%nat "parts"
                                (VList []))
                       (st_fields st))).
Proof.
  intros st. split.
  - destruct (MultiField_serialize_edges MetaNode st 4%nat
                (mkField MultiField MetaNodeValidator TString 0%nat "parts"
                         (VList [VNode 0%nat])))
      as [_ H]; [vm_compute; reflexivity|reflexivity|].
    apply (H eq_refl (VNode 0%nat) []). reflexivity.
  - set (st' := with_fields st _).
    destruct (MultiField_serialize_edges MetaNode st' 4%nat
                (mkField MultiField MetaNodeValidator TString 0%nat "parts"
                         (VList [])))
      as [H _]; [vm_compute; reflexivity|reflexivity|].
    apply H. reflexivity.
Defined.

(** X20.  A public field serializes to [None].  [FieldBase.serialize]
    hands the validator what [get()] returns, and for a public field that
    is the [None] of [read()].  So when the slot of a public field holds
    data that decodes, the decoded value is refreshed in memory and the
    serialized form is [None] whatever the slot holds; with
    [MatrixValidator], which indexes the value, the result is a
    [TypeError] instead. *)
Theorem public_field_serializes_None (MetaNode_ : pyval -> M ref) (st : state)
  (f : fref) (x : field) (n : node) (s : attr) (v : pyval) :
  bound st f x n ->
  f_class x = PublicField ->
  slot_of n x = Some s -> a_multi s = false ->
  a_value s <> VNone ->
  from_attribute MetaNode_ (validator x) (a_value s) st = (Ok v, st) ->
  field_serialize MetaNode_ f st
  = (match validator x with
     | MatrixValidator =>
         Raise (TypeError "object has no attribute '__getitem__'")
     | _ => Ok VNone
     end,
     with_fields st (set_nth f (with_value x v) (st_fields st))).
Proof.
  intros Hb Hc Hs Hmulti Hnn Hdec. pose proof Hb as [Hf _].
  assert (Hread : Field_read MetaNode_ f st
                  = (Ok VNone, with_fields st (set_nth f (with_value x v)
                                                       (st_fields st)))).
  { rewrite (Field_read_run MetaNode_ _ _ _ _ _ Hb Hs Hmulti).
    assert (Hrun : (v0 <- from_attribute MetaNode_ (validator x) (a_value s) ;;
                    set_value f v0 ;;; ret VNone) st
                   = (Ok VNone, with_fields st (set_nth f (with_value x v)
                                                        (st_fields st)))).
    { rewrite (bind_ok _ _ _ _ _ Hdec).
      now rewrite (bind_ok _ _ _ _ _ (set_value_run _ _ _ _ Hf)). }
    destruct (a_value s); try exact Hrun. congruence. }
  unfold field_serialize.
  rewrite (bind_ok _ _ _ _ _ (get_field_ok _ _ _ Hf)). rewrite Hc.
  unfold FieldBase_serialize.
  rewrite (bind_ok _ _ _ _ _ (get_field_ok _ _ _ Hf)).
  erewrite bind_ok.
  2:{ unfold get. rewrite (bind_ok _ _ _ _ _ (get_field_ok _ _ _ Hf)). rewrite Hc.
      unfold PublicField_get, read.
      rewrite (bind_ok _ _ _ _ _ (get_field_ok _ _ _ Hf)). rewrite Hc.
      exact Hread. }
  destruct (validator x); reflexivity.
Qed.

(** Witness for X20: a public integer field whose slot holds 10. *)
Lemma public_field_serializes_None_witness :
  let st := after new_transform
              (declare_and_set IntValidator "speed" public false (VInt 10)) in
  getAttr "transform1" "speed" (st_scene st) = Ok (VInt 10) /\
  fst (field_serialize MetaNode 4%nat st) = Ok VNone.
Proof.
  intros st. split; [vm_compute; reflexivity|].
  rewrite (public_field_serializes_None MetaNode st 4%nat
             (mkField PublicField IntValidator TLong 0%nat "speed" (VInt 10))
             (wrapped_node [("speed", mkAttr TLong false (VInt 10) [] false false true)])
             (mkAttr TLong false (VInt 10) [] false false true) (VInt 10)).
  - reflexivity.
  - bound_here.
  - reflexivity.
  - reflexivity.
  - reflexivity.
  - discriminate.
  - reflexivity.
Defined.

Lemma matrix_entries (m : list pyfloat) :
  List.length m = 16%nat ->
  rmap (py_getitem (VMatrix m)) (seq 0 16) = Ok (map VFloat m).
Proof.
  intros H.
  do 16 (destruct m as [|? m]; [discriminate H|]).
  destruct m; [reflexivity|discriminate H].
Qed.

(** X21.  A matrix serializes to what the scene stores for it.  For a
    matrix of sixteen entries, [MatrixValidator.serialize] returns the
    flat list of the entries, row by row; it is the list that [setAttr]
    keeps for the encoded matrix, and decoding it gives the matrix
    back. *)
Theorem matrix_serializes_flat (MetaNode_ : pyval -> M ref) (m : list pyfloat)
  (st : state) :
  List.length m = 16%nat ->
  serialize MatrixValidator (VMatrix m) st = (Ok (VList (map VFloat m)), st) /\
  (exists raw,
     to_attribute MatrixValidator (VMatrix m) st = (Ok raw, st) /\
     coerce TMatrix (set_attribute_kwargs MatrixValidator) raw
     = Ok (VList (map VFloat m))) /\
  from_attribute MetaNode_ MatrixValidator (VList (map VFloat m)) st
  = (Ok (VMatrix m), st).
Proof.
  intros H. split; [|split].
  - unfold serialize, bind, lift, ret. now rewrite (matrix_entries m H).
  - exists (VMatrix m). split; [reflexivity|]. simpl. now rewrite H.
  - unfold from_attribute, lift. simpl. now rewrite floats_of_floats, H.
Qed.

Lemma matrix_serializes_flat_witness :
  serialize MatrixValidator (VMatrix identity_matrix)
            (fresh_process new_transform [])
  = (Ok (VList (map VFloat identity_matrix)), fresh_process new_transform []).
Proof.
  apply (matrix_serializes_flat MetaNode identity_matrix
           (fresh_process new_transform []) eq_refl).
Defined.

Lemma plain_field_serializes (MetaNode_ : pyval -> M ref) (st : state)
  (f : fref) (x : field) :
  nth_error (st_fields st) f = Some x ->
  f_class x <> PublicField -> plain_validator (validator x) = true ->
  field_serialize MetaNode_ f st = (Ok (serialized_at st f), st).
Proof.
  intros Hf Hc Hp.
  assert (Hg : get MetaNode_ f st = (Ok (_value x), st))
    by (apply Field_get_run; assumption).
  assert (Hs : forall value, serialize (validator x) value st = (Ok value, st))
    by (intros value; destruct (validator x); try discriminate; reflexivity).
  unfold field_serialize, serialized_at, serialized.
  rewrite (bind_ok _ _ _ _ _ (get_field_ok _ _ _ Hf)). rewrite Hf.
  destruct (f_class x); try congruence.
  - unfold FieldBase_serialize.
    rewrite (bind_ok _ _ _ _ _ (get_field_ok _ _ _ Hf)).
    rewrite (bind_ok _ _ _ _ _ Hg). apply Hs.
  - unfold MultiField_serialize. rewrite (bind_ok _ _ _ _ _ Hg).
    destruct (py_truth (_value x)); [|reflexivity].
    rewrite (bind_ok _ _ _ _ _ (get_field_ok _ _ _ Hf)). apply Hs.
Qed.

Lemma serialize_items_run (MetaNode_ : pyval -> M ref) (st : state)
  (items : list (string * fref)) :
  (forall name f, In (name, f) items ->
     exists x, nth_error (st_fields st) f = Some x /\
               f_class x <> PublicField /\ plain_validator (validator x) = true) ->
  forall data,
    serialize_items MetaNode_ items data st
    = (Ok (fold_left (fun d kv => dict_set (fst kv) (serialized_at st (snd kv)) d)
                     items data), st).
Proof.
  induction items as [|[name f] items IH]; intros H data; simpl; [reflexivity|].
  destruct (H name f (or_introl eq_refl)) as [x [Hf [Hc Hp]]].
  rewrite (bind_ok _ _ _ _ _ (plain_field_serializes MetaNode_ _ _ _ Hf Hc Hp)).
  apply IH. intros name' f' Hin. apply (H name' f'). now right.
Qed.

Lemma fold_dict_set_other {V} (val : fref -> V) (items : list (string * fref))
  (name : string) :
  dict_has name items = false ->
  forall data,
    dict_get name (fold_left (fun d kv => dict_set (fst kv) (val (snd kv)) d)
                             items data)
    = dict_get name data.
Proof.
  unfold dict_has. induction items as [|[k f] items IH]; intros H data; simpl;
    [reflexivity|].
  simpl in H. destruct (String.eqb name k) eqn:E; [discriminate|].
  rewrite (IH H). apply dict_get_set_other.
  intros ->. now rewrite String.eqb_refl in E.
Qed.

Lemma fold_dict_set_same {V} (val : fref -> V) (items : list (string * fref))
  (name : string) (f : fref) :
  unique_keys items = true ->
  dict_get name items = Some f ->
  forall data,
    dict_get name (fold_left (fun d kv => dict_set (fst kv) (val (snd kv)) d)
                             items data)
    = Some (val f).
Proof.
  induction items as [|[k f0] items IH]; intros Hu Hg data; simpl in *;
    [discriminate|].
  apply andb_prop in Hu. destruct Hu as [Hk Hu]. apply negb_true_iff in Hk.
  destruct (String.eqb name k) eqn:E.
  - apply String.eqb_eq in E. subst k. injection Hg as <-.
    rewrite (fold_dict_set_other val items name Hk). apply dict_get_set_same.
  - now apply IH.
Qed.

(** X22.  [MetaNode.serialize] reports what is in memory.  For an
    instance that wraps a node and whose fields are all private, single or
    multi, with validators whose [serialize] is the identity: [serialize()]
    returns a dict and changes nothing.  The dict maps [uuid] to the
    durable id of the node, unless a field is itself called [uuid], and
    maps the name of every field to the value the field holds in memory
    (the empty list for a multi field holding a false value), whether or
    not that value has been flushed to the scene. *)
Theorem serialize_reports_memory (MetaNode_ : pyval -> M ref) (st : state)
  (r : ref) (m : metanode) (n : node) :
  wraps st r m n ->
  unique_keys (fields m) = true ->
  (forall name f, In (name, f) (fields m) ->
     exists x, nth_error (st_fields st) f = Some x /\
               f_class x <> PublicField /\ plain_validator (validator x) = true) ->
  exists data,
    MetaNode_serialize MetaNode_ r st = (Ok (VDict data), st) /\
    (dict_has "uuid" (fields m) = false ->
     dict_get "uuid" data = Some (VStr (n_uuid n))) /\
    (forall name f, dict_get name (fields m) = Some f ->
       dict_get name data = Some (serialized_at st f)).
Proof.
  intros Hw Hu Hall. pose proof Hw as [Hm _].
  eexists. split; [|split].
  - unfold MetaNode_serialize.
    rewrite (bind_ok _ _ _ _ _ (wraps_uuid _ _ _ _ Hw)).
    rewrite (bind_ok _ _ _ _ _ (get_metanode_ok _ _ _ Hm)).
    rewrite (bind_ok _ _ _ _ _ (serialize_items_run MetaNode_ st _ Hall _)).
    reflexivity.
  - intros Hno. rewrite (fold_dict_set_other _ _ _ Hno). reflexivity.
  - intros name f Hg. now apply fold_dict_set_same.
Qed.

(** Witness for X22: [count] holds 10 in memory and 0 in the scene. *)
Lemma serialize_reports_memory_witness :
  let st := after new_transform
              (declare_and_set IntValidator "count" private false (VInt 10)) in
  exists data,
    MetaNode_serialize MetaNode 0%nat st = (Ok (VDict data), st) /\
    dict_get "uuid" data = Some (VStr "UUID-1") /\
    dict_get "count" data = Some (VInt 10) /\
    getAttr "transform1" "count" (st_scene st) = Ok (VInt 0).
Proof.
  intros st.
  destruct (serialize_reports_memory MetaNode st 0%nat
              (mkMetaNode "MetaNode" "UUID-1"
                 [("metanode_fields", 1%nat); ("metanode_type", 2%nat);
                  ("is_initialized", 3%nat); ("count", 4%nat)])
              (wrapped_node [("count", fresh_slot TLong false)]))
    as [data [Hrun [Hu Hf]]].
  - split; [vm_compute; reflexivity|split; vm_compute; reflexivity].
  - reflexivity.
  - intros name f Hin. simpl in Hin.
    destruct Hin as [[= <- <-]|[[= <- <-]|[[= <- <-]|[[= <- <-]|[]]]]];
      eexists; (split; [vm_compute; reflexivity|split; [discriminate|reflexivity]]).
  - exists data. split; [exact Hrun|]. split; [apply Hu; reflexivity|].
    split; [|vm_compute; reflexivity].
    rewrite (Hf "count" 4%nat eq_refl). vm_compute. reflexivity.
Defined.
(** ** Multi fields *)

Lemma dict_set_same_value {V} (k : string) (v : V) (d : list (string * V)) :
  dict_get k d = Some v -> dict_set k v d = d.
Proof.
  induction d as [|[k0 v0] d IH]; simpl; [discriminate|].
  destruct (String.eqb k k0) eqn:E.
  - now intros [= ->].
  - intros H. now rewrite IH.
Qed.

Lemma set_node_attrs_same (sc : scene) (n : node) :
  find_node (n_name n) sc = Some n ->
  set_node_attrs (n_name n) (n_attrs n) sc = sc.
Proof.
  induction sc as [|h sc IH]; simpl; [discriminate|].
  destruct (String.eqb (n_name n) (n_name h)) eqn:E.
  - intros [= ->]. now destruct n.
  - intros H. now rewrite IH.
Qed.

Lemma reslot_same (st : state) (f : fref) (x : field) (n : node) (s : attr) :
  bound st f x n -> slot_of n x = Some s -> reslot st n (f_name x) s = st.
Proof.
  intros [_ [m [_ [_ Hn]]]] Hs. unfold reslot, store_attr. rewrite Hn.
  rewrite (dict_set_same_value _ _ _ Hs), (set_node_attrs_same _ _ Hn).
  now destruct st.
Qed.

Lemma reslot_bound (st : state) (f : fref) (x : field) (n : node) (s : attr) :
  bound st f x n ->
  bound (reslot st n (f_name x) s) f x (renode n (f_name x) s).
Proof. apply bound_store. Qed.

Lemma reslot_lookup (st : state) (f : fref) (x : field) (n : node) (s : attr) :
  bound st f x n ->
  lookup_attr (n_name n) (f_name x) (st_scene (reslot st n (f_name x) s)) = Ok s.
Proof.
  intros Hb.
  apply (bound_slot _ _ _ _ _ (reslot_bound _ _ _ _ s Hb)).
  unfold slot_of, renode. simpl. apply dict_get_set_same.
Qed.

Lemma reslot_path (st : state) (f : fref) (x : field) (n : node) (s : attr) :
  bound st f x n ->
  Field_path f (reslot st n (f_name x) s)
  = (Ok (n_name n, f_name x), reslot st n (f_name x) s).
Proof. intros Hb. apply (bound_path _ _ _ _ (reslot_bound _ _ _ _ s Hb)). Qed.

Lemma reslot_reslot (st : state) (n : node) (a : string) (s s' : attr) :
  with_scene (reslot st n a s)
             (store_attr (n_name n) a s' (st_scene (reslot st n a s)))
  = reslot st n a s'.
Proof. unfold reslot, with_scene. simpl. now rewrite store_attr_twice. Qed.

(** A command on the slot of a field, after its path was asked for. *)
Lemma reslot_command (st : state) (f : fref) (x : field) (n : node)
  (cur new : attr) (c : string -> string -> scene -> result scene) :
  bound st f x n ->
  (forall sc, lookup_attr (n_name n) (f_name x) sc = Ok cur ->
              c (n_name n) (f_name x) sc
              = Ok (store_attr (n_name n) (f_name x) new sc)) ->
  ('(p, a) <- Field_path f ;; command (c p a)) (reslot st n (f_name x) cur)
  = (Ok tt, reslot st n (f_name x) new).
Proof.
  intros Hb Hc. rewrite (bind_ok _ _ _ _ _ (reslot_path _ _ _ _ cur Hb)).
  rewrite (command_ok _ _ _ (Hc _ (reslot_lookup _ _ _ _ cur Hb))).
  now rewrite reslot_reslot.
Qed.

Lemma with_elems_same (s : attr) : with_elems s (a_elems s) = s.
Proof. now destruct s. Qed.

Lemma lock_first_nth (k : nat) (b : bool) (l : list (pyval * bool)) :
  nth_error (lock_first k b l) k = nth_error l k.
Proof.
  revert l. induction k as [|k IH]; intros [|e l]; simpl; auto.
Qed.

Lemma lock_first_step (k : nat) (b : bool) (l : list (pyval * bool))
  (v : pyval) (lk : bool) :
  nth_error l k = Some (v, lk) ->
  set_nth k (v, b) (lock_first k b l) = lock_first (S k) b l.
Proof.
  revert l. induction k as [|k IH]; intros [|e l]; simpl; try discriminate.
  - now intros [= ->].
  - intros H. rewrite (IH l H). reflexivity.
Qed.

Lemma lock_first_all (b : bool) (l : list (pyval * bool)) :
  lock_first (List.length l) b l = lock_all b l.
Proof. induction l as [|e l IH]; simpl; [reflexivity|]. now rewrite IH. Qed.

Lemma lock_loop_run (st : state) (f : fref) (x : field) (n : node)
  (cur : attr) (b : bool) (k : nat) :
  bound st f x n ->
  (k <= List.length (a_elems cur))%nat ->
  for_range k (fun i => '(p, a) <- Field_path f ;;
                        command (setAttr_elem_lock p a i b))
            (reslot st n (f_name x) cur)
  = (Ok tt, reslot st n (f_name x)
                   (with_elems cur (lock_first k b (a_elems cur)))).
Proof.
  intros Hb. induction k as [|k IH]; intros Hk.
  - simpl. unfold ret. destruct (a_elems cur) eqn:E; simpl; rewrite <- E;
      now rewrite with_elems_same.
  - cbn [for_range]. rewrite (bind_ok _ _ _ _ _ (IH ltac:(lia))).
    destruct (nth_error (a_elems cur) k) as [[v lk]|] eqn:En.
    2:{ apply nth_error_None in En. lia. }
    apply (reslot_command st f x n _ _
             (fun p a => setAttr_elem_lock p a k b) Hb).
    intros sc Hl. unfold setAttr_elem_lock. rewrite Hl. simpl.
    rewrite lock_first_nth, En. rewrite (lock_first_step _ _ _ _ _ En).
    reflexivity.
Qed.

(** Locking or unlocking every element of the slot. *)
Lemma lock_elements_run (st : state) (f : fref) (x : field) (n : node)
  (cur : attr) (b : bool) :
  bound st f x n ->
  lock_elements f b (reslot st n (f_name x) cur)
  = (Ok tt, reslot st n (f_name x) (with_elems cur (lock_all b (a_elems cur)))).
Proof.
  intros Hb. unfold lock_elements.
  erewrite bind_ok.
  2:{ apply (iter_elements_run _ _ _ _ cur (reslot_bound _ _ _ _ cur Hb)).
      unfold slot_of, renode. simpl. apply dict_get_set_same. }
  rewrite (lock_loop_run st f x n cur b _ Hb (le_n _)).
  now rewrite lock_first_all.
Qed.

(** [_clear_maya_attribute]: whatever the slot held. *)
Lemma clear_maya_attribute_run (st : state) (f : fref) (x : field) (n : node)
  (cur : attr) :
  bound st f x n ->
  clear_maya_attribute f (reslot st n (f_name x) cur)
  = (Ok tt, reslot st n (f_name x) (cleared cur)).
Proof.
  intros Hb. unfold clear_maya_attribute.
  change (('(p, a) <- Field_path f ;;
           command (setAttr_lock p a false) ;;;
           lock_elements f false ;;;
           '(p', a') <- Field_path f ;; command (removeMultiInstance p' a'))
            (reslot st n (f_name x) cur)
          = (Ok tt, reslot st n (f_name x) (cleared cur))).
  rewrite (bind_ok _ _ _ _ _ (reslot_path _ _ _ _ cur Hb)).
  erewrite bind_ok.
  2:{ apply command_ok. unfold setAttr_lock.
      rewrite (reslot_lookup _ _ _ _ cur Hb). reflexivity. }
  rewrite reslot_reslot.
  rewrite (bind_ok _ _ _ _ _ (lock_elements_run st f x n _ false Hb)).
  apply (reslot_command st f x n _ _ removeMultiInstance Hb).
  intros sc Hl. unfold removeMultiInstance. rewrite Hl. reflexivity.
Qed.

(** Writing the elements one after the other, each at the first free
    index of an unlocked multi slot that is not driven. *)
Lemma write_elements_run (st : state) (f : fref) (x : field) (n : node)
  (v : validator_class) (values stored : list pyval) :
  bound st f x n ->
  Forall2 (stores_as v (create_attribute_kwargs x)) values stored ->
  forall cur,
    a_type cur = create_attribute_kwargs x ->
    a_locked cur = false -> a_connected cur = false -> a_multi cur = true ->
    write_elements f v (List.length (a_elems cur)) values
                   (reslot st n (f_name x) cur)
    = (Ok tt, reslot st n (f_name x)
                     (with_elems cur (a_elems cur
                                        ++ map (fun w => (w, false)) stored))).
Proof.
  intros Hb HF. induction HF as [|value st0 values stored [raw [He Hco]] HF IH];
    intros cur Ht Hl Hc Hm.
  - simpl. unfold ret. now rewrite app_nil_r, with_elems_same.
  - cbn [write_elements]. rewrite (bind_ok _ _ _ _ _ (He _)).
    rewrite (bind_ok _ _ _ _ _ (reslot_path _ _ _ _ cur Hb)).
    erewrite bind_ok.
    2:{ apply command_ok. unfold setAttr_elem.
        rewrite (reslot_lookup _ _ _ _ cur Hb). simpl.
        rewrite Hl, Hc, Hm, Ht, Hco. simpl.
        rewrite Nat.ltb_irrefl, Nat.eqb_refl. reflexivity. }
    rewrite reslot_reslot.
    set (cur' := mkAttr _ _ _ _ _ _ _).
    assert (Hlen : S (List.length (a_elems cur)) = List.length (a_elems cur'))
      by (unfold cur'; simpl; rewrite length_app; simpl; lia).
    rewrite Hlen, (IH cur' eq_refl eq_refl eq_refl eq_refl).
    unfold cur', with_elems. simpl. now rewrite Ht, Hl, Hc, Hm, <- app_assoc.
Qed.

Lemma py_iter_list (l : list pyval) : py_iter (VList l) = Ok l.
Proof. reflexivity. Qed.

(** [MultiField.write]: the slot is emptied and refilled. *)
Lemma MultiField_write_run (st : state) (f : fref) (x : field) (n : node)
  (s : attr) (values stored : list pyval) :
  bound st f x n -> f_class x = MultiField ->
  slot_of n x = Some s ->
  a_multi s = true -> a_type s = create_attribute_kwargs x ->
  py_iter (_value x) = Ok values ->
  Forall2 (stores_as (validator x) (create_attribute_kwargs x)) values stored ->
  write f st = (Ok tt, reslot st n (f_name x) (rewritten s stored)).
Proof.
  intros Hb Hc Hs Hm Ht Hv HF. pose proof Hb as [Hf _].
  rewrite <- (reslot_same st f x n s Hb Hs) at 1.
  assert (Hf' : forall cur, nth_error (st_fields (reslot st n (f_name x) cur)) f
                            = Some x) by (intros cur; exact Hf).
  unfold write. rewrite (bind_ok _ _ _ _ _ (get_field_ok _ _ _ (Hf' s))).
  rewrite Hc. unfold MultiField_write.
  rewrite (bind_ok _ _ _ _ _ (get_field_ok _ _ _ (Hf' s))).
  unfold MultiField_protect_attribute.
  rewrite (bind_ok _ _ _ _ _ (lock_elements_run st f x n s false Hb)).
  erewrite bind_ok.
  2:{ rewrite (bind_ok _ _ _ _ _ (clear_maya_attribute_run st f x n _ Hb)).
      unfold lift at 1. unfold bind at 1. rewrite Hv.
      apply (write_elements_run st f x n (validator x) values stored Hb HF
               (cleared (with_elems s (lock_all false (a_elems s))))).
      - exact Ht.
      - reflexivity.
      - reflexivity.
      - exact Hm. }
  rewrite (bind_ok _ _ _ _ _ (lock_elements_run st f x n _ true Hb)).
  unfold ret. f_equal. f_equal. unfold rewritten, with_elems, cleared, lock_all.
  simpl. rewrite map_map. reflexivity.
Qed.

(** X23.  [MultiField.write] replaces the stored sequence.  For a private
    multi field whose slot is a multi slot of the validator's type, when
    every element of the value in memory encodes to something Maya accepts:
    [write()] returns normally and only the scene changes.  Afterwards the
    slot holds exactly the stored forms of the elements, in order, each
    element locked; what the slot held before is gone, incoming
    connections are broken, and the attribute itself is left unlocked.
    This holds whatever the slot held and whether or not it was locked or
    driven. *)
Theorem MultiField_write_replaces (st : state) (f : fref) (x : field)
  (n : node) (s : attr) (values stored : list pyval) :
  bound st f x n -> f_class x = MultiField ->
  slot_of n x = Some s ->
  a_multi s = true -> a_type s = create_attribute_kwargs x ->
  py_iter (_value x) = Ok values ->
  Forall2 (stores_as (validator x) (create_attribute_kwargs x)) values stored ->
  exists st' s',
    write f st = (Ok tt, st') /\
    st' = with_scene st (st_scene st') /\
    bound st' f x (renode n (f_name x) s') /\
    lookup_attr (n_name n) (f_name x) (st_scene st') = Ok s' /\
    a_elems s' = map (fun w => (w, true)) stored /\
    a_locked s' = false /\ a_connected s' = false /\
    (forall a, a <> f_name x ->
       lookup_attr (n_name n) a (st_scene st')
       = lookup_attr (n_name n) a (st_scene st)).
Proof.
  intros Hb Hc Hs Hm Ht Hv HF.
  exists (reslot st n (f_name x) (rewritten s stored)), (rewritten s stored).
  split; [apply (MultiField_write_run _ _ _ _ _ _ _ Hb Hc Hs Hm Ht Hv HF)|].
  split; [reflexivity|]. split; [apply reslot_bound; exact Hb|].
  split; [apply (reslot_lookup st f); exact Hb|].
  split; [reflexivity|]. split; [reflexivity|]. split; [reflexivity|].
  intros a Ha. destruct Hb as [_ [m [_ [_ Hn]]]].
  unfold reslot, lookup_attr, store_attr. simpl. rewrite Hn.
  rewrite (find_node_set_attrs _ _ _ _ Hn). simpl.
  now rewrite dict_get_set_other by congruence.
Qed.

(** Witness for X23: the driven integer array of stored elements 1, 2
    receives the sequence [9] held in memory. *)
Lemma MultiField_write_replaces_witness :
  let st := after driven_array_transform
              (declare_and_set IntValidator "weights" private true (VList [VInt 9])) in
  exists st' s',
    write 4%nat st = (Ok tt, st') /\
    lookup_attr "transform1" "weights" (st_scene st') = Ok s' /\
    a_elems s' = [(VInt 9, true)] /\ a_connected s' = false.
Proof.
  intros st.
  destruct (MultiField_write_replaces st 4%nat
              (mkField MultiField IntValidator TLong 0%nat "weights" (VList [VInt 9]))
              (mkNode "transform1" "UUID-1"
                 [("weights", mkAttr TLong true (VInt 0)
                                [(VInt 1, false); (VInt 2, false)] false true false);
                  ("metanode_fields", fresh_slot TString false);
                  ("metanode_type", fresh_slot TString false);
                  ("is_initialized", fresh_slot TBool false)])
              (mkAttr TLong true (VInt 0) [(VInt 1, false); (VInt 2, false)]
                      false true false)
              [VInt 9] [VInt 9])
    as [st' [s' [Hw [_ [_ [Hl [He [_ [Hc _]]]]]]]]].
  - bound_here.
  - reflexivity.
  - reflexivity.
  - reflexivity.
  - reflexivity.
  - reflexivity.
  - constructor; [|constructor]. exists (VInt 9). split; reflexivity.
  - exists st', s'. split; [exact Hw|]. split; [exact Hl|]. split; [exact He|exact Hc].
Defined.

Lemma firstn_snoc {A} (l : list A) (k : nat) (x : A) :
  nth_error l k = Some x -> firstn (S k) l = (firstn k l ++ [x])%list.
Proof.
  revert l. induction k as [|k IH]; intros [|h l]; simpl; try discriminate.
  - now intros [= ->].
  - intros H. now rewrite <- (IH l H).
Qed.

Lemma Forall2_nth {A B} (P : A -> B -> Prop) (l1 : list A) (l2 : list B)
  (k : nat) (a : A) :
  Forall2 P l1 l2 -> nth_error l1 k = Some a ->
  exists b, nth_error l2 k = Some b /\ P a b.
Proof.
  intros HF. revert k. induction HF as [|x y l1 l2 Hxy HF IH]; intros [|k];
    simpl; try discriminate.
  - intros [= <-]. eauto.
  - apply IH.
Qed.

(** Reading the first [k] elements of a slot whose elements all decode
    without touching the state. *)
Lemma read_elements_run (MetaNode_ : pyval -> M ref) (st : state) (f : fref)
  (x : field) (n : node) (cur : attr) (values : list pyval) (k : nat) :
  bound st f x n -> slot_of n x = Some cur ->
  Forall2 (fun e value =>
             from_attribute MetaNode_ (validator x) (fst e) st = (Ok value, st))
          (a_elems cur) values ->
  (k <= List.length (a_elems cur))%nat ->
  read_elements MetaNode_ f k st = (Ok (firstn k values), st).
Proof.
  intros Hb Hs HF. pose proof Hb as [Hf _].
  induction k as [|k IH]; intros Hk; [reflexivity|].
  cbn [read_elements]. rewrite (bind_ok _ _ _ _ _ (IH ltac:(lia))).
  rewrite (bind_ok _ _ _ _ _ (bound_path _ _ _ _ Hb)).
  destruct (nth_error (a_elems cur) k) as [[raw lk]|] eqn:En.
  2:{ apply nth_error_None in En. lia. }
  destruct (Forall2_nth _ _ _ _ _ HF En) as [value [Hv Hdec]].
  erewrite bind_ok.
  2:{ rewrite query_run. unfold getAttr_elem.
      rewrite (bound_slot _ _ _ _ _ Hb Hs). simpl. rewrite En. reflexivity. }
  rewrite (bind_ok _ _ _ _ _ (get_field_ok _ _ _ Hf)).
  rewrite (bind_ok _ _ _ _ _ Hdec). unfold ret.
  now rewrite (firstn_snoc _ _ _ Hv).
Qed.

Lemma native_stores (MetaNode_ : pyval -> M ref) (v : validator_class)
  (t : attr_type) (values : list pyval) :
  Forall (fun value => native v t value = true) values ->
  exists stored,
    Forall2 (stores_as v t) values stored /\
    forall st,
      Forall2 (fun e value =>
                 from_attribute MetaNode_ v (fst e) st = (Ok value, st))
              (map (fun w => (w, true)) stored) values.
Proof.
  induction 1 as [|value values Hn _ [stored [HF HD]]].
  - exists []. split; [constructor|]. intros st. constructor.
  - destruct (native_codec MetaNode_ _ _ _ Hn) as [raw [st0 [He [Hco [_ Hd]]]]].
    exists (st0 :: stored). split.
    + constructor; [exists raw; auto|exact HF].
    + intros st. simpl. constructor; [apply Hd|apply HD].
Qed.

(** X24.  Flush and reload of a private multi field.  When the value in
    memory is a list of values the validator keeps as they are ([native])
    and the slot is a multi slot of the validator's type, [write()]
    followed by [read()] both return normally and the field object ends
    as it started: the list read back is the list that was written,
    element by element and in order. *)
Theorem multi_write_then_read_restores (MetaNode_ : pyval -> M ref)
  (st : state) (f : fref) (x : field) (n : node) (s : attr)
  (values : list pyval) :
  bound st f x n -> f_class x = MultiField ->
  slot_of n x = Some s ->
  a_multi s = true -> a_type s = create_attribute_kwargs x ->
  _value x = VList values ->
  Forall (fun value =>
            native (validator x) (create_attribute_kwargs x) value = true)
         values ->
  exists st',
    write f st = (Ok tt, st') /\
    read MetaNode_ f st' = (Ok VNone, st') /\
    nth_error (st_fields st') f = Some x /\
    numElements (n_name n) (f_name x) (st_scene st') = Ok (List.length values).
Proof.
  intros Hb Hc Hs Hm Ht Hv Hnat. pose proof Hb as [Hf _].
  destruct (native_stores MetaNode_ _ _ _ Hnat) as [stored [HF HD]].
  assert (Hit : py_iter (_value x) = Ok values) by now rewrite Hv.
  pose proof (MultiField_write_run _ _ _ _ _ _ _ Hb Hc Hs Hm Ht Hit HF) as Hw.
  set (st' := reslot st n (f_name x) (rewritten s stored)) in *.
  pose proof (reslot_bound st f x n (rewritten s stored) Hb) as Hb'.
  assert (Hs' : slot_of (renode n (f_name x) (rewritten s stored)) x
                = Some (rewritten s stored))
    by (unfold slot_of, renode; simpl; apply dict_get_set_same).
  assert (Hlen : List.length (a_elems (rewritten s stored)) = List.length values).
  { simpl. rewrite length_map. symmetry. apply (Forall2_length HF). }
  pose proof Hb' as [Hf' _].
  exists st'. split; [exact Hw|]. split; [|split; [exact Hf|]].
  - unfold read. rewrite (bind_ok _ _ _ _ _ (get_field_ok _ _ _ Hf')). rewrite Hc.
    unfold MultiField_read.
    rewrite (bind_ok _ _ _ _ _ (iter_elements_run _ _ _ _ _ Hb' Hs')).
    rewrite (bind_ok _ _ _ _ _
               (read_elements_run MetaNode_ st' f x _ _ values _ Hb' Hs'
                                  (HD st') (le_n _))).
    rewrite Hlen, firstn_all.
    rewrite (bind_ok _ _ _ _ _ (set_value_run _ _ _ _ Hf')).
    rewrite <- Hv, with_value_same, (set_nth_same _ _ _ Hf').
    reflexivity.
  - unfold numElements.
    pose proof (reslot_lookup st f x n (rewritten s stored) Hb) as Hl.
    fold st' in Hl. rewrite Hl. simpl rbind. f_equal. exact Hlen.
Qed.

(** Witness for X24: the integers 0, 1, 2, 3 of a private multi field. *)
Lemma multi_write_then_read_restores_witness :
  let st := after new_transform
              (declare_and_set IntValidator "indices" private true
                               (VList [VInt 0; VInt 1; VInt 2; VInt 3])) in
  exists st',
    write 4%nat st = (Ok tt, st') /\
    read MetaNode 4%nat st' = (Ok VNone, st') /\
    get MetaNode 4%nat st' = (Ok (VList [VInt 0; VInt 1; VInt 2; VInt 3]), st') /\
    numElements "transform1" "indices" (st_scene st') = Ok 4%nat.
Proof.
  intros st.
  destruct (multi_write_then_read_restores MetaNode st 4%nat
              (mkField MultiField IntValidator TLong 0%nat "indices"
                       (VList [VInt 0; VInt 1; VInt 2; VInt 3]))
              (wrapped_node [("indices", mkAttr TLong true (VInt 0) [] false false false)])
              (mkAttr TLong true (VInt 0) [] false false false)
              [VInt 0; VInt 1; VInt 2; VInt 3])
    as [st' [Hw [Hr [Hf Hn]]]].
  - bound_here.
  - reflexivity.
  - reflexivity.
  - reflexivity.
  - reflexivity.
  - reflexivity.
  - repeat constructor.
  - exists st'. split; [exact Hw|]. split; [exact Hr|]. split; [|exact Hn].
    apply (Field_get_run MetaNode st' 4%nat _ Hf). discriminate.
Defined.

(** X25.  [MultiField.clear] empties the field in memory and in the
    scene.  For a field of a wrapped node whose slot exists, whatever the
    slot holds and whether or not it or its elements are locked or driven:
    [clear()] returns normally; the value in memory is the empty list, so
    [get()] returns [[]]; the slot has no element left, and it is left
    unlocked with its incoming connections broken. *)
Theorem MultiField_clear_empties (MetaNode_ : pyval -> M ref) (st : state)
  (f : fref) (x : field) (n : node) (s : attr) :
  bound st f x n -> f_class x = MultiField ->
  slot_of n x = Some s ->
  exists st',
    MultiField_clear f st = (Ok tt, st') /\
    get MetaNode_ f st' = (Ok (VList []), st') /\
    lookup_attr (n_name n) (f_name x) (st_scene st') = Ok (cleared s) /\
    numElements (n_name n) (f_name x) (st_scene st') = Ok 0%nat.
Proof.
  intros Hb Hc Hs. pose proof Hb as [Hf _].
  pose proof (bound_with_value _ _ _ _ (VList []) Hb) as Hb1.
  set (st1 := with_fields st _) in *.
  assert (Hs1 : slot_of n (with_value x (VList [])) = Some s) by exact Hs.
  assert (Hrun : MultiField_clear f st
                 = (Ok tt, reslot st1 n (f_name x) (cleared s))).
  { unfold MultiField_clear.
    rewrite (bind_ok _ _ _ _ _ (set_value_run _ _ _ _ Hf)). fold st1.
    rewrite <- (reslot_same st1 f _ n s Hb1 Hs1) at 1.
    apply (clear_maya_attribute_run st1 f _ n s Hb1). }
  exists (reslot st1 n (f_name x) (cleared s)). split; [exact Hrun|].
  pose proof (reslot_lookup st1 f _ n (cleared s) Hb1) as Hl.
  cbn [f_name with_value] in Hl.
  split; [|split; [exact Hl|]].
  - pose proof (reslot_bound st1 f _ n (cleared s) Hb1) as [Hf2 _].
    cbn [f_name with_value] in Hf2.
    apply (Field_get_run MetaNode_ _ f _ Hf2). simpl. congruence.
  - unfold numElements. rewrite Hl. reflexivity.
Qed.

(** Witness for X25: the test of the library, [0, 1, 2, 3] set, flushed
    and cleared. *)
Lemma MultiField_clear_empties_witness :
  let st := after new_transform
              (f <- declare_and_set IntValidator "indices" private true
                                    (VList [VInt 0; VInt 1; VInt 2; VInt 3]) ;;
               write f) in
  exists st',
    numElements "transform1" "indices" (st_scene st) = Ok 4%nat /\
    MultiField_clear 4%nat st = (Ok tt, st') /\
    get MetaNode 4%nat st' = (Ok (VList []), st') /\
    numElements "transform1" "indices" (st_scene st') = Ok 0%nat.
Proof.
  intros st.
  destruct (MultiField_clear_empties MetaNode st 4%nat
              (mkField MultiField IntValidator TLong 0%nat "indices"
                       (VList [VInt 0; VInt 1; VInt 2; VInt 3]))
              (wrapped_node
                 [("indices", mkAttr TLong true (VInt 0)
                                [(VInt 0, true); (VInt 1, true); (VInt 2, true);
                                 (VInt 3, true)] false false false)])
              (mkAttr TLong true (VInt 0)
                      [(VInt 0, true); (VInt 1, true); (VInt 2, true);
                       (VInt 3, true)] false false false))
    as [st' [Hc [Hg [_ Hn]]]].
  - bound_here.
  - reflexivity.
  - reflexivity.
  - exists st'. split; [vm_compute; reflexivity|].
    split; [exact Hc|]. split; [exact Hg|exact Hn].
Defined.
(** ** Reading, and what field operations leave alone *)

(** X26.  [Field.read] keeps, refreshes or fails.  On a single slot:
    when the slot has no data, as a text slot nobody has written, [read()]
    returns and nothing changes, so the value in memory stays; when the
    data decodes, the decoded value replaces the value in memory and
    nothing else changes; when decoding raises, the exception reaches the
    caller, unlike an encoding error in [write()], and the value in memory
    stays. *)
Theorem read_keeps_refreshes_or_fails (MetaNode_ : pyval -> M ref)
  (st : state) (f : fref) (x : field) (n : node) (s : attr) :
  bound st f x n -> f_class x <> MultiField ->
  slot_of n x = Some s -> a_multi s = false ->
  (a_value s = VNone -> read MetaNode_ f st = (Ok VNone, st)) /\
  (forall v, a_value s <> VNone ->
     from_attribute MetaNode_ (validator x) (a_value s) st = (Ok v, st) ->
     read MetaNode_ f st
     = (Ok VNone, with_fields st (set_nth f (with_value x v) (st_fields st)))) /\
  (forall e, a_value s <> VNone ->
     from_attribute MetaNode_ (validator x) (a_value s) st = (Raise e, st) ->
     read MetaNode_ f st = (Raise e, st)).
Proof.
  intros Hb Hc Hs Hmulti. pose proof Hb as [Hf _].
  assert (Hr : read MetaNode_ f st = Field_read MetaNode_ f st).
  { unfold read. rewrite (bind_ok _ _ _ _ _ (get_field_ok _ _ _ Hf)).
    destruct (f_class x); congruence. }
  rewrite Hr, (Field_read_run MetaNode_ _ _ _ _ _ Hb Hs Hmulti).
  split; [|split].
  - now intros ->.
  - intros v Hnn Hdec.
    assert (Hrun : (v0 <- from_attribute MetaNode_ (validator x) (a_value s) ;;
                    set_value f v0 ;;; ret VNone) st
                   = (Ok VNone, with_fields st (set_nth f (with_value x v)
                                                        (st_fields st)))).
    { rewrite (bind_ok _ _ _ _ _ Hdec).
      now rewrite (bind_ok _ _ _ _ _ (set_value_run _ _ _ _ Hf)). }
    destruct (a_value s); try exact Hrun. congruence.
  - intros e Hnn Hdec.
    assert (Hrun : (v0 <- from_attribute MetaNode_ (validator x) (a_value s) ;;
                    set_value f v0 ;;; ret VNone) st = (Raise e, st))
      by now rewrite (bind_raise _ _ _ _ _ Hdec).
    destruct (a_value s); try exact Hrun. congruence.
Qed.

(** Witness for X26: the schema slot of a wrapped transform holds text
    that is not JSON. *)
Lemma read_keeps_refreshes_or_fails_witness :
  let st0 := after new_transform (MetaNode (VStr "transform1")) in
  let broken := mkAttr TString false (VStr "{oops") [] false false false in
  let st := with_scene st0
              (store_attr "transform1" "metanode_fields" broken (st_scene st0)) in
  read MetaNode 1%nat st0 = (Ok VNone, st0) /\
  read MetaNode 1%nat st
  = (Raise (ValueError "No JSON object could be decoded"), st).
Proof.
  intros st0 broken st.
  set (x := mkField Field JsonValidator TString 0%nat "metanode_fields"
              (VDict [("metanode_fields", descriptor JsonValidator private false);
                      ("metanode_type", descriptor StringValidator private false);
                      ("is_initialized", descriptor BoolValidator private false)])).
  split.
  - destruct (read_keeps_refreshes_or_fails MetaNode st0 1%nat x
                (wrapped_node []) (fresh_slot TString false))
      as [H _]; [bound_here|discriminate|reflexivity|reflexivity|].
    apply H. reflexivity.
  - destruct (read_keeps_refreshes_or_fails MetaNode st 1%nat x
                (renode (wrapped_node []) "metanode_fields" broken) broken)
      as [_ [_ H]]; [bound_here|discriminate|reflexivity|reflexivity|].
    apply H; [discriminate|]. vm_compute. reflexivity.
Defined.

Lemma Quiet_MultiField_clear (f : fref) : Quiet (MultiField_clear f).
Proof. unfold MultiField_clear, clear_maya_attribute. quiet. Qed.

(** X27.  What the operations of a field never touch.  Creating the slot,
    writing, setting and clearing a field only ever change the scene, the
    values held by field objects and the log: however they end, normally
    or with an exception, the [MetaNode] instances with their field maps,
    the identity cache and the imported classes are exactly as before, no
    field object changes its class, validator, name or owner, and no
    field is declared. *)
Theorem field_operations_are_quiet (f : fref) (v : pyval) (st st' : state) :
  (forall res, create_attribute f st = (res, st') -> quiet st st') /\
  (forall res, write f st = (res, st') -> quiet st st') /\
  (forall res, set f v st = (res, st') -> quiet st st') /\
  (forall res, MultiField_clear f st = (res, st') -> quiet st st').
Proof.
  split; [|split; [|split]]; intros res H.
  - exact (Quiet_create_attribute f st res st' H).
  - exact (Quiet_write f st res st' H).
  - exact (Quiet_set f v st res st' H).
  - exact (Quiet_MultiField_clear f st res st' H).
Qed.

Lemma field_operations_are_quiet_witness :
  let st := after new_transform
              (declare_and_set IntValidator "count" private false (VInt 10)) in
  quiet st (snd (write 4%nat st)) /\ quiet st (snd (set 4%nat (VInt 3) st)).
Proof.
  intros st. split.
  - destruct (field_operations_are_quiet 4%nat VNone st (snd (write 4%nat st)))
      as [_ [H _]].
    apply (H (fst (write 4%nat st))). now destruct (write 4%nat st).
  - destruct (field_operations_are_quiet 4%nat (VInt 3) st
                (snd (set 4%nat (VInt 3) st))) as [_ [_ [H _]]].
    apply (H (fst (set 4%nat (VInt 3) st))). now destruct (set 4%nat (VInt 3) st).
Defined.

(** ** The constructor on a cached instance of another class *)

(** X28.  The class asked for does not override the identity cache.  When
    the cache holds, for the durable id of the node, an instance whose
    class is neither the class called nor one of its subclasses, the call
    [cls(node)] returns that instance and changes nothing at all:
    [__init__] is not run, because the object [__new__] returned is not an
    instance of [cls]. *)
Theorem cached_instance_of_other_class (fuel : nat) (cls name : string)
  (st : state) (n : node) (r : ref) (m : metanode) :
  find_node name (st_scene st) = Some n ->
  registered (n_uuid n) r st ->
  nth_error (st_heap st) r = Some m ->
  isinstance (st_classes st) (m_class m) cls = false ->
  MetaNode_call (S fuel) cls (VStr name) st = (Ok r, st).
Proof.
  intros Hn Hr Hm Hi.
  rewrite (MetaNode_call_hit fuel cls name st n r Hn Hr).
  rewrite (bind_ok _ _ _ _ _ (get_metanode_ok _ _ _ Hm)).
  unfold bind at 1. now rewrite Hi.
Qed.

(** Witness for X28: the transform is wrapped as a plain [MetaNode]; the
    subclass [Rig] is then called on it. *)
Lemma cached_instance_of_other_class_witness :
  let st := snd (MetaNode (VStr "transform1")
                          (fresh_process new_transform [("Rig", "MetaNode")])) in
  MetaNode_call 5 "Rig" (VStr "transform1") st = (Ok 0%nat, st).
Proof.
  intros st.
  apply (cached_instance_of_other_class 4 "Rig" "transform1" st
           (wrapped_node []) 0%nat
           (mkMetaNode "MetaNode" "UUID-1"
              [("metanode_fields", 1%nat); ("metanode_type", 2%nat);
               ("is_initialized", 3%nat)])).
  - vm_compute. reflexivity.
  - vm_compute. reflexivity.
  - vm_compute. reflexivity.
  - vm_compute. reflexivity.
Defined.

(** ** Creation options *)



(** ** A bulk flush and the values that do not encode *)

Lemma for_each_app {A} (l1 l2 : list A) (body : A -> M unit) (st : state) :
  for_each (l1 ++ l2) body st = (for_each l1 body ;;; for_each l2 body) st.
Proof.
  revert st. induction l1 as [|a l1 IH]; intros st; simpl.
  - reflexivity.
  - unfold bind. destruct (body a st) as [[[]| |] s1]; try reflexivity.
    rewrite IH. reflexivity.
Qed.

(** X30.  A bulk flush goes on past a single field whose value does not
    encode.  When [write_fields()] reaches a single field, private or
    public, whose value in memory makes the validator raise, that field's
    [write()] returns normally: the error is logged as a warning and the
    scene is not touched, the slot keeping what it held and its lock.  The
    bulk flush then continues with the fields that follow, from a state
    that differs only by the log. *)
Theorem write_fields_skips_unencodable (st st1 st2 : state) (r : ref)
  (m : metanode) (items1 items2 : list (string * fref)) (name : string)
  (f : fref) (x : field) (e : exn) :
  nth_error (st_heap st) r = Some m ->
  fields m = (items1 ++ (name, f) :: items2)%list ->
  for_each items1 (fun kv => write (snd kv)) st = (Ok tt, st1) ->
  nth_error (st_fields st1) f = Some x ->
  f_class x <> MultiField ->
  to_attribute (validator x) (_value x) st1 = (Raise e, st2) ->
  write f st1 = (Ok tt, with_event st1 (EvWarning e)) /\
  write_fields r st
  = for_each items2 (fun kv => write (snd kv)) (with_event st1 (EvWarning e)).
Proof.
  intros Hm Hfields Hpre Hf Hc E.
  pose proof (Field_write_soft_fail st1 st2 f x e Hf Hc E) as Hw.
  split; [exact Hw|].
  unfold write_fields. rewrite (bind_ok _ _ _ _ _ (get_metanode_ok _ _ _ Hm)).
  rewrite Hfields, for_each_app. rewrite (bind_ok _ _ _ _ _ Hpre).
  cbn [for_each snd]. now rewrite (bind_ok _ _ _ _ _ Hw).
Qed.

(** Witness for X30: the integer field [count] holds the text [a]; the
    flush returns normally, the slot keeps 0 and the reserved fields are
    flushed. *)
Lemma write_fields_skips_unencodable_witness :
  let st := after new_transform
              (declare_and_set IntValidator "count" private false (VStr "a")) in
  fst (write_fields 0%nat st) = Ok tt /\
  getAttr "transform1" "count" (st_scene (snd (write_fields 0%nat st)))
  = Ok (VInt 0) /\
  getAttr "transform1" "metanode_type" (st_scene (snd (write_fields 0%nat st)))
  = Ok (VStr "MetaNode").
Proof.
  intros st.
  set (items1 := [("metanode_fields", 1%nat); ("metanode_type", 2%nat);
                  ("is_initialized", 3%nat)]).
  set (st1 := snd (for_each items1 (fun kv => write (snd kv)) st)).
  destruct (write_fields_skips_unencodable st st1 st1 0%nat
              (mkMetaNode "MetaNode" "UUID-1" (items1 ++ [("count", 4%nat)]))
              items1 [] "count" 4%nat
              (mkField Field IntValidator TLong 0%nat "count" (VStr "a"))
              (ValueError "invalid literal for int()"))
    as [_ H].
  - vm_compute. reflexivity.
  - reflexivity.
  - vm_compute. reflexivity.
  - vm_compute. reflexivity.
  - discriminate.
  - vm_compute. reflexivity.
  - rewrite H. split; [reflexivity|]. split; vm_compute; reflexivity.
Defined.
(** ** Reloading the schema (C1) *)








































